(** * The event-to-span converter of the streaming-tail worker

    A shallow embedding of [src/index.ts]: the [CloudflareToOtelConverter]
    class that turns tail-stream events into OpenTelemetry spans and posts
    them to a collector.  The source file holds two revisions of the class:

    - lines 15-386, which resolve parents and targets through a stack of
      open span ids ([StackBased] below);
    - lines 423-798, which resolve them through the span context that the
      host attaches to every event ([ContextBased] below).

    JavaScript values are modelled as the code sees them: strings as
    [string] (code units restricted to one byte, which covers the
    hexadecimal identifiers the host hands out), numbers as IEEE-754
    binary64 values ([spec_float] with the rounding of the multiplication
    written out), objects and [Map]s as association lists in insertion
    order, exceptions and the network as an explicit completion and world.
    An operation of the language that can throw ([String], [join],
    [JSON.stringify]) answers an [option], [None] standing for the
    TypeError it throws. *)

From Stdlib Require Import ZArith List String Ascii Bool Lia.
From Stdlib Require Import DecimalString DecimalPos SpecFloat.
From Stdlib Require Import Permutation.
Import ListNotations.
Local Open Scope string_scope.
Local Open Scope list_scope.

(** ** Strings *)

(** [String.prototype.toLowerCase] on one code unit (A-Z only). *)
Definition lower_ascii (c : ascii) : ascii :=
  let n := nat_of_ascii c in
  if (65 <=? n)%nat && (n <=? 90)%nat then ascii_of_nat (n + 32) else c.

Fixpoint toLowerCase (s : string) : string :=
  match s with
  | EmptyString => EmptyString
  | String c r => String (lower_ascii c) (toLowerCase r)
  end.

(** The first [k] code units of [fill] repeated for ever; [cur] is what is
    left of the copy being read. *)
Fixpoint fill_prefix (k : nat) (cur fill : string) : string :=
  match k with
  | O => EmptyString
  | S k' =>
      match cur with
      | String c r => String c (fill_prefix k' r fill)
      | EmptyString =>
          match fill with
          | String c r => String c (fill_prefix k' r fill)
          | EmptyString => EmptyString
          end
      end
  end.

(** [String.prototype.padStart(targetLength, fillString)]. *)
Definition padStart (s : string) (targetLength : nat) (fillString : string) : string :=
  fill_prefix (targetLength - String.length s) fillString fillString ++ s.

(** [Array.prototype.join] on strings already converted. *)
Fixpoint join (sep : string) (parts : list string) : string :=
  match parts with
  | [] => ""
  | [p] => p
  | p :: rest => p ++ sep ++ join sep rest
  end.

(** The decimal digits of an integer, with a leading minus sign. *)
Definition decimal (z : Z) : string := NilZero.string_of_int (Z.to_int z).

(** The results of evaluating one expression per element, each of which may
    throw: all the values, or the throw. *)
Fixpoint collect {A : Type} (results : list (option A)) : option (list A) :=
  match results with
  | [] => Some []
  | None :: _ => None
  | Some x :: rest =>
      match collect rest with
      | Some values => Some (x :: values)
      | None => None
      end
  end.

(** ** Numbers *)

Module Number.

Definition prec : Z := 53.
Definition emax : Z := 1024.

(** The Number nearest to an integer. *)
Definition ofZ (z : Z) : spec_float := binary_normalize prec emax z 0 false.

(** [x * y], rounded to nearest, ties to even. *)
Definition mul (x y : spec_float) : spec_float := SFmul prec emax x y.

(** [Number.isInteger]. *)
Definition isInteger (x : spec_float) : bool :=
  match x with
  | S754_zero _ => true
  | S754_finite _ m e =>
      if (0 <=? e)%Z then true else (Z.pos m mod 2 ^ (- e) =? 0)%Z
  | S754_infinity _ | S754_nan => false
  end.

(** The integer a whole Number stands for (its truncation otherwise). *)
Definition toZ (x : spec_float) : Z :=
  match x with
  | S754_finite s m e =>
      let a := if (0 <=? e)%Z then (Z.pos m * 2 ^ e)%Z else (Z.pos m / 2 ^ (- e))%Z in
      if s then (- a)%Z else a
  | _ => 0%Z
  end.

(** [ToBoolean] of a Number: zero and NaN are falsy. *)
Definition truthy (x : spec_float) : bool :=
  match x with
  | S754_zero _ | S754_nan => false
  | _ => true
  end.

End Number.

(** ** Values *)

#[local] Unset Elimination Schemes.
Inductive JsValue : Type :=
| VUndefined
| VNull
| VBool (b : bool)
| VNumber (x : spec_float)
| VBigInt (z : Z)
| VString (s : string)
| VArray (items : list JsValue)
| VObject (props : list (string * JsValue)).
#[local] Set Elimination Schemes.

(** [Object.prototype.hasOwnProperty.call(object, key)]. *)
Definition hasOwn (props : list (string * JsValue)) (key : string) : bool :=
  existsb (fun kv => String.eqb (fst kv) key) props.

(** What the embedding takes from the JavaScript runtime without unfolding
    it: the digits of a Number that is not a whole number of magnitude
    below 2^53, the text that [JSON.stringify] writes for a value it can
    serialise, and [Date.prototype.toISOString] of a time value in
    milliseconds. *)
Class JsHost : Type := {
  Number_digits : spec_float -> string;
  JSON_text : JsValue -> string;
  Date_toISOString : Z -> string
}.

Section Values.
Context {host : JsHost}.

(** [Number.prototype.toString()] in radix 10 prints the shortest digits
    that read back as the same Number.  For a whole number of magnitude
    below 2^53 these are the decimal digits of the integer; from 2^53 on
    they can differ from the integer's own digits (2^60 prints as
    1152921504606847000), so those, like the fractions and the exponent
    forms, are left to the runtime. *)
Definition Number_toString (x : spec_float) : string :=
  match x with
  | S754_nan => "NaN"
  | S754_infinity false => "Infinity"
  | S754_infinity true => "-Infinity"
  | S754_zero _ => "0"
  | S754_finite _ _ _ =>
      if Number.isInteger x && (Z.abs (Number.toZ x) <? 2 ^ 53)%Z
      then decimal (Number.toZ x)
      else Number_digits x
  end.

(** [String(value)].  An array prints its elements joined by commas, with
    [null] and [undefined] elements printed as nothing.  An object is
    converted through its [toString] and [valueOf]: a plain object inherits
    both and prints as [[object Object]]; an object with an own property
    named [toString] hides the inherited method behind a value that is not
    callable (event data holds no functions), [valueOf] then answers the
    object itself or is not callable either, and the conversion throws a
    TypeError. *)
Fixpoint String_of (value : JsValue) : option string :=
  match value with
  | VUndefined => Some "undefined"
  | VNull => Some "null"
  | VBool true => Some "true"
  | VBool false => Some "false"
  | VNumber x => Some (Number_toString x)
  | VBigInt z => Some (decimal z)
  | VString s => Some s
  | VArray items =>
      option_map (join ",")
        (collect (map (fun v => match v with
                                | VUndefined | VNull => Some ""
                                | _ => String_of v
                                end) items))
  | VObject props =>
      if hasOwn props "toString" then None else Some "[object Object]"
  end.

(** What [join] prints for one element. *)
Definition elementText (v : JsValue) : option string :=
  match v with
  | VUndefined | VNull => Some ""
  | _ => String_of v
  end.

(** [array.join(sep)]: throws when the conversion of an element does. *)
Definition Array_join (items : list JsValue) (sep : string) : option string :=
  option_map (join sep) (collect (map elementText items)).

(** Whether a BigInt is among the values that [JSON.stringify] visits. *)
Fixpoint hasBigInt (value : JsValue) : bool :=
  match value with
  | VBigInt _ => true
  | VArray items => existsb hasBigInt items
  | VObject props => existsb (fun kv => match kv with (_, v) => hasBigInt v end) props
  | _ => false
  end.

(** [JSON.stringify(value)]: throws a TypeError on a BigInt, answers
    [undefined] for [undefined] and a string for every other value.  Event
    data is a tree, so the other throw, on a cycle, cannot happen. *)
Definition JSON_stringify (value : JsValue) : option JsValue :=
  if hasBigInt value then None
  else Some (match value with
             | VUndefined => VUndefined
             | _ => VString (JSON_text value)
             end).

End Values.

(** ** Objects used as string-keyed records

    Own enumerable properties in creation order.  Assigning to an existing
    key keeps its place; assigning to [__proto__] reaches the inherited
    setter and creates no own property. *)
Definition JsObject : Type := list (string * JsValue).

Fixpoint Object_get (o : JsObject) (key : string) : option JsValue :=
  match o with
  | [] => None
  | (k, v) :: rest => if String.eqb k key then Some v else Object_get rest key
  end.

Fixpoint Object_assign (o : JsObject) (key : string) (value : JsValue) : JsObject :=
  match o with
  | [] => [(key, value)]
  | (k, v) :: rest =>
      if String.eqb k key then (k, value) :: rest
      else (k, v) :: Object_assign rest key value
  end.

(** [o[key] = value]. *)
Definition Object_set (o : JsObject) (key : string) (value : JsValue) : JsObject :=
  if String.eqb key "__proto__" then o else Object_assign o key value.

Definition digit_of (c : ascii) : option N :=
  let n := N_of_ascii c in
  if (48 <=? n)%N && (n <=? 57)%N then Some (n - 48)%N else None.

Fixpoint digits_value (s : string) (acc : N) : option N :=
  match s with
  | EmptyString => Some acc
  | String c r =>
      match digit_of c with
      | Some d => digits_value r (10 * acc + d)%N
      | None => None
      end
  end.

(** The array index a property key spells, if it is one: a canonical
    decimal numeral below 2^32 - 1. *)
Definition arrayIndex (key : string) : option N :=
  match key with
  | EmptyString => None
  | String "0" EmptyString => Some 0%N
  | String "0" _ => None
  | _ =>
      match digits_value key 0 with
      | Some n => if (n <? 4294967295)%N then Some n else None
      | None => None
      end
  end.

Fixpoint insert_by_index {A : Type} (e : N * A) (l : list (N * A)) : list (N * A) :=
  match l with
  | [] => [e]
  | x :: rest =>
      if (fst e <? fst x)%N then e :: l else x :: insert_by_index e rest
  end.

(** [Object.entries]: array-index keys in ascending order, then the other
    keys in creation order. *)
Definition Object_entries (o : JsObject) : list (string * JsValue) :=
  let indexed :=
    fold_right (fun kv acc =>
                  match arrayIndex (fst kv) with
                  | Some n => insert_by_index (n, kv) acc
                  | None => acc
                  end) [] o in
  map snd indexed ++
  filter (fun kv => match arrayIndex (fst kv) with Some _ => false | None => true end) o.

(** ** The attribute encoder (index.ts 776-792, the same text as 364-380) *)

#[local] Unset Elimination Schemes.
Inductive AnyValue : Type :=
| stringValue (s : string)
| intValue (s : string)
| doubleValue (x : spec_float)
| boolValue (b : bool)
| arrayValue (values : list AnyValue).
#[local] Set Elimination Schemes.

Section Encoder.
Context {host : JsHost}.

(** [None] when [String(value)] in the last branch throws, for the value or
    for an element of it. *)
Fixpoint convertAttributeValue (value : JsValue) : option AnyValue :=
  match value with
  | VString s => Some (stringValue s)
  | VNumber x =>
      if Number.isInteger x then Some (intValue (Number_toString x))
      else Some (doubleValue x)
  | VBool b => Some (boolValue b)
  | VArray items => option_map arrayValue (collect (map convertAttributeValue items))
  | other => option_map stringValue (String_of other)
  end.

End Encoder.

(** [padHex] (index.ts 794-797, the same text as 382-385). *)
Definition padHex (hex : string) (targetLength : nat) : string :=
  toLowerCase (padStart hex targetLength "0").

(** ** Optional strings under JavaScript's truthiness

    A field declared [x?: string] is [None] when it is [undefined].  The code
    tests such fields with [||], [?:] and [!], for which the empty string
    counts as absent as well. *)
Definition truthy (x : option string) : bool :=
  match x with
  | Some (String _ _) => true
  | _ => false
  end.

(** [x || y] on optional strings. *)
Definition or_else (x y : option string) : option string :=
  if truthy x then x else y.

(** [x || 'literal']. *)
Definition or_default (x : option string) (y : string) : string :=
  match x with
  | Some (String c r) => String c r
  | _ => y
  end.

(** ** Dates: a valid [Date] is its time value, in whole milliseconds.
    The host stamps events with valid dates only, for which [getTime]
    answers a number and [toISOString] does not throw. *)
Definition Date : Type := Z.
Bind Scope Z_scope with Date.

Definition Date_getTime (d : Date) : spec_float := Number.ofZ d.

(** ** Span records (interface [OtelSpan], index.ts 411-421 and 3-13) *)

Inductive SpanStatusCode : Type := UNSET | OK | ERROR.
Inductive SpanKind : Type := INTERNAL | SERVER | CLIENT | PRODUCER | CONSUMER.

Module Status.
Record t : Type := { code : SpanStatusCode; message : option string }.
End Status.

Module LogRecord.
Record t : Type := { timestamp : spec_float; fields : JsObject }.
End LogRecord.

Module OtelSpan.
Record t : Type := {
  traceId : string;
  spanId : string;
  parentSpanId : option string;
  operationName : string;
  startTime : spec_float;
  endTime : option spec_float;
  tags : JsObject;
  logs : list LogRecord.t;
  status : option Status.t
}.

(** [span.endTime = x]. *)
Definition set_endTime (x : spec_float) (s : t) : t :=
  {| traceId := traceId s; spanId := spanId s; parentSpanId := parentSpanId s;
     operationName := operationName s; startTime := startTime s;
     endTime := Some x; tags := tags s; logs := logs s; status := status s |}.

(** [span.status = x]. *)
Definition set_status (x : Status.t) (s : t) : t :=
  {| traceId := traceId s; spanId := spanId s; parentSpanId := parentSpanId s;
     operationName := operationName s; startTime := startTime s;
     endTime := endTime s; tags := tags s; logs := logs s; status := Some x |}.

(** [span.tags[key] = value]. *)
Definition set_tag (key : string) (value : JsValue) (s : t) : t :=
  {| traceId := traceId s; spanId := spanId s; parentSpanId := parentSpanId s;
     operationName := operationName s; startTime := startTime s;
     endTime := endTime s; tags := Object_set (tags s) key value;
     logs := logs s; status := status s |}.

(** [span.logs.push(entry)]. *)
Definition push_log (entry : LogRecord.t) (s : t) : t :=
  {| traceId := traceId s; spanId := spanId s; parentSpanId := parentSpanId s;
     operationName := operationName s; startTime := startTime s;
     endTime := endTime s; tags := tags s; logs := logs s ++ [entry];
     status := status s |}.
End OtelSpan.

(** ** [Map<string, OtelSpan>]: entries in insertion order

    [set] on a key already present replaces the value where it stands;
    [mutate] is a write through the reference that [get] returned. *)
Module SpanMap.
Definition t : Type := list (string * OtelSpan.t).

Fixpoint get (m : t) (key : string) : option OtelSpan.t :=
  match m with
  | [] => None
  | (k, v) :: rest => if String.eqb k key then Some v else get rest key
  end.

Fixpoint set (m : t) (key : string) (value : OtelSpan.t) : t :=
  match m with
  | [] => [(key, value)]
  | (k, v) :: rest =>
      if String.eqb k key then (k, value) :: rest
      else (k, v) :: set rest key value
  end.

Fixpoint mutate (m : t) (key : string) (f : OtelSpan.t -> OtelSpan.t) : t :=
  match m with
  | [] => []
  | (k, v) :: rest =>
      if String.eqb k key then (k, f v) :: rest
      else (k, v) :: mutate rest key f
  end.

Fixpoint delete (m : t) (key : string) : t :=
  match m with
  | [] => []
  | (k, v) :: rest =>
      if String.eqb k key then rest else (k, v) :: delete rest key
  end.

(** [Array.from(m.values())]. *)
Definition values (m : t) : list OtelSpan.t := map snd m.

Definition keys (m : t) : list string := map fst m.

(** [m.clear()]. *)
Definition clear (m : t) : t := [].
End SpanMap.

(** ** The OTLP trace-export shape built by [convertToOtelFormat] *)

Module KeyValue.
Record t : Type := { key : string; value : AnyValue }.
End KeyValue.

Module WireEvent.
Record t : Type := {
  timeUnixNano : string;
  name : string;
  attributes : list KeyValue.t
}.
End WireEvent.

Module WireSpan.
Record t : Type := {
  traceId : string;
  spanId : string;
  parentSpanId : option string;
  name : string;
  kind : SpanKind;
  startTimeUnixNano : string;
  endTimeUnixNano : option string;
  attributes : list KeyValue.t;
  events : list WireEvent.t;
  status : option Status.t
}.
End WireSpan.

Module ScopeSpans.
Record t : Type := {
  scope_name : string;
  scope_version : string;
  spans : list WireSpan.t
}.
End ScopeSpans.

Module ResourceSpans.
Record t : Type := {
  resource_attributes : list KeyValue.t;
  scopeSpans : list ScopeSpans.t
}.
End ResourceSpans.

Module OtelTrace.
Record t : Type := { resourceSpans : list ResourceSpans.t }.
End OtelTrace.

Section Formatter.
Context {host : JsHost}.

(** [Object.entries(o).map(([key, value]) => ({ key, value: convert(value) }))]. *)
Definition convertEntries (o : JsObject) : option (list KeyValue.t) :=
  collect
    (map (fun kv => option_map (fun value => {| KeyValue.key := fst kv;
                                               KeyValue.value := value |})
                      (convertAttributeValue (snd kv)))
         (Object_entries o)).

(** The body of [span.logs.map(log => ...)]. *)
Definition convertLog (log : LogRecord.t) : option WireEvent.t :=
  option_map (fun attributes =>
                {| WireEvent.timeUnixNano := Number_toString (LogRecord.timestamp log);
                   WireEvent.name := "log";
                   WireEvent.attributes := attributes |})
    (convertEntries (LogRecord.fields log)).

(** The body of [spans.map(span => ...)] in [convertToOtelFormat]. *)
Definition convertSpan (span : OtelSpan.t) : option WireSpan.t :=
  match convertEntries (OtelSpan.tags span),
        collect (map convertLog (OtelSpan.logs span)) with
  | Some attributes, Some events =>
      Some
        {| WireSpan.traceId := padHex (OtelSpan.traceId span) 32;
           WireSpan.spanId := padHex (OtelSpan.spanId span) 16;
           WireSpan.parentSpanId :=
             if truthy (OtelSpan.parentSpanId span)
             then option_map (fun p => padHex p 16) (OtelSpan.parentSpanId span)
             else None;
           WireSpan.name := OtelSpan.operationName span;
           WireSpan.kind := SERVER;
           WireSpan.startTimeUnixNano := Number_toString (OtelSpan.startTime span);
           WireSpan.endTimeUnixNano := option_map Number_toString (OtelSpan.endTime span);
           WireSpan.attributes := attributes;
           WireSpan.events := events;
           WireSpan.status :=
             match OtelSpan.status span with
             | Some st =>
                 Some {| Status.code := Status.code st; Status.message := Status.message st |}
             | None => None
             end |}
  | _, _ => None
  end.

(** [convertToOtelFormat] (index.ts 732-774, the same text as 320-362);
    it throws when the encoder throws on a tag or a log field. *)
Definition convertToOtelFormat (spans : list OtelSpan.t) : option OtelTrace.t :=
  option_map
    (fun wire =>
       {| OtelTrace.resourceSpans :=
            [{| ResourceSpans.resource_attributes :=
                  [{| KeyValue.key := "service.name";
                      KeyValue.value := stringValue "cloudflare-worker" |};
                   {| KeyValue.key := "service.version";
                      KeyValue.value := stringValue "1.0.0" |}];
                ResourceSpans.scopeSpans :=
                  [{| ScopeSpans.scope_name := "cloudflare-worker-tracer";
                      ScopeSpans.scope_version := "1.0.0";
                      ScopeSpans.spans := wire |}] |}] |})
    (collect (map convertSpan spans)).

End Formatter.

(** The spans a payload carries, across its resource and scope groups. *)
Definition exportedSpans (trace : OtelTrace.t) : list WireSpan.t :=
  flat_map (fun rs => flat_map ScopeSpans.spans (ResourceSpans.scopeSpans rs))
           (OtelTrace.resourceSpans trace).

(** [ToBoolean]. *)
Definition ToBoolean (v : JsValue) : bool :=
  match v with
  | VUndefined | VNull => false
  | VBool b => b
  | VNumber x => Number.truthy x
  | VBigInt z => negb (z =? 0)%Z
  | VString s => negb (String.eqb s "")
  | VArray _ | VObject _ => true
  end.

(** ** Tail-stream events *)

(** Modelled from the spec: the [TailStream] event types, whose declarations
    are not part of the sources.  Every event carries a timestamp, a span
    context (trace identifier plus an optional current span identifier) and
    a kind-specific payload; the payload fields are the ones the handlers
    read.  A field an event may lack, or may carry in a shape that is not an
    array, is an [option]. *)
Module SpanContext.
Record t : Type := { traceId : string; spanId : option string }.
End SpanContext.

Module Attribute.
Record t : Type := { name : string; value : JsValue }.
End Attribute.

Inductive OnsetInfo : Type :=
| FetchEventInfo (method url : string) (cfJson : JsValue)
| ScheduledEventInfo (scheduledTime : Date) (cron : string)
| QueueEventInfo (queueName : string) (batchSize : spec_float)
| EmailEventInfo (mailFrom : string)
| JsRpcEventInfo (methodName : string)
| AlarmEventInfo
| CustomEventInfo
| TraceEventInfo
| HibernatableWebSocketEventInfo (inner_type : string)
| OtherEventInfo (type : string).

Module Onset.
Record t : Type := {
  spanId : string;
  info : OnsetInfo;
  scriptName : option string;
  scriptVersion_id : option string;
  executionModel : string;
  dispatchNamespace : option string;
  entrypoint : option string;
  scriptTags : option (list string);
  attributes : option (list Attribute.t)
}.
End Onset.

Inductive SpanOpenInfo : Type :=
| SpanFetchInfo (method url : string)
| SpanAttributesInfo (info : option (list Attribute.t))
| SpanOtherInfo.

Module SpanOpen.
Record t : Type := { spanId : string; name : string; info : option SpanOpenInfo }.
End SpanOpen.

Module Attributes.
Record t : Type := { info : option (list Attribute.t) }.
End Attributes.

Module Log.
Record t : Type := { level : string; message : JsValue }.
End Log.

Module SpanClose.
Record t : Type := { outcome : string }.
End SpanClose.

Module Outcome.
Record t : Type := { outcome : string; cpuTime : spec_float; wallTime : spec_float }.
End Outcome.

Module Exception.
Record t : Type := { name : string; message : string; stack : option string }.
End Exception.

Module FetchResponseInfo.
Record t : Type := { type : string; statusCode : spec_float }.
End FetchResponseInfo.

Module Return.
Record t : Type := { info : option FetchResponseInfo.t }.
End Return.

Module DiagnosticChannelEvent.
Record t : Type := { channel : string; message : JsValue }.
End DiagnosticChannelEvent.

Inductive EventType : Type :=
| onset (e : Onset.t)
| spanOpen (e : SpanOpen.t)
| attributes (e : Attributes.t)
| log (e : Log.t)
| spanClose (e : SpanClose.t)
| outcome (e : Outcome.t)
| exception (e : Exception.t)
| return_ (e : Return.t)
| diagnosticChannel (e : DiagnosticChannelEvent.t)
| unknownEvent (type : string).

Module TailEvent.
Record t (E : Type) : Type := {
  event : E;
  spanContext : SpanContext.t;
  timestamp : Date
}.
Arguments event {E} _.
Arguments spanContext {E} _.
Arguments timestamp {E} _.

(** [event as TailStream.TailEvent<E'>], once the switch has read the tag. *)
Definition cast {E E' : Type} (ev : t E) (payload : E') : t E' :=
  {| event := payload; spanContext := spanContext ev; timestamp := timestamp ev |}.
End TailEvent.

(** ** Effects: exceptions, the network and the console

    A computation runs on the converter instance [C] and the world, and
    completes normally or throws; what it wrote before throwing stays
    written.  The world answers the n-th [fetch] by resolving ([None]) or
    by rejecting with an error ([Some e]); it records every request made
    and every [console.error] line.  An [await] is run to completion where
    it stands. *)

Module Request.
Record t : Type := {
  url : string;
  method : string;
  headers : list (string * string);
  body : OtelTrace.t
}.
End Request.

Module World.
Record t : Type := {
  network : nat -> option string;
  requests : list Request.t;
  console : list (string * string)
}.
End World.

Inductive Completion (A : Type) : Type :=
| Normal (a : A)
| Throw (error : string).
Arguments Normal {A} a.
Arguments Throw {A} error.

Definition Js (C A : Type) : Type := C * World.t -> Completion A * (C * World.t).

Definition ret {C A : Type} (a : A) : Js C A := fun s => (Normal a, s).

Definition bind {C A B : Type} (m : Js C A) (k : A -> Js C B) : Js C B :=
  fun s =>
    match m s with
    | (Normal a, s') => k a s'
    | (Throw e, s') => (Throw e, s')
    end.

Definition throw {C A : Type} (e : string) : Js C A := fun s => (Throw e, s).

(** [try { body } catch (error) { handler(error) }]. *)
Definition try_catch {C A : Type} (body : Js C A) (handler : string -> Js C A) : Js C A :=
  fun s =>
    match body s with
    | (Normal a, s') => (Normal a, s')
    | (Throw e, s') => handler e s'
    end.

(** Read the instance. *)
Definition this {C : Type} : Js C C := fun s => (Normal (fst s), s).

(** Write the instance. *)
Definition update {C : Type} (f : C -> C) : Js C unit :=
  fun s => (Normal tt, (f (fst s), snd s)).

(** [await fetch(url, { method, headers, body })]. *)
Definition fetch {C : Type} (req : Request.t) : Js C unit :=
  fun s =>
    let w := snd s in
    let w' := {| World.network := World.network w;
                 World.requests := World.requests w ++ [req];
                 World.console := World.console w |} in
    match World.network w (List.length (World.requests w)) with
    | None => (Normal tt, (fst s, w'))
    | Some e => (Throw e, (fst s, w'))
    end.

(** [console.error(text, error)]. *)
Definition console_error {C : Type} (text error : string) : Js C unit :=
  fun s =>
    let w := snd s in
    (Normal tt, (fst s, {| World.network := World.network w;
                           World.requests := World.requests w;
                           World.console := World.console w ++ [(text, error)] |})).

(** The TypeErrors of the language that the handlers can meet. *)
Definition cannotConvert : string := "TypeError: Cannot convert object to primitive value".
Definition cannotSerialize : string := "TypeError: Do not know how to serialize a BigInt".

(** The value of an operation that may have thrown [error]. *)
Definition or_throw {C A : Type} (result : option A) (error : string) : Js C A :=
  match result with
  | Some a => ret a
  | None => throw error
  end.

(** A call of an async function whose promise nobody awaits or catches:
    the call runs, and a rejection does not reach the caller. *)
Definition unawaited {C : Type} (call : Js C unit) : Js C unit :=
  fun s => (Normal tt, snd (call s)).

Declare Scope js_scope.
Delimit Scope js_scope with js.
Notation "x <- m ;; k" := (bind m (fun x => k))
  (at level 61, m at next level, right associativity) : js_scope.
Notation "m ;; k" := (bind m (fun _ => k))
  (at level 61, right associativity) : js_scope.

(** [for (const x of xs) body(x)] over an array of pure updates. *)
Definition for_of {A B : Type} (xs : list A) (body : A -> B -> B) (init : B) : B :=
  fold_left (fun acc x => body x acc) xs init.

(** ** Helpers with the same text in both revisions *)

(** The JavaScript value of an optional string field. *)
Definition optString (x : option string) : JsValue :=
  match x with
  | Some s => VString s
  | None => VUndefined
  end.

(** [getOperationName] (index.ts 616-639, the same text as 212-235). *)
Definition getOperationName (info : OnsetInfo) : string :=
  match info with
  | FetchEventInfo method url _ => method ++ " " ++ url
  | ScheduledEventInfo _ cron => "scheduled:" ++ cron
  | QueueEventInfo queueName _ => "queue:" ++ queueName
  | EmailEventInfo mailFrom => "email:" ++ mailFrom
  | JsRpcEventInfo methodName => "rpc:" ++ methodName
  | AlarmEventInfo => "alarm"
  | CustomEventInfo => "custom"
  | TraceEventInfo => "trace"
  | HibernatableWebSocketEventInfo inner_type => "websocket:" ++ inner_type
  | OtherEventInfo _ => "unknown"
  end.

Section OnsetTags.
Context {host : JsHost}.

(** [extractTags] up to its last loop (index.ts 642-672, the same text as
    238-268); it throws when [JSON.stringify] does. *)
Definition baseTags (onset : Onset.t) : option JsObject :=
  let tags : JsObject :=
    [("service.name", VString (or_default (Onset.scriptName onset) "cloudflare-worker"));
     ("service.version", VString (or_default (Onset.scriptVersion_id onset) "unknown"));
     ("execution.model", VString (Onset.executionModel onset))] in
  let tags :=
    if truthy (Onset.dispatchNamespace onset)
    then Object_set tags "dispatch.namespace" (optString (Onset.dispatchNamespace onset))
    else tags in
  let tags :=
    if truthy (Onset.entrypoint onset)
    then Object_set tags "entrypoint" (optString (Onset.entrypoint onset))
    else tags in
  let tags :=
    match Onset.scriptTags onset with
    | Some scriptTags => Object_set tags "script.tags" (VString (join "," scriptTags))
    | None => tags
    end in
  match Onset.info onset with
  | FetchEventInfo method url cfJson =>
      let tags := Object_set tags "http.method" (VString method) in
      let tags := Object_set tags "http.url" (VString url) in
      if ToBoolean cfJson
      then option_map (Object_set tags "cf.properties") (JSON_stringify cfJson)
      else Some tags
  | ScheduledEventInfo scheduledTime cron =>
      let tags := Object_set tags "cron.expression" (VString cron) in
      Some (Object_set tags "scheduled.time" (VString (Date_toISOString scheduledTime)))
  | QueueEventInfo queueName batchSize =>
      let tags := Object_set tags "queue.name" (VString queueName) in
      Some (Object_set tags "queue.batch_size" (VNumber batchSize))
  | _ => Some tags
  end.

(** [Array.isArray(log.message) ? log.message.join(' ') : log.message]
    (index.ts 520, the same text as 118). *)
Definition logMessage (message : JsValue) : option JsValue :=
  match message with
  | VArray items => option_map VString (Array_join items " ")
  | message => Some message
  end.

(** [typeof message === 'string' ? message : JSON.stringify(message)]
    (index.ts 584, the same text as 188). *)
Definition diagnosticMessage (message : JsValue) : option JsValue :=
  match message with
  | VString s => Some (VString s)
  | message => JSON_stringify message
  end.

End OnsetTags.

(** [for (const attr of attrs) tags[attr.name] = attr.value]. *)
Definition assignAttributes (attrs : list Attribute.t) (tags : JsObject) : JsObject :=
  for_of attrs (fun attr tags => Object_set tags (Attribute.name attr) (Attribute.value attr)) tags.

(** [timestamp.getTime() * 1000000]. *)
Definition nanoseconds (timestamp : Date) : spec_float :=
  Number.mul (Date_getTime timestamp) (Number.ofZ 1000000).

(** [outcome === 'ok' ? SpanStatusCode.OK : SpanStatusCode.ERROR], with the
    outcome as message. *)
Definition outcomeStatus (outcome : string) : Status.t :=
  {| Status.code := if String.eqb outcome "ok" then OK else ERROR;
     Status.message := Some outcome |}.

Local Open Scope js_scope.

(** ** The context-based revision (index.ts 423-798) *)

Module ContextBased.

Record Converter : Type := {
  spans : SpanMap.t;
  otelEndpoint : string
}.

(** [new CloudflareToOtelConverter(otelEndpoint)]. *)
Definition new (otelEndpoint : option string) : Converter :=
  {| spans := [];
     otelEndpoint := match otelEndpoint with
                     | Some e => e
                     | None => "http://localhost:4318/v1/traces"
                     end |}.

(** A write to [this.spans]. *)
Definition on_spans (f : SpanMap.t -> SpanMap.t) : Js Converter unit :=
  update (fun c => {| spans := f (spans c); otelEndpoint := otelEndpoint c |}).

(** [this.spans.get(key!)]: no entry is stored under [undefined]. *)
Definition lookup (c : Converter) (key : option string) : option OtelSpan.t :=
  match key with
  | Some k => SpanMap.get (spans c) k
  | None => None
  end.

(** [const span = this.spans.get(key!); if (span) { f(span) }]. *)
Definition if_span (key : option string) (f : OtelSpan.t -> OtelSpan.t) : Js Converter unit :=
  c <- this ;;
  match key, lookup c key with
  | Some k, Some _ => on_spans (fun m => SpanMap.mutate m k f)
  | _, _ => ret tt
  end.

(** [const span = this.spans.get(key!); if (span) { span.f(arg) }], where
    evaluating [arg] can throw [error]: nothing is evaluated without a
    span, and nothing is written when the evaluation throws. *)
Definition if_span_with {A : Type} (key : option string) (arg : option A) (error : string)
  (f : A -> OtelSpan.t -> OtelSpan.t) : Js Converter unit :=
  c <- this ;;
  match key, lookup c key with
  | Some k, Some _ =>
      a <- or_throw arg error ;;
      on_spans (fun m => SpanMap.mutate m k (f a))
  | _, _ => ret tt
  end.

Section Handlers.
Context {host : JsHost}.

Definition extractTags (onset : Onset.t) : option JsObject :=
  match baseTags onset with
  | Some tags =>
      match Onset.attributes onset with
      | Some attrs => Some (assignAttributes attrs tags)
      | None => Some tags
      end
  | None => None
  end.

Definition extractSpanInfo (info : option SpanOpenInfo) : JsObject :=
  match info with
  | None => []
  | Some (SpanFetchInfo method url) =>
      [("http.method", VString method); ("http.url", VString url)]
  | Some (SpanAttributesInfo attrs) =>
      match attrs with
      | Some attrs => assignAttributes attrs []
      | None => []
      end
  | Some SpanOtherInfo => []
  end.

Definition handleOnset (event : TailEvent.t Onset.t) : Js Converter unit :=
  let onset := TailEvent.event event in
  let spanContext := TailEvent.spanContext event in
  let timestamp := TailEvent.timestamp event in
  tags <- or_throw (extractTags onset) cannotSerialize ;;
  let span :=
    {| OtelSpan.traceId := SpanContext.traceId spanContext;
       OtelSpan.spanId := Onset.spanId onset;
       OtelSpan.parentSpanId := or_else (SpanContext.spanId spanContext) None;
       OtelSpan.operationName := getOperationName (Onset.info onset);
       OtelSpan.startTime := nanoseconds timestamp;
       OtelSpan.endTime := None;
       OtelSpan.tags := tags;
       OtelSpan.logs := [];
       OtelSpan.status := None |} in
  on_spans (fun m => SpanMap.set m (OtelSpan.spanId span) span).

Definition handleSpanOpen (event : TailEvent.t SpanOpen.t) : Js Converter unit :=
  let spanOpen := TailEvent.event event in
  let spanContext := TailEvent.spanContext event in
  let timestamp := TailEvent.timestamp event in
  let span :=
    {| OtelSpan.traceId := SpanContext.traceId spanContext;
       OtelSpan.spanId := SpanOpen.spanId spanOpen;
       OtelSpan.parentSpanId := SpanContext.spanId spanContext;
       OtelSpan.operationName := SpanOpen.name spanOpen;
       OtelSpan.startTime := nanoseconds timestamp;
       OtelSpan.endTime := None;
       OtelSpan.tags := match SpanOpen.info spanOpen with
                        | Some info => extractSpanInfo (Some info)
                        | None => []
                        end;
       OtelSpan.logs := [];
       OtelSpan.status := None |} in
  on_spans (fun m => SpanMap.set m (OtelSpan.spanId span) span).

Definition handleAttributes (event : TailEvent.t Attributes.t) : Js Converter unit :=
  let attributes := TailEvent.event event in
  let spanContext := TailEvent.spanContext event in
  match Attributes.info attributes with
  | Some info =>
      if_span (SpanContext.spanId spanContext)
        (fun span => for_of info
           (fun attr => OtelSpan.set_tag (Attribute.name attr) (Attribute.value attr)) span)
  | None => ret tt
  end.

Definition handleLog (event : TailEvent.t Log.t) : Js Converter unit :=
  let log := TailEvent.event event in
  let spanContext := TailEvent.spanContext event in
  let timestamp := TailEvent.timestamp event in
  if_span_with (SpanContext.spanId spanContext)
    (logMessage (Log.message log)) cannotConvert
    (fun message =>
       OtelSpan.push_log
         {| LogRecord.timestamp := nanoseconds timestamp;
            LogRecord.fields :=
              [("level", VString (Log.level log));
               ("message", message)] |}).

Definition handleSpanClose (event : TailEvent.t SpanClose.t) : Js Converter unit :=
  let timestamp := TailEvent.timestamp event in
  let spanContext := TailEvent.spanContext event in
  if_span (SpanContext.spanId spanContext)
    (fun span =>
       OtelSpan.set_status (outcomeStatus (SpanClose.outcome (TailEvent.event event)))
         (OtelSpan.set_endTime (nanoseconds timestamp) span)).

Definition handleException (event : TailEvent.t Exception.t) : Js Converter unit :=
  let exception := TailEvent.event event in
  let spanContext := TailEvent.spanContext event in
  let timestamp := TailEvent.timestamp event in
  if_span (SpanContext.spanId spanContext)
    (fun span =>
       OtelSpan.set_status
         {| Status.code := ERROR; Status.message := Some (Exception.message exception) |}
         (OtelSpan.push_log
            {| LogRecord.timestamp := nanoseconds timestamp;
               LogRecord.fields :=
                 [("level", VString "error");
                  ("exception.type", VString (Exception.name exception));
                  ("exception.message", VString (Exception.message exception));
                  ("exception.stacktrace", VString (or_default (Exception.stack exception) ""))] |}
            span)).

Definition handleReturn (event : TailEvent.t Return.t) : Js Converter unit :=
  let returnEvent := TailEvent.event event in
  let spanContext := TailEvent.spanContext event in
  match Return.info returnEvent with
  | Some info =>
      if String.eqb (FetchResponseInfo.type info) "fetch"
      then if_span (SpanContext.spanId spanContext)
             (OtelSpan.set_tag "http.response.status_code"
                (VNumber (FetchResponseInfo.statusCode info)))
      else ret tt
  | None => ret tt
  end.

Definition handleDiagnosticChannel (event : TailEvent.t DiagnosticChannelEvent.t)
  : Js Converter unit :=
  let diagnostic := TailEvent.event event in
  let spanContext := TailEvent.spanContext event in
  let timestamp := TailEvent.timestamp event in
  if_span_with (SpanContext.spanId spanContext)
    (diagnosticMessage (DiagnosticChannelEvent.message diagnostic)) cannotSerialize
    (fun message =>
       OtelSpan.push_log
         {| LogRecord.timestamp := nanoseconds timestamp;
            LogRecord.fields :=
              [("level", VString "debug");
               ("diagnostic.channel", VString (DiagnosticChannelEvent.channel diagnostic));
               ("diagnostic.message", message)] |}).

(** The payload is built before the [try]: a throw of the formatter is not
    caught here. *)
Definition sendToOtel (spans : list OtelSpan.t) : Js Converter unit :=
  otelTrace <- or_throw (convertToOtelFormat spans) cannotConvert ;;
  c <- this ;;
  try_catch
    (fetch {| Request.url := otelEndpoint c;
              Request.method := "POST";
              Request.headers := [("Content-Type", "application/json")];
              Request.body := otelTrace |})
    (fun error => console_error "Failed to export traces to OTEL endpoint:" error).

Definition exportSpans : Js Converter unit :=
  c <- this ;;
  let allSpans := SpanMap.values (spans c) in
  if (List.length allSpans =? 0)%nat then ret tt
  else
    sendToOtel allSpans ;;
    on_spans SpanMap.clear.

(** What the outcome handler writes into the root span. *)
Definition closeRoot (timestamp : Date) (outcome : Outcome.t) (rootSpan : OtelSpan.t)
  : OtelSpan.t :=
  let rootSpan := OtelSpan.set_endTime (nanoseconds timestamp) rootSpan in
  let rootSpan := OtelSpan.set_status (outcomeStatus (Outcome.outcome outcome)) rootSpan in
  let rootSpan := OtelSpan.set_tag "cpu.time.ms" (VNumber (Outcome.cpuTime outcome)) rootSpan in
  OtelSpan.set_tag "wall.time.ms" (VNumber (Outcome.wallTime outcome)) rootSpan.

(** [span => !span.parentSpanId]. *)
Definition parentless (span : OtelSpan.t) : bool :=
  negb (truthy (OtelSpan.parentSpanId span)).

(** A write through the reference that
    [Array.from(this.spans.values()).find(p)] returned. *)
Fixpoint mutate_found (m : SpanMap.t) (p : OtelSpan.t -> bool)
  (f : OtelSpan.t -> OtelSpan.t) : SpanMap.t :=
  match m with
  | [] => []
  | (k, v) :: rest =>
      if p v then (k, f v) :: rest else (k, v) :: mutate_found rest p f
  end.

(** The flush that the handler starts is run to its end here: the outcome
    is the last event of an invocation.  The handler does not await it, so
    a flush that throws does not make the handler throw. *)
Definition handleOutcome (event : TailEvent.t Outcome.t) : Js Converter unit :=
  let outcome := TailEvent.event event in
  let spanContext := TailEvent.spanContext event in
  let timestamp := TailEvent.timestamp event in
  (if truthy (SpanContext.spanId spanContext)
   then if_span (SpanContext.spanId spanContext) (closeRoot timestamp outcome)
   else on_spans (fun m => mutate_found m parentless (closeRoot timestamp outcome))) ;;
  unawaited exportSpans.

Definition handleEvent (event : TailEvent.t EventType) : Js Converter unit :=
  match TailEvent.event event with
  | onset e => handleOnset (TailEvent.cast event e)
  | spanOpen e => handleSpanOpen (TailEvent.cast event e)
  | attributes e => handleAttributes (TailEvent.cast event e)
  | log e => handleLog (TailEvent.cast event e)
  | spanClose e => handleSpanClose (TailEvent.cast event e)
  | outcome e => handleOutcome (TailEvent.cast event e)
  | exception e => handleException (TailEvent.cast event e)
  | return_ e => handleReturn (TailEvent.cast event e)
  | diagnosticChannel e => handleDiagnosticChannel (TailEvent.cast event e)
  | unknownEvent _ => ret tt
  end.

(** The handler that [tailStream] returns, applied to the events of one
    invocation in order.  A handler that throws ends the stream: the
    exception goes to the runtime, and the events behind it are not
    handled. *)
Fixpoint handleEvents (events : list (TailEvent.t EventType)) : Js Converter unit :=
  match events with
  | [] => ret tt
  | event :: rest => handleEvent event ;; handleEvents rest
  end.

(** [tailStream(initialOnset, env, ctx)] followed by the stream: a fresh
    converter handles the initial onset at once, then every later event. *)
Definition tailStream (initialOnset : TailEvent.t Onset.t) (OTEL_ENDPOINT : option string)
  (events : list (TailEvent.t EventType)) (w : World.t)
  : Completion unit * (Converter * World.t) :=
  (handleEvent (TailEvent.cast initialOnset (onset (TailEvent.event initialOnset))) ;;
   handleEvents events) (new OTEL_ENDPOINT, w).

End Handlers.
End ContextBased.

(** ** The stack-based revision (index.ts 15-386) *)

Module StackBased.

Record Converter : Type := {
  spans : SpanMap.t;
  otelEndpoint : string;
  rootSpanId : option string;
  activeSpanStack : list string
}.

Definition new (otelEndpoint : option string) : Converter :=
  {| spans := [];
     otelEndpoint := match otelEndpoint with
                     | Some e => e
                     | None => "http://localhost:4318/v1/traces"
                     end;
     rootSpanId := None;
     activeSpanStack := [] |}.

Definition on_spans (f : SpanMap.t -> SpanMap.t) : Js Converter unit :=
  update (fun c => {| spans := f (spans c); otelEndpoint := otelEndpoint c;
                      rootSpanId := rootSpanId c;
                      activeSpanStack := activeSpanStack c |}).

(** [this.activeSpanStack[this.activeSpanStack.length - 1]]. *)
Definition top (c : Converter) : option string :=
  match rev (activeSpanStack c) with
  | [] => None
  | x :: _ => Some x
  end.

Definition lookup (c : Converter) (key : option string) : option OtelSpan.t :=
  match key with
  | Some k => SpanMap.get (spans c) k
  | None => None
  end.

(** [const span = this.spans.get(key); if (span) { f(span) }]. *)
Definition if_span (key : option string) (f : OtelSpan.t -> OtelSpan.t) : Js Converter unit :=
  c <- this ;;
  match key, lookup c key with
  | Some k, Some _ => on_spans (fun m => SpanMap.mutate m k f)
  | _, _ => ret tt
  end.

(** [spanContext.spanId || this.activeSpanStack[this.activeSpanStack.length - 1]]. *)
Definition targetSpanId (spanContext : SpanContext.t) : Js Converter (option string) :=
  c <- this ;;
  ret (or_else (SpanContext.spanId spanContext) (top c)).

(** [const span = this.spans.get(key); if (span) { span.f(arg) }], where
    evaluating [arg] can throw [error]. *)
Definition if_span_with {A : Type} (key : option string) (arg : option A) (error : string)
  (f : A -> OtelSpan.t -> OtelSpan.t) : Js Converter unit :=
  c <- this ;;
  match key, lookup c key with
  | Some k, Some _ =>
      a <- or_throw arg error ;;
      on_spans (fun m => SpanMap.mutate m k (f a))
  | _, _ => ret tt
  end.

Section Handlers.
Context {host : JsHost}.

(** The last loop runs over [onset.attributes] unguarded: a value that is
    not iterable throws. *)
Definition extractTags (onset : Onset.t) : Js Converter JsObject :=
  tags <- or_throw (baseTags onset) cannotSerialize ;;
  match Onset.attributes onset with
  | Some attrs => ret (assignAttributes attrs tags)
  | None => throw "TypeError: onset.attributes is not iterable"
  end.

Definition extractSpanInfo (info : option SpanOpenInfo) : Js Converter JsObject :=
  match info with
  | None => ret []
  | Some (SpanFetchInfo method url) =>
      ret [("http.method", VString method); ("http.url", VString url)]
  | Some (SpanAttributesInfo attrs) =>
      match attrs with
      | Some attrs => ret (assignAttributes attrs [])
      | None => throw "TypeError: info.info is not iterable"
      end
  | Some SpanOtherInfo => ret []
  end.

Definition handleOnset (event : TailEvent.t Onset.t) : Js Converter unit :=
  let onset := TailEvent.event event in
  let spanContext := TailEvent.spanContext event in
  let timestamp := TailEvent.timestamp event in
  tags <- extractTags onset ;;
  let span :=
    {| OtelSpan.traceId := SpanContext.traceId spanContext;
       OtelSpan.spanId := Onset.spanId onset;
       OtelSpan.parentSpanId := or_else (SpanContext.spanId spanContext) None;
       OtelSpan.operationName := getOperationName (Onset.info onset);
       OtelSpan.startTime := nanoseconds timestamp;
       OtelSpan.endTime := None;
       OtelSpan.tags := tags;
       OtelSpan.logs := [];
       OtelSpan.status := None |} in
  update (fun c =>
    {| spans := SpanMap.set (spans c) (OtelSpan.spanId span) span;
       otelEndpoint := otelEndpoint c;
       rootSpanId := Some (OtelSpan.spanId span);
       activeSpanStack := activeSpanStack c ++ [OtelSpan.spanId span] |}).

Definition handleSpanOpen (event : TailEvent.t SpanOpen.t) : Js Converter unit :=
  let spanOpen := TailEvent.event event in
  let spanContext := TailEvent.spanContext event in
  let timestamp := TailEvent.timestamp event in
  c <- this ;;
  tags <- match SpanOpen.info spanOpen with
          | Some info => extractSpanInfo (Some info)
          | None => ret []
          end ;;
  let span :=
    {| OtelSpan.traceId := SpanContext.traceId spanContext;
       OtelSpan.spanId := SpanOpen.spanId spanOpen;
       OtelSpan.parentSpanId := or_else (top c) (SpanContext.spanId spanContext);
       OtelSpan.operationName := SpanOpen.name spanOpen;
       OtelSpan.startTime := nanoseconds timestamp;
       OtelSpan.endTime := None;
       OtelSpan.tags := tags;
       OtelSpan.logs := [];
       OtelSpan.status := None |} in
  update (fun c =>
    {| spans := SpanMap.set (spans c) (OtelSpan.spanId span) span;
       otelEndpoint := otelEndpoint c;
       rootSpanId := rootSpanId c;
       activeSpanStack := activeSpanStack c ++ [OtelSpan.spanId span] |}).

Definition handleAttributes (event : TailEvent.t Attributes.t) : Js Converter unit :=
  let attributes := TailEvent.event event in
  let spanContext := TailEvent.spanContext event in
  target <- targetSpanId spanContext ;;
  c <- this ;;
  match lookup c target with
  | Some _ =>
      match Attributes.info attributes with
      | Some info =>
          if_span target
            (fun span => for_of info
               (fun attr => OtelSpan.set_tag (Attribute.name attr) (Attribute.value attr)) span)
      | None => throw "TypeError: attributes.info is not iterable"
      end
  | None => ret tt
  end.

Definition handleLog (event : TailEvent.t Log.t) : Js Converter unit :=
  let log := TailEvent.event event in
  let spanContext := TailEvent.spanContext event in
  let timestamp := TailEvent.timestamp event in
  target <- targetSpanId spanContext ;;
  if_span_with target
    (logMessage (Log.message log)) cannotConvert
    (fun message =>
       OtelSpan.push_log
         {| LogRecord.timestamp := nanoseconds timestamp;
            LogRecord.fields :=
              [("level", VString (Log.level log));
               ("message", message)] |}).

(** [this.activeSpanStack.pop()]. *)
Definition pop : Js Converter (option string) :=
  c <- this ;;
  update (fun c => {| spans := spans c; otelEndpoint := otelEndpoint c;
                      rootSpanId := rootSpanId c;
                      activeSpanStack := removelast (activeSpanStack c) |}) ;;
  ret (top c).

Definition handleSpanClose (event : TailEvent.t SpanClose.t) : Js Converter unit :=
  let timestamp := TailEvent.timestamp event in
  spanId <- pop ;;
  if negb (truthy spanId) then ret tt
  else
    if_span spanId
      (fun span =>
         OtelSpan.set_status (outcomeStatus (SpanClose.outcome (TailEvent.event event)))
           (OtelSpan.set_endTime (nanoseconds timestamp) span)).

Definition handleException (event : TailEvent.t Exception.t) : Js Converter unit :=
  let exception := TailEvent.event event in
  let spanContext := TailEvent.spanContext event in
  let timestamp := TailEvent.timestamp event in
  target <- targetSpanId spanContext ;;
  if_span target
    (fun span =>
       OtelSpan.set_status
         {| Status.code := ERROR; Status.message := Some (Exception.message exception) |}
         (OtelSpan.push_log
            {| LogRecord.timestamp := nanoseconds timestamp;
               LogRecord.fields :=
                 [("level", VString "error");
                  ("exception.type", VString (Exception.name exception));
                  ("exception.message", VString (Exception.message exception));
                  ("exception.stacktrace", VString (or_default (Exception.stack exception) ""))] |}
            span)).

Definition handleReturn (event : TailEvent.t Return.t) : Js Converter unit :=
  let returnEvent := TailEvent.event event in
  let spanContext := TailEvent.spanContext event in
  target <- targetSpanId spanContext ;;
  match Return.info returnEvent with
  | Some info =>
      if String.eqb (FetchResponseInfo.type info) "fetch"
      then if_span target
             (OtelSpan.set_tag "http.response.status_code"
                (VNumber (FetchResponseInfo.statusCode info)))
      else ret tt
  | None => ret tt
  end.

Definition handleDiagnosticChannel (event : TailEvent.t DiagnosticChannelEvent.t)
  : Js Converter unit :=
  let diagnostic := TailEvent.event event in
  let spanContext := TailEvent.spanContext event in
  let timestamp := TailEvent.timestamp event in
  target <- targetSpanId spanContext ;;
  if_span_with target
    (diagnosticMessage (DiagnosticChannelEvent.message diagnostic)) cannotSerialize
    (fun message =>
       OtelSpan.push_log
         {| LogRecord.timestamp := nanoseconds timestamp;
            LogRecord.fields :=
              [("level", VString "debug");
               ("diagnostic.channel", VString (DiagnosticChannelEvent.channel diagnostic));
               ("diagnostic.message", message)] |}).

(** [span => span.endTime]. *)
Definition completed (span : OtelSpan.t) : bool :=
  match OtelSpan.endTime span with
  | Some x => Number.truthy x
  | None => false
  end.

Definition exportSpans : Js Converter unit :=
  c <- this ;;
  let completedSpans := filter completed (SpanMap.values (spans c)) in
  if (List.length completedSpans =? 0)%nat then ret tt
  else
    otelTrace <- or_throw (convertToOtelFormat completedSpans) cannotConvert ;;
    try_catch
      (fetch {| Request.url := otelEndpoint c;
                Request.method := "POST";
                Request.headers := [("Content-Type", "application/json")];
                Request.body := otelTrace |} ;;
       on_spans (fun m =>
         for_of completedSpans (fun span m => SpanMap.delete m (OtelSpan.spanId span)) m))
      (fun error => console_error "Failed to export traces to OTEL endpoint:" error).

Definition handleOutcome (event : TailEvent.t Outcome.t) : Js Converter unit :=
  let outcome := TailEvent.event event in
  c <- this ;;
  (if truthy (rootSpanId c)
   then if_span (rootSpanId c)
          (fun rootSpan =>
             let rootSpan :=
               OtelSpan.set_status (outcomeStatus (Outcome.outcome outcome)) rootSpan in
             let rootSpan :=
               OtelSpan.set_tag "cpu.time.ms" (VNumber (Outcome.cpuTime outcome)) rootSpan in
             OtelSpan.set_tag "wall.time.ms" (VNumber (Outcome.wallTime outcome)) rootSpan)
   else ret tt) ;;
  unawaited exportSpans.

Definition handleEvent (event : TailEvent.t EventType) : Js Converter unit :=
  match TailEvent.event event with
  | onset e => handleOnset (TailEvent.cast event e)
  | spanOpen e => handleSpanOpen (TailEvent.cast event e)
  | attributes e => handleAttributes (TailEvent.cast event e)
  | log e => handleLog (TailEvent.cast event e)
  | spanClose e => handleSpanClose (TailEvent.cast event e)
  | outcome e => handleOutcome (TailEvent.cast event e)
  | exception e => handleException (TailEvent.cast event e)
  | return_ e => handleReturn (TailEvent.cast event e)
  | diagnosticChannel e => handleDiagnosticChannel (TailEvent.cast event e)
  | unknownEvent _ => ret tt
  end.

Fixpoint handleEvents (events : list (TailEvent.t EventType)) : Js Converter unit :=
  match events with
  | [] => ret tt
  | event :: rest => handleEvent event ;; handleEvents rest
  end.

(** [tailStream(_event, env, _ctx)] followed by the stream: this revision
    does not hand the initial onset to the converter. *)
Definition tailStream (_event : TailEvent.t Onset.t) (OTEL_ENDPOINT : option string)
  (events : list (TailEvent.t EventType)) (w : World.t)
  : Completion unit * (Converter * World.t) :=
  handleEvents events (new OTEL_ENDPOINT, w).

End Handlers.
End StackBased.

Local Close Scope js_scope.

(** ** Concrete inputs for the scenarios and the closed examples *)

(** A runtime for the closed examples.  What they state does not depend on
    the digits of a Number from 2^53 on, on the text of a JSON
    serialisation or on a printed date, so its answers are never read. *)
Definition exampleHost : JsHost :=
  {| Number_digits := fun _ => "";
     JSON_text := fun _ => "";
     Date_toISOString := fun _ => "" |}.

(** A network on which every request gets through, and one on which none
    does. *)
Definition reachable : World.t :=
  {| World.network := fun _ => None; World.requests := []; World.console := [] |}.

Definition unreachable : World.t :=
  {| World.network := fun _ => Some "TypeError: fetch failed";
     World.requests := []; World.console := [] |}.

(** The world in which the next request resolves and all else is as in [w]. *)
Definition resolving (w : World.t) : World.t :=
  {| World.network := fun i => if (i =? List.length (World.requests w))%nat then None
                               else World.network w i;
     World.requests := World.requests w;
     World.console := World.console w |}.

Definition event_at {E : Type} (timestamp : Date) (traceId : string)
  (spanId : option string) (payload : E) : TailEvent.t E :=
  {| TailEvent.event := payload;
     TailEvent.spanContext := {| SpanContext.traceId := traceId; SpanContext.spanId := spanId |};
     TailEvent.timestamp := timestamp |}.

(** An onset payload with the given span id and the rest taken from [o]. *)
Definition onset_with_spanId (spanId : string) (o : Onset.t) : Onset.t :=
  {| Onset.spanId := spanId; Onset.info := Onset.info o;
     Onset.scriptName := Onset.scriptName o;
     Onset.scriptVersion_id := Onset.scriptVersion_id o;
     Onset.executionModel := Onset.executionModel o;
     Onset.dispatchNamespace := Onset.dispatchNamespace o;
     Onset.entrypoint := Onset.entrypoint o;
     Onset.scriptTags := Onset.scriptTags o;
     Onset.attributes := Onset.attributes o |}.

Definition fetchOnset : Onset.t :=
  {| Onset.spanId := "1";
     Onset.info := FetchEventInfo "GET" "http://localhost:8787/" VUndefined;
     Onset.scriptName := Some "stw-local-dev";
     Onset.scriptVersion_id := None;
     Onset.executionModel := "stateless";
     Onset.dispatchNamespace := None;
     Onset.entrypoint := None;
     Onset.scriptTags := None;
     Onset.attributes := Some [] |}.

(** Scenario A: onset(trace "abc", span "1"), spanOpen(span "2", name
    "child") in the context of span "1", spanClose in the context of span
    "2" with outcome "ok", outcome("ok", cpuTime 5, wallTime 10).  The
    onset arrives with no inbound span; what the scenario leaves open (the
    times, the onset's metadata [o], the child's info) is a parameter. *)
Definition scenarioA_onset (t0 : Date) (o : Onset.t) : TailEvent.t Onset.t :=
  event_at t0 "abc" None (onset_with_spanId "1" o).

Definition scenarioA_events (t1 t2 t3 : Date) (info : option SpanOpenInfo)
  : list (TailEvent.t EventType) :=
  [event_at t1 "abc" (Some "1")
     (spanOpen {| SpanOpen.spanId := "2"; SpanOpen.name := "child"; SpanOpen.info := info |});
   event_at t2 "abc" (Some "2") (spanClose {| SpanClose.outcome := "ok" |});
   event_at t3 "abc" None
     (outcome {| Outcome.outcome := "ok";
                 Outcome.cpuTime := Number.ofZ 5;
                 Outcome.wallTime := Number.ofZ 10 |})].

(** A child span that a spanClose with outcome "ok" has closed, and a
    converter whose table holds it. *)
Definition closedChild : OtelSpan.t :=
  {| OtelSpan.traceId := "abc";
     OtelSpan.spanId := "2";
     OtelSpan.parentSpanId := Some "1";
     OtelSpan.operationName := "child";
     OtelSpan.startTime := nanoseconds 1001;
     OtelSpan.endTime := Some (nanoseconds 1002);
     OtelSpan.tags := [];
     OtelSpan.logs := [];
     OtelSpan.status := Some {| Status.code := OK; Status.message := Some "ok" |} |}.

Definition withClosedChild : ContextBased.Converter :=
  {| ContextBased.spans := [("2", closedChild)];
     ContextBased.otelEndpoint := "http://localhost:4318/v1/traces" |}.

(** A root span still open, and a converter whose table holds it together
    with the closed child: the state before the outcome event. *)
Definition openRoot : OtelSpan.t :=
  {| OtelSpan.traceId := "abc";
     OtelSpan.spanId := "1";
     OtelSpan.parentSpanId := None;
     OtelSpan.operationName := "GET http://localhost:8787/";
     OtelSpan.startTime := nanoseconds 1000;
     OtelSpan.endTime := None;
     OtelSpan.tags := [("service.name", VString "stw-local-dev")];
     OtelSpan.logs := [];
     OtelSpan.status := None |}.

Definition beforeOutcome : ContextBased.Converter :=
  {| ContextBased.spans := [("1", openRoot); ("2", closedChild)];
     ContextBased.otelEndpoint := "http://localhost:4318/v1/traces" |}.

Definition okOutcome : Outcome.t :=
  {| Outcome.outcome := "ok";
     Outcome.cpuTime := Number.ofZ 5;
     Outcome.wallTime := Number.ofZ 10 |}.

(** ** Vocabulary of the properties *)

(** The events that annotate a span already in the table. *)
Definition annotates (e : EventType) : bool :=
  match e with
  | attributes _ | log _ | exception _ | return_ _ | diagnosticChannel _ => true
  | _ => false
  end.

(** The events whose handler evaluates an operation that can throw. *)
Definition mayThrow (e : EventType) : bool :=
  match e with
  | onset _ | log _ | diagnosticChannel _ => true
  | _ => false
  end.

(** The request that posts [payload] to [endpoint]. *)
Definition exportRequest (endpoint : string) (payload : OtelTrace.t) : Request.t :=
  {| Request.url := endpoint;
     Request.method := "POST";
     Request.headers := [("Content-Type", "application/json")];
     Request.body := payload |}.

(** The values that have a textual representation: every value but an
    object with an own property named toString, and a sequence that holds
    such an object at any depth. *)
Fixpoint printable (v : JsValue) : bool :=
  match v with
  | VArray items => forallb printable items
  | VObject props => negb (hasOwn props "toString")
  | _ => true
  end.

(** An object all of whose property values are printable. *)
Definition printableObject (o : JsObject) : bool :=
  forallb (fun kv => printable (snd kv)) o.

(** A span whose tags and log fields are all printable. *)
Definition exportable (span : OtelSpan.t) : bool :=
  printableObject (OtelSpan.tags span) &&
  forallb (fun entry => printableObject (LogRecord.fields entry)) (OtelSpan.logs span).

(** An attribute list all of whose values are printable. *)
Definition printableAttributes (attrs : list Attribute.t) : bool :=
  forallb (fun attr => printable (Attribute.value attr)) attrs.

(** Onset info that [JSON.stringify] can serialise: fetch info whose
    [cfJson], when the handler reads it, holds no BigInt, and any other
    info. *)
Definition serialisable (info : OnsetInfo) : bool :=
  match info with
  | FetchEventInfo _ _ cfJson => negb (ToBoolean cfJson && hasBigInt cfJson)
  | _ => true
  end.

(** An onset that the converter can take in and export: serialisable info
    and printable attribute values. *)
Definition exportableOnset (o : Onset.t) : bool :=
  serialisable (Onset.info o) &&
  match Onset.attributes o with
  | Some attrs => printableAttributes attrs
  | None => true
  end.

(** Span info whose attribute values, if it has any, are printable. *)
Definition exportableInfo (info : option SpanOpenInfo) : bool :=
  match info with
  | Some (SpanAttributesInfo (Some attrs)) => printableAttributes attrs
  | _ => true
  end.

(** What the exporter puts on the wire for a span: the identifiers padded
    to their widths, the parent only when the span has one, the name, the
    server kind, the times as text, the status, one attribute per tag and
    one event per log entry. *)
Definition carries {host : JsHost} (span : OtelSpan.t) (wire : WireSpan.t) : Prop :=
  WireSpan.traceId wire = padHex (OtelSpan.traceId span) 32 /\
  WireSpan.spanId wire = padHex (OtelSpan.spanId span) 16 /\
  WireSpan.parentSpanId wire =
    match OtelSpan.parentSpanId span with
    | Some (String c r) => Some (padHex (String c r) 16)
    | _ => None
    end /\
  WireSpan.name wire = OtelSpan.operationName span /\
  WireSpan.kind wire = SERVER /\
  WireSpan.startTimeUnixNano wire = Number_toString (OtelSpan.startTime span) /\
  WireSpan.endTimeUnixNano wire = option_map Number_toString (OtelSpan.endTime span) /\
  WireSpan.status wire = OtelSpan.status span /\
  List.length (WireSpan.attributes wire) = List.length (OtelSpan.tags span) /\
  List.length (WireSpan.events wire) = List.length (OtelSpan.logs span).

(** The root span as the outcome event resolves it: the span under the
    context's span id when the context carries one, otherwise the one span
    of the table that has no parentSpanId. *)
Definition resolvesRoot (m : SpanMap.t) (ctx : SpanContext.t) (k : string)
  (root : OtelSpan.t) : Prop :=
  SpanMap.get m k = Some root /\
  ((SpanContext.spanId ctx = Some k /\ k <> "") \/
   (truthy (SpanContext.spanId ctx) = false /\
    truthy (OtelSpan.parentSpanId root) = false /\
    forall (k' : string) (r' : OtelSpan.t),
      In (k', r') m -> truthy (OtelSpan.parentSpanId r') = false -> k' = k)).

(** A computation that only writes the converter. *)
Definition writesConverterOnly (m : Js ContextBased.Converter unit) : Prop :=
  forall c : ContextBased.Converter, exists c' : ContextBased.Converter,
    forall w : World.t, m (c, w) = (Normal tt, (c', w)).

(** The events that are not close-equivalent for the span under key [k]:
    every event but the outcome, a spanClose whose context names [k], and
    an onset or spanOpen that stores a new span under [k]. *)
Definition leavesEndTime (event : TailEvent.t EventType) (k : string) : Prop :=
  match TailEvent.event event with
  | onset o => Onset.spanId o <> k
  | spanOpen s => SpanOpen.spanId s <> k
  | spanClose _ => SpanContext.spanId (TailEvent.spanContext event) <> Some k
  | outcome _ => False
  | _ => True
  end.

(** The endTime of the span under key [k], if the table has that span. *)
Definition endTimeOf (c : ContextBased.Converter) (k : string) : option (option spec_float) :=
  option_map OtelSpan.endTime (SpanMap.get (ContextBased.spans c) k).

(** The events of scenario A up to the child's spanClose, followed by a
    second spanClose in the context of the same span. *)
Definition closedTwice (t3 : Date) : list (TailEvent.t EventType) :=
  [event_at 1001 "abc" (Some "1")
     (spanOpen {| SpanOpen.spanId := "2"; SpanOpen.name := "child"; SpanOpen.info := None |});
   event_at 1002 "abc" (Some "2") (spanClose {| SpanClose.outcome := "ok" |});
   event_at t3 "abc" (Some "2") (spanClose {| SpanClose.outcome := "ok" |})].




(** The encoding rules in the words of the specification: text gives a
    string value; a whole number gives an integer value that holds the
    number's decimal string; any other number gives a floating-point value;
    a boolean gives a boolean value; a sequence gives the array of its
    encoded elements; anything else gives its textual representation. *)
#[local] Unset Elimination Schemes.
#[local] Set Elimination Schemes.

(** ** Vocabulary of the further properties *)

(** A span table as the handlers build it: no key twice, and every span
    stored under its own span id. *)
Definition wellFormed (m : SpanMap.t) : Prop :=
  NoDup (SpanMap.keys m) /\
  Forall (fun entry => OtelSpan.spanId (snd entry) = fst entry) m.

(** The value of the last attribute of [attrs] that is named [key]. *)
Definition lastNamed (attrs : list Attribute.t) (key : string) : option JsValue :=
  option_map Attribute.value
    (find (fun attr => String.eqb (Attribute.name attr) key) (rev attrs)).

(** [count] copies of the code unit "0". *)
Fixpoint zeros (count : nat) : string :=
  match count with
  | O => EmptyString
  | S count' => String "0" (zeros count')
  end.

(** The number of outcome events in a stream. *)
Definition outcomes (events : list (TailEvent.t EventType)) : nat :=
  List.length (filter (fun event => match TailEvent.event event with
                                    | outcome _ => true
                                    | _ => false
                                    end) events).

(** A stack-based converter whose root span is open and on the stack. *)
Definition stackWithRoot : StackBased.Converter :=
  {| StackBased.spans := [("1", openRoot)];
     StackBased.otelEndpoint := "http://localhost:4318/v1/traces";
     StackBased.rootSpanId := Some "1";
     StackBased.activeSpanStack := ["1"] |}.

(** The same converter once a child has been opened and closed. *)
Definition stackWithClosedChild : StackBased.Converter :=
  {| StackBased.spans := [("1", openRoot); ("2", closedChild)];
     StackBased.otelEndpoint := "http://localhost:4318/v1/traces";
     StackBased.rootSpanId := Some "1";
     StackBased.activeSpanStack := ["1"] |}.

(** The entries of a table whose span has no truthy endTime. *)
Definition openEntries (m : SpanMap.t) : SpanMap.t :=
  filter (fun entry => negb (StackBased.completed (snd entry))) m.

(** What the stack-based outcome handler writes into the root span
    (index.ts 199-205). *)
Definition stackOutcomeWrite (o : Outcome.t) (rootSpan : OtelSpan.t) : OtelSpan.t :=
  OtelSpan.set_tag "wall.time.ms" (VNumber (Outcome.wallTime o))
    (OtelSpan.set_tag "cpu.time.ms" (VNumber (Outcome.cpuTime o))
       (OtelSpan.set_status (outcomeStatus (Outcome.outcome o)) rootSpan)).

(** A root span that continues a trace from upstream, still open, and a
    converter that holds it. *)
Definition continuedRoot : OtelSpan.t :=
  {| OtelSpan.traceId := "abc";
     OtelSpan.spanId := "1";
     OtelSpan.parentSpanId := Some "00f067aa0ba902b7";
     OtelSpan.operationName := "GET http://localhost:8787/";
     OtelSpan.startTime := nanoseconds 1000;
     OtelSpan.endTime := None;
     OtelSpan.tags := [("service.name", VString "stw-local-dev")];
     OtelSpan.logs := [];
     OtelSpan.status := None |}.

Definition withContinuedRoot : ContextBased.Converter :=
  {| ContextBased.spans := [("1", continuedRoot)];
     ContextBased.otelEndpoint := "http://localhost:4318/v1/traces" |}.

(** The shape of the effects of one event on a context-based converter:
    the completion of its handler, the table it leaves and the requests it
    posts do not depend on the world; only an onset, a log or a
    diagnosticChannel event can throw, and then nothing has changed; only
    an outcome event posts, and then one request with the converted spans;
    the console is written only after a request. *)
Definition effects {host : JsHost} (event : TailEvent.t EventType)
  (c : ContextBased.Converter) : Prop :=
  exists (completion : Completion unit) (m' : SpanMap.t) (posted : list Request.t),
    (completion = Normal tt \/
     ((exists error, completion = Throw error) /\
      mayThrow (TailEvent.event event) = true /\ m' = ContextBased.spans c /\ posted = [])) /\
    (posted = [] \/
     exists (o : Outcome.t) (batch : list OtelSpan.t) (payload : OtelTrace.t),
       TailEvent.event event = outcome o /\
       batch <> [] /\
       convertToOtelFormat batch = Some payload /\
       posted = [exportRequest (ContextBased.otelEndpoint c) payload]) /\
    forall w : World.t, exists lines : list (string * string),
      (posted = [] -> lines = []) /\
      ContextBased.handleEvent event (c, w) =
      (completion,
       ({| ContextBased.spans := m'; ContextBased.otelEndpoint := ContextBased.otelEndpoint c |},
        {| World.network := World.network w;
           World.requests := World.requests w ++ posted;
           World.console := World.console w ++ lines |})).

(** * Properties *)

(** ** Strings and [padHex] *)

Lemma lower_ascii_idempotent (c : ascii) : lower_ascii (lower_ascii c) = lower_ascii c.
Proof.
  destruct c as [[] [] [] [] [] [] [] []]; reflexivity.
Qed.

Lemma toLowerCase_idempotent (s : string) : toLowerCase (toLowerCase s) = toLowerCase s.
Proof.
  induction s as [| c r IH]; simpl.
  - reflexivity.
  - now rewrite lower_ascii_idempotent, IH.
Qed.

Lemma toLowerCase_length (s : string) : String.length (toLowerCase s) = String.length s.
Proof.
  induction s as [| c r IH]; simpl; congruence.
Qed.

Lemma append_length (s1 s2 : string) :
  String.length (s1 ++ s2) = (String.length s1 + String.length s2)%nat.
Proof.
  induction s1 as [| c r IH]; simpl; congruence.
Qed.

Lemma fill_prefix_length (k : nat) (c : ascii) (fill cur : string) :
  String.length (fill_prefix k cur (String c fill)) = k.
Proof.
  revert cur; induction k as [| k IH]; intros cur; simpl.
  - reflexivity.
  - destruct cur; simpl; now rewrite IH.
Qed.

Lemma padStart_length (s : string) (n : nat) :
  String.length (padStart s n "0") = Nat.max (String.length s) n.
Proof.
  unfold padStart. rewrite append_length, fill_prefix_length. lia.
Qed.

Lemma padStart_long (s : string) (n : nat) (fill : string) :
  (n <= String.length s)%nat -> padStart s n fill = s.
Proof.
  intros H. unfold padStart.
  replace (n - String.length s)%nat with 0%nat by lia. reflexivity.
Qed.

(** ** Objects *)

Lemma Object_get_assign_same (o : JsObject) (k : string) (v : JsValue) :
  Object_get (Object_assign o k v) k = Some v.
Proof.
  induction o as [| [k' v'] rest IH]; simpl.
  - now rewrite String.eqb_refl.
  - destruct (String.eqb k' k) eqn:E; simpl; rewrite E; auto.
Qed.

Lemma Object_get_assign_other (o : JsObject) (k k' : string) (v : JsValue) :
  k' <> k -> Object_get (Object_assign o k' v) k = Object_get o k.
Proof.
  intros Hne. induction o as [| [k0 v0] rest IH]; simpl.
  - apply String.eqb_neq in Hne. now rewrite Hne.
  - destruct (String.eqb k0 k') eqn:E; simpl.
    + apply String.eqb_eq in E; subst k0.
      apply String.eqb_neq in Hne. now rewrite Hne.
    + now rewrite IH.
Qed.

Lemma Object_get_set_same (o : JsObject) (k : string) (v : JsValue) :
  k <> "__proto__" -> Object_get (Object_set o k v) k = Some v.
Proof.
  intros H. unfold Object_set. apply String.eqb_neq in H. rewrite H.
  apply Object_get_assign_same.
Qed.

Lemma Object_get_set_other (o : JsObject) (k k' : string) (v : JsValue) :
  k' <> k -> Object_get (Object_set o k' v) k = Object_get o k.
Proof.
  intros H. unfold Object_set. destruct (String.eqb k' "__proto__").
  - reflexivity.
  - now apply Object_get_assign_other.
Qed.

Lemma Object_get_In (o : JsObject) (k : string) (v : JsValue) :
  Object_get o k = Some v -> In (k, v) o.
Proof.
  induction o as [| [k' v'] rest IH]; simpl; intros H.
  - discriminate.
  - destruct (String.eqb k' k) eqn:E.
    + apply String.eqb_eq in E. left. congruence.
    + right. auto.
Qed.

(** A key that spells no array index is enumerated by [Object.entries]. *)
Lemma Object_entries_named (o : JsObject) (k : string) (v : JsValue) :
  arrayIndex k = None -> Object_get o k = Some v -> In (k, v) (Object_entries o).
Proof.
  intros Hk Hget. unfold Object_entries. apply in_or_app. right.
  apply filter_In. split.
  - now apply Object_get_In.
  - simpl. now rewrite Hk.
Qed.

(** ** The span table *)

Lemma get_set_same (m : SpanMap.t) (k : string) (v : OtelSpan.t) :
  SpanMap.get (SpanMap.set m k v) k = Some v.
Proof.
  induction m as [| [k' v'] rest IH]; simpl.
  - now rewrite String.eqb_refl.
  - destruct (String.eqb k' k) eqn:E; simpl; rewrite E; auto.
Qed.

Lemma get_set_other (m : SpanMap.t) (k k' : string) (v : OtelSpan.t) :
  k' <> k -> SpanMap.get (SpanMap.set m k' v) k = SpanMap.get m k.
Proof.
  intros Hne. induction m as [| [k0 v0] rest IH]; simpl.
  - apply String.eqb_neq in Hne. now rewrite Hne.
  - destruct (String.eqb k0 k') eqn:E; simpl.
    + apply String.eqb_eq in E; subst k0.
      apply String.eqb_neq in Hne. now rewrite Hne.
    + now rewrite IH.
Qed.

(** A write through a reference is a [set] of the written value. *)
Lemma mutate_as_set (m : SpanMap.t) (k : string) (f : OtelSpan.t -> OtelSpan.t)
  (v : OtelSpan.t) :
  SpanMap.get m k = Some v -> SpanMap.mutate m k f = SpanMap.set m k (f v).
Proof.
  induction m as [| [k' v'] rest IH]; simpl; intros H.
  - discriminate.
  - destruct (String.eqb k' k) eqn:E.
    + congruence.
    + now rewrite IH.
Qed.

Lemma mutate_missing (m : SpanMap.t) (k : string) (f : OtelSpan.t -> OtelSpan.t) :
  SpanMap.get m k = None -> SpanMap.mutate m k f = m.
Proof.
  induction m as [| [k' v'] rest IH]; simpl; intros H.
  - reflexivity.
  - destruct (String.eqb k' k) eqn:E.
    + discriminate.
    + now rewrite IH.
Qed.

Lemma get_mutate_same (m : SpanMap.t) (k : string) (f : OtelSpan.t -> OtelSpan.t) :
  SpanMap.get (SpanMap.mutate m k f) k = option_map f (SpanMap.get m k).
Proof.
  induction m as [| [k' v'] rest IH]; simpl.
  - reflexivity.
  - destruct (String.eqb k' k) eqn:E; simpl; rewrite E; auto.
Qed.

Lemma get_mutate_other (m : SpanMap.t) (k k' : string) (f : OtelSpan.t -> OtelSpan.t) :
  k' <> k -> SpanMap.get (SpanMap.mutate m k' f) k = SpanMap.get m k.
Proof.
  intros Hne. induction m as [| [k0 v0] rest IH]; simpl.
  - reflexivity.
  - destruct (String.eqb k0 k') eqn:E; simpl.
    + apply String.eqb_eq in E; subst k0.
      apply String.eqb_neq in Hne. now rewrite Hne.
    + now rewrite IH.
Qed.

Lemma keys_set_present (m : SpanMap.t) (k : string) (v v' : OtelSpan.t) :
  SpanMap.get m k = Some v -> SpanMap.keys (SpanMap.set m k v') = SpanMap.keys m.
Proof.
  unfold SpanMap.keys.
  induction m as [| [k0 v0] rest IH]; simpl; intros H.
  - discriminate.
  - destruct (String.eqb k0 k) eqn:E; simpl.
    + reflexivity.
    + now rewrite IH.
Qed.

Lemma get_In (m : SpanMap.t) (k : string) (v : OtelSpan.t) :
  SpanMap.get m k = Some v -> In (k, v) m.
Proof.
  induction m as [| [k' v'] rest IH]; simpl; intros H.
  - discriminate.
  - destruct (String.eqb k' k) eqn:E.
    + apply String.eqb_eq in E. left. congruence.
    + right. auto.
Qed.

(** When every parentless entry sits under key [k] and the entry read
    under [k] is parentless, the span that [find] returns is that entry. *)
Lemma mutate_found_unique (m : SpanMap.t) (k : string) (r : OtelSpan.t)
  (f : OtelSpan.t -> OtelSpan.t) :
  SpanMap.get m k = Some r ->
  ContextBased.parentless r = true ->
  (forall k' r', In (k', r') m -> ContextBased.parentless r' = true -> k' = k) ->
  ContextBased.mutate_found m ContextBased.parentless f = SpanMap.mutate m k f.
Proof.
  induction m as [| [k0 v0] rest IH]; simpl; intros Hget Hr Huniq.
  - discriminate.
  - destruct (String.eqb k0 k) eqn:E.
    + injection Hget as ->. now rewrite Hr.
    + destruct (ContextBased.parentless v0) eqn:P.
      * apply String.eqb_neq in E. exfalso. apply E.
        apply (Huniq k0 v0); auto.
      * f_equal. apply IH; auto.
        intros k' r' Hin. apply Huniq. now right.
Qed.

(** ** Results that may have thrown *)

Lemma collect_map_Some {A B : Type} (f : A -> option B) (l : list A) (values : list B) :
  collect (map f l) = Some values <-> Forall2 (fun x v => f x = Some v) l values.
Proof.
  revert values. induction l as [| x rest IH]; intros values; cbn [map collect].
  - split.
    + intros [= <-]. constructor.
    + intros H. now inversion H.
  - destruct (f x) as [v |] eqn:Hx.
    + destruct (collect (map f rest)) as [vs |] eqn:Hrest.
      * split.
        -- intros [= <-]. constructor; [exact Hx | now apply IH].
        -- intros H. inversion H as [| ? v' ? vs' Hv Hvs]; subst.
           apply IH in Hvs. congruence.
      * split; [discriminate |].
        intros H. inversion H as [| ? v' ? vs' Hv Hvs]; subst.
        apply IH in Hvs. discriminate.
    + split; [discriminate |].
      intros H. inversion H as [| ? v' ? vs' Hv Hvs]; subst. congruence.
Qed.

Lemma collect_map_None {A B : Type} (f : A -> option B) (l : list A) :
  collect (map f l) = None <-> Exists (fun x => f x = None) l.
Proof.
  induction l as [| x rest IH]; cbn [map collect].
  - split; [discriminate | intros H; inversion H].
  - destruct (f x) as [v |] eqn:Hx.
    + destruct (collect (map f rest)) as [vs |] eqn:Hrest.
      * split; [discriminate |].
        intros H. inversion H as [? ? Hhead | ? ? Htail]; subst; [congruence |].
        apply IH in Htail. discriminate.
      * split; [intros _; apply Exists_cons_tl; now apply IH | reflexivity].
    + split; [intros _; now apply Exists_cons_hd | reflexivity].
Qed.

(** Every element evaluates: so does the whole. *)
Lemma collect_map_all {A B : Type} (f : A -> option B) (l : list A) :
  Forall (fun x => exists v, f x = Some v) l ->
  exists values, collect (map f l) = Some values.
Proof.
  intros Hall. destruct (collect (map f l)) as [values |] eqn:Hrun; [now exists values |].
  apply collect_map_None in Hrun. apply Exists_exists in Hrun.
  destruct Hrun as (x & Hin & Hx).
  destruct (proj1 (Forall_forall _ _) Hall x Hin) as [v Hv]. congruence.
Qed.

(** ** Running the handlers *)

Ltac js_unfold :=
  unfold ContextBased.if_span, ContextBased.on_spans, ContextBased.lookup,
    StackBased.if_span, StackBased.on_spans, StackBased.lookup,
    StackBased.targetSpanId, bind, this, update, ret, throw, try_catch in *.

Section ContextBasedFacts.
Context {host : JsHost}.
Import ContextBased.

(** [if_span] writes through the reference when the key resolves. *)
Lemma if_span_present (key : string) (f : OtelSpan.t -> OtelSpan.t)
  (c : Converter) (w : World.t) (span : OtelSpan.t) :
  SpanMap.get (spans c) key = Some span ->
  if_span (Some key) f (c, w) =
  (Normal tt, ({| spans := SpanMap.set (spans c) key (f span);
                  otelEndpoint := otelEndpoint c |}, w)).
Proof.
  intros H. js_unfold. simpl. rewrite H. simpl.
  now rewrite (mutate_as_set _ _ _ _ H).
Qed.

(** [if_span] does nothing at all when it does not. *)
Lemma if_span_absent (key : option string) (f : OtelSpan.t -> OtelSpan.t)
  (c : Converter) (w : World.t) :
  lookup c key = None -> if_span key f (c, w) = (Normal tt, (c, w)).
Proof.
  intros H. cbv beta iota delta [if_span bind this fst snd].
  destruct key; [rewrite H |]; reflexivity.
Qed.

(** [if_span_with] by cases: no span, a span and an argument that
    evaluates, a span and an argument that throws. *)
Lemma if_span_with_run {A : Type} (key : option string) (arg : option A) (error : string)
  (f : A -> OtelSpan.t -> OtelSpan.t) (c : Converter) (w : World.t) :
  if_span_with key arg error f (c, w) =
  match key with
  | Some k =>
      match SpanMap.get (spans c) k with
      | Some _ =>
          match arg with
          | Some a =>
              (Normal tt,
               ({| spans := SpanMap.mutate (spans c) k (f a);
                   otelEndpoint := otelEndpoint c |}, w))
          | None => (Throw error, (c, w))
          end
      | None => (Normal tt, (c, w))
      end
  | None => (Normal tt, (c, w))
  end.
Proof.
  cbv beta iota delta [if_span_with bind this fst snd lookup].
  destruct key as [k |]; [| reflexivity].
  destruct (SpanMap.get (spans c) k); [| reflexivity].
  destruct arg; reflexivity.
Qed.

Lemma if_span_with_absent {A : Type} (key : option string) (arg : option A) (error : string)
  (f : A -> OtelSpan.t -> OtelSpan.t) (c : Converter) (w : World.t) :
  lookup c key = None -> if_span_with key arg error f (c, w) = (Normal tt, (c, w)).
Proof.
  intros H. rewrite if_span_with_run. destruct key as [k |]; [| reflexivity].
  cbn [lookup] in H. now rewrite H.
Qed.



(** The onset handler, by what [extractTags] answers. *)
Lemma handleOnset_run (event : TailEvent.t Onset.t) (c : Converter) (w : World.t)
  (tags : JsObject) :
  extractTags (TailEvent.event event) = Some tags ->
  handleOnset event (c, w) =
  (Normal tt,
   ({| spans :=
         SpanMap.set (spans c) (Onset.spanId (TailEvent.event event))
           {| OtelSpan.traceId := SpanContext.traceId (TailEvent.spanContext event);
              OtelSpan.spanId := Onset.spanId (TailEvent.event event);
              OtelSpan.parentSpanId :=
                or_else (SpanContext.spanId (TailEvent.spanContext event)) None;
              OtelSpan.operationName := getOperationName (Onset.info (TailEvent.event event));
              OtelSpan.startTime := nanoseconds (TailEvent.timestamp event);
              OtelSpan.endTime := None;
              OtelSpan.tags := tags;
              OtelSpan.logs := [];
              OtelSpan.status := None |};
       otelEndpoint := otelEndpoint c |}, w)).
Proof.
  intros H. unfold handleOnset, bind. now rewrite H.
Qed.

Lemma handleOnset_throws (event : TailEvent.t Onset.t) (c : Converter) (w : World.t) :
  extractTags (TailEvent.event event) = None ->
  handleOnset event (c, w) = (Throw cannotSerialize, (c, w)).
Proof.
  intros H. unfold handleOnset, bind. now rewrite H.
Qed.

End ContextBasedFacts.

Section StackBasedFacts.
Context {host : JsHost}.
Import StackBased.

Lemma stack_if_span_absent (key : option string) (f : OtelSpan.t -> OtelSpan.t)
  (c : Converter) (w : World.t) :
  lookup c key = None -> if_span key f (c, w) = (Normal tt, (c, w)).
Proof.
  intros H. cbv beta iota delta [if_span bind this fst snd].
  destruct key; [rewrite H |]; reflexivity.
Qed.

Lemma stack_if_span_with_run {A : Type} (key : option string) (arg : option A)
  (error : string) (f : A -> OtelSpan.t -> OtelSpan.t) (c : Converter) (w : World.t) :
  if_span_with key arg error f (c, w) =
  match key with
  | Some k =>
      match SpanMap.get (spans c) k with
      | Some _ =>
          match arg with
          | Some a =>
              (Normal tt,
               ({| spans := SpanMap.mutate (spans c) k (f a);
                   otelEndpoint := otelEndpoint c;
                   rootSpanId := rootSpanId c;
                   activeSpanStack := activeSpanStack c |}, w))
          | None => (Throw error, (c, w))
          end
      | None => (Normal tt, (c, w))
      end
  | None => (Normal tt, (c, w))
  end.
Proof.
  cbv beta iota delta [if_span_with bind this fst snd lookup].
  destruct key as [k |]; [| reflexivity].
  destruct (SpanMap.get (spans c) k); [| reflexivity].
  destruct arg; reflexivity.
Qed.

Lemma stack_if_span_with_absent {A : Type} (key : option string) (arg : option A)
  (error : string) (f : A -> OtelSpan.t -> OtelSpan.t) (c : Converter) (w : World.t) :
  lookup c key = None -> if_span_with key arg error f (c, w) = (Normal tt, (c, w)).
Proof.
  intros H. rewrite stack_if_span_with_run. destruct key as [k |]; [| reflexivity].
  cbn [lookup] in H. now rewrite H.
Qed.

End StackBasedFacts.

(** ** Onset info that can be serialised *)

Section SerialisableFacts.
Context {host : JsHost}.

Lemma baseTags_serialisable (o : Onset.t) :
  serialisable (Onset.info o) = true -> exists tags, baseTags o = Some tags.
Proof.
  unfold baseTags, serialisable.
  destruct (Onset.info o) as [method url cf | t cron | q b | m | m | | | | ty | ty];
    try (intros _; eexists; reflexivity).
  destruct (ToBoolean cf); cbn [andb negb]; [| intros _; eexists; reflexivity].
  unfold JSON_stringify. destruct (hasBigInt cf); [discriminate |].
  intros _. eexists. reflexivity.
Qed.

Lemma baseTags_unserialisable (o : Onset.t) :
  serialisable (Onset.info o) = false -> baseTags o = None.
Proof.
  unfold baseTags, serialisable.
  destruct (Onset.info o) as [method url cf | t cron | q b | m | m | | | | ty | ty];
    try discriminate.
  destruct (ToBoolean cf); cbn [andb negb]; [| discriminate].
  unfold JSON_stringify. destruct (hasBigInt cf); [reflexivity | discriminate].
Qed.

Lemma extractTags_serialisable (o : Onset.t) :
  serialisable (Onset.info o) = true -> exists tags, ContextBased.extractTags o = Some tags.
Proof.
  intros H. destruct (baseTags_serialisable o H) as [tags Htags].
  unfold ContextBased.extractTags. rewrite Htags.
  destruct (Onset.attributes o); eexists; reflexivity.
Qed.

Lemma extractTags_unserialisable (o : Onset.t) :
  serialisable (Onset.info o) = false -> ContextBased.extractTags o = None.
Proof.
  intros H. unfold ContextBased.extractTags. now rewrite (baseTags_unserialisable o H).
Qed.

End SerialisableFacts.

(** ** Idempotence of the hexadecimal padding *)

(** C9: [padHex] is idempotent, [padHex (padHex s n) n = padHex s n] for
    every string [s] and width [n]; an identifier that already has the
    width (32 for a trace id, 16 for a span id) comes back lower-cased and
    otherwise unchanged, and padding it a second time changes nothing. *)
Theorem padHex_idempotent :
  (forall (s : string) (n : nat), padHex (padHex s n) n = padHex s n) /\
  (forall (s : string) (n : nat),
      String.length s = n ->
      padHex s n = toLowerCase s /\ padHex (padHex s n) n = padHex s n).
Proof.
  assert (Hidem : forall s n, padHex (padHex s n) n = padHex s n).
  { intros s n. unfold padHex.
    rewrite (padStart_long (toLowerCase (padStart s n "0")) n "0").
    - apply toLowerCase_idempotent.
    - rewrite toLowerCase_length, padStart_length. lia. }
  split; [exact Hidem |].
  intros s n Hlen. split; [| apply Hidem].
  unfold padHex. rewrite padStart_long; [reflexivity | lia].
Qed.

Lemma padHex_idempotent_witness :
  padHex "4BF92F3577B34DA6" 16 = toLowerCase "4BF92F3577B34DA6" /\
  padHex (padHex "4BF92F3577B34DA6" 16) 16 = padHex "4BF92F3577B34DA6" 16.
Proof.
  apply (proj2 padHex_idempotent "4BF92F3577B34DA6" 16). reflexivity.
Defined.

(** ** Events whose target span is not in the table *)

(** C7: an attributes, log, exception, return or diagnosticChannel event
    whose target span id is not in the span table leaves the converter and
    the world exactly as they were, and the handler completes normally. *)
Theorem unresolved_target_is_dropped :
  forall (host : JsHost) (event : TailEvent.t EventType)
         (c : ContextBased.Converter) (w : World.t),
    annotates (TailEvent.event event) = true ->
    ContextBased.lookup c (SpanContext.spanId (TailEvent.spanContext event)) = None ->
    ContextBased.handleEvent event (c, w) = (Normal tt, (c, w)).
Proof.
  intros host [payload ctx ts] c w Hkind Hmiss. simpl in Hmiss.
  unfold ContextBased.handleEvent. simpl.
  destruct payload as [e | e | e | e | e | e | e | e | e | ty]; try discriminate Hkind.
  - unfold ContextBased.handleAttributes. simpl.
    destruct (Attributes.info e); [| reflexivity].
    now apply if_span_absent.
  - unfold ContextBased.handleLog. simpl. now apply if_span_with_absent.
  - unfold ContextBased.handleException. simpl. now apply if_span_absent.
  - unfold ContextBased.handleReturn. simpl.
    destruct (Return.info e) as [info |]; [| reflexivity].
    destruct (String.eqb (FetchResponseInfo.type info) "fetch"); [| reflexivity].
    now apply if_span_absent.
  - unfold ContextBased.handleDiagnosticChannel. simpl. now apply if_span_with_absent.
Qed.

Lemma unresolved_target_is_dropped_witness :
  ContextBased.handleEvent (host := exampleHost)
    (event_at 7 "abc" (Some "9") (log {| Log.level := "info"; Log.message := VString "late" |}))
    (ContextBased.new None, reachable)
  = (Normal tt, (ContextBased.new None, reachable)).
Proof.
  apply (unresolved_target_is_dropped exampleHost); reflexivity.
Defined.

(** The stack-based revision resolves the target as the context's span id
    or else the top of its stack, and drops the event in the same way. *)
Lemma stack_unresolved_target_is_dropped :
  forall (host : JsHost) (event : TailEvent.t EventType)
         (c : StackBased.Converter) (w : World.t),
    annotates (TailEvent.event event) = true ->
    StackBased.lookup c
      (or_else (SpanContext.spanId (TailEvent.spanContext event)) (StackBased.top c)) = None ->
    StackBased.handleEvent event (c, w) = (Normal tt, (c, w)).
Proof.
  intros host [payload ctx ts] c w Hkind Hmiss. simpl in Hmiss.
  unfold StackBased.handleEvent. simpl.
  destruct payload as [e | e | e | e | e | e | e | e | e | ty]; try discriminate Hkind.
  - unfold StackBased.handleAttributes, StackBased.targetSpanId, bind, this, ret. simpl.
    now rewrite Hmiss.
  - unfold StackBased.handleLog, StackBased.targetSpanId, bind at 1, this, ret. simpl.
    now apply stack_if_span_with_absent.
  - unfold StackBased.handleException, StackBased.targetSpanId, bind at 1, this, ret. simpl.
    now apply stack_if_span_absent.
  - unfold StackBased.handleReturn, StackBased.targetSpanId, bind at 1, this, ret. simpl.
    destruct (Return.info e) as [info |]; [| reflexivity].
    destruct (String.eqb (FetchResponseInfo.type info) "fetch"); [| reflexivity].
    now apply stack_if_span_absent.
  - unfold StackBased.handleDiagnosticChannel, StackBased.targetSpanId, bind at 1, this, ret.
    simpl. now apply stack_if_span_with_absent.
Qed.

(** ** Exceptions *)

Lemma or_default_empty (x : option string) :
  or_default x "" = match x with Some text => text | None => "" end.
Proof.
  destruct x as [[| c r] |]; reflexivity.
Qed.

(** C6: an exception event whose target span is in the table sets that
    span's status to ERROR with the exception's message, whatever the
    status was (OK included), and appends exactly one log entry, of level
    error, with the fields exception.type, exception.message and
    exception.stacktrace; the stack trace is the empty string when the
    payload has no stack text.  Nothing else of the span changes. *)
Theorem exception_marks_error :
  forall (host : JsHost) (event : TailEvent.t EventType) (e : Exception.t)
         (c : ContextBased.Converter) (w : World.t) (k : string) (span : OtelSpan.t),
    TailEvent.event event = exception e ->
    SpanContext.spanId (TailEvent.spanContext event) = Some k ->
    SpanMap.get (ContextBased.spans c) k = Some span ->
    exists (span' : OtelSpan.t) (entry : LogRecord.t),
      ContextBased.handleEvent event (c, w) =
        (Normal tt,
         ({| ContextBased.spans := SpanMap.set (ContextBased.spans c) k span';
             ContextBased.otelEndpoint := ContextBased.otelEndpoint c |}, w)) /\
      OtelSpan.status span' =
        Some {| Status.code := ERROR; Status.message := Some (Exception.message e) |} /\
      OtelSpan.logs span' = OtelSpan.logs span ++ [entry] /\
      LogRecord.timestamp entry = nanoseconds (TailEvent.timestamp event) /\
      LogRecord.fields entry =
        [("level", VString "error");
         ("exception.type", VString (Exception.name e));
         ("exception.message", VString (Exception.message e));
         ("exception.stacktrace",
          VString (match Exception.stack e with Some text => text | None => "" end))] /\
      OtelSpan.tags span' = OtelSpan.tags span /\
      OtelSpan.endTime span' = OtelSpan.endTime span /\
      OtelSpan.startTime span' = OtelSpan.startTime span /\
      OtelSpan.operationName span' = OtelSpan.operationName span /\
      OtelSpan.parentSpanId span' = OtelSpan.parentSpanId span /\
      OtelSpan.spanId span' = OtelSpan.spanId span /\
      OtelSpan.traceId span' = OtelSpan.traceId span.
Proof.
  intros host [payload ctx ts] e c w k span Hev Hctx Hget.
  simpl in Hev, Hctx. subst payload.
  unfold ContextBased.handleEvent, ContextBased.handleException. simpl.
  rewrite Hctx. rewrite (if_span_present _ _ _ _ _ Hget).
  eexists. eexists. split; [reflexivity |]. simpl.
  rewrite or_default_empty. repeat split; reflexivity.
Qed.

Lemma exception_marks_error_witness :
  exists (span' : OtelSpan.t) (entry : LogRecord.t),
    ContextBased.handleEvent (host := exampleHost)
      (event_at 1003 "abc" (Some "2")
         (exception {| Exception.name := "TypeError";
                       Exception.message := "x is not a function";
                       Exception.stack := None |}))
      (withClosedChild, reachable) =
      (Normal tt,
       ({| ContextBased.spans := SpanMap.set (ContextBased.spans withClosedChild) "2" span';
           ContextBased.otelEndpoint := ContextBased.otelEndpoint withClosedChild |},
        reachable)) /\
    OtelSpan.status closedChild = Some {| Status.code := OK; Status.message := Some "ok" |} /\
    OtelSpan.status span' =
      Some {| Status.code := ERROR; Status.message := Some "x is not a function" |} /\
    OtelSpan.logs span' = [entry] /\
    Object_get (LogRecord.fields entry) "exception.stacktrace" = Some (VString "").
Proof.
  destruct (exception_marks_error exampleHost
              (event_at 1003 "abc" (Some "2")
                 (exception {| Exception.name := "TypeError";
                               Exception.message := "x is not a function";
                               Exception.stack := None |}))
              _ withClosedChild reachable "2" closedChild eq_refl eq_refl eq_refl)
    as (span' & entry & Hrun & Hstatus & Hlogs & _ & Hfields & _).
  exists span', entry. repeat split; try assumption.
  rewrite Hfields. reflexivity.
Defined.

(** ** The root span's parent *)

(** C4: the root span that an onset event creates has no parentSpanId when
    the event's span context carries no current-span id, and has that id as
    parentSpanId when it carries one.  The handler tests the id with [||]:
    an id is a non-empty string, and the empty string counts as none.  Both
    revisions agree; the stack-based one needs the onset's attribute list
    to be iterable to get that far.  The root span is created exactly when
    the onset's info can be serialised, which is the case for every info
    but fetch info whose [cfJson] holds a BigInt; for such info the handler
    throws and creates no span. *)
Theorem onset_root_parent :
  forall (host : JsHost) (event : TailEvent.t Onset.t),
    let ctx := TailEvent.spanContext event in
    let id := Onset.spanId (TailEvent.event event) in
    (serialisable (Onset.info (TailEvent.event event)) = true ->
     (forall (c : ContextBased.Converter) (w : World.t),
         exists root : OtelSpan.t,
           ContextBased.handleOnset event (c, w) =
             (Normal tt,
              ({| ContextBased.spans := SpanMap.set (ContextBased.spans c) id root;
                  ContextBased.otelEndpoint := ContextBased.otelEndpoint c |}, w)) /\
           OtelSpan.spanId root = id /\
           (SpanContext.spanId ctx = None -> OtelSpan.parentSpanId root = None) /\
           (forall parent : string,
               SpanContext.spanId ctx = Some parent -> parent <> "" ->
               OtelSpan.parentSpanId root = Some parent) /\
           (SpanContext.spanId ctx = Some "" -> OtelSpan.parentSpanId root = None)) /\
     (forall (c : StackBased.Converter) (w : World.t) (attrs : list Attribute.t),
         Onset.attributes (TailEvent.event event) = Some attrs ->
         exists (root : OtelSpan.t) (c' : StackBased.Converter),
           StackBased.handleOnset event (c, w) = (Normal tt, (c', w)) /\
           SpanMap.get (StackBased.spans c') id = Some root /\
           (SpanContext.spanId ctx = None -> OtelSpan.parentSpanId root = None) /\
           (forall parent : string,
               SpanContext.spanId ctx = Some parent -> parent <> "" ->
               OtelSpan.parentSpanId root = Some parent) /\
           (SpanContext.spanId ctx = Some "" -> OtelSpan.parentSpanId root = None))) /\
    (serialisable (Onset.info (TailEvent.event event)) = false ->
     (forall (c : ContextBased.Converter) (w : World.t),
         ContextBased.handleOnset event (c, w) = (Throw cannotSerialize, (c, w))) /\
     (forall (c : StackBased.Converter) (w : World.t),
         StackBased.handleOnset event (c, w) = (Throw cannotSerialize, (c, w)))).
Proof.
  intros host [o [trace inbound] ts]. simpl.
  assert (Hparent :
            (inbound = None -> or_else inbound None = None) /\
            (forall parent : string,
                inbound = Some parent -> parent <> "" -> or_else inbound None = Some parent) /\
            (inbound = Some "" -> or_else inbound None = None)).
  { repeat split.
    - now intros ->.
    - intros parent -> Hne. destruct parent; [contradiction | reflexivity].
    - now intros ->. }
  split; [intros Hinfo; split | intros Hinfo; split].
  - intros c w. destruct (extractTags_serialisable o Hinfo) as [tags Htags].
    eexists. split.
    + apply (handleOnset_run
               {| TailEvent.event := o;
                  TailEvent.spanContext :=
                    {| SpanContext.traceId := trace; SpanContext.spanId := inbound |};
                  TailEvent.timestamp := ts |} c w tags Htags).
    + cbn [OtelSpan.spanId OtelSpan.parentSpanId TailEvent.event TailEvent.spanContext
           SpanContext.spanId].
      split; [reflexivity | exact Hparent].
  - intros c w attrs Hattrs. destruct (baseTags_serialisable o Hinfo) as [tags Htags].
    unfold StackBased.handleOnset, StackBased.extractTags, bind, ret, update, or_throw.
    cbn [TailEvent.event TailEvent.spanContext TailEvent.timestamp SpanContext.spanId
         SpanContext.traceId].
    rewrite Htags, Hattrs. eexists. eexists. split; [reflexivity |].
    cbn [fst snd StackBased.spans OtelSpan.spanId OtelSpan.parentSpanId].
    rewrite get_set_same. split; [reflexivity | exact Hparent].
  - intros c w. apply handleOnset_throws. cbn [TailEvent.event].
    now apply extractTags_unserialisable.
  - intros c w.
    unfold StackBased.handleOnset, StackBased.extractTags, bind, ret, update, or_throw.
    cbn [TailEvent.event]. now rewrite (baseTags_unserialisable o Hinfo).
Qed.

Lemma onset_root_parent_witness :
  exists root : OtelSpan.t,
    ContextBased.handleOnset (host := exampleHost)
      (event_at 1000 "abc" (Some "00f067aa0ba902b7") fetchOnset)
      (ContextBased.new None, reachable) =
      (Normal tt,
       ({| ContextBased.spans := SpanMap.set [] "1" root;
           ContextBased.otelEndpoint := "http://localhost:4318/v1/traces" |}, reachable)) /\
    OtelSpan.parentSpanId root = Some "00f067aa0ba902b7".
Proof.
  destruct (proj1 (proj1 (onset_root_parent exampleHost
                            (event_at 1000 "abc" (Some "00f067aa0ba902b7") fetchOnset))
                     eq_refl)
              (ContextBased.new None) reachable)
    as (root & Hrun & _ & _ & Hsome & _).
  exists root. split.
  - exact Hrun.
  - apply Hsome; [reflexivity | discriminate].
Defined.

(** ** What the formatter can convert *)

Lemma JsValue_array_ind (P : JsValue -> Prop) :
  P VUndefined -> P VNull ->
  (forall b, P (VBool b)) -> (forall x, P (VNumber x)) ->
  (forall z, P (VBigInt z)) -> (forall s, P (VString s)) ->
  (forall items, Forall P items -> P (VArray items)) ->
  (forall props, P (VObject props)) ->
  forall v, P v.
Proof.
  intros Hund Hnull Hbool Hnum Hbig Hstr Harr Hobj.
  fix IH 1. intros [| | b | x | z | s | items | props].
  - exact Hund.
  - exact Hnull.
  - apply Hbool.
  - apply Hnum.
  - apply Hbig.
  - apply Hstr.
  - apply Harr. induction items as [| item rest IHrest]; constructor.
    + apply IH.
    + exact IHrest.
  - apply Hobj.
Qed.

Lemma insert_by_index_perm {A : Type} (e : N * A) (l : list (N * A)) :
  Permutation (insert_by_index e l) (e :: l).
Proof.
  induction l as [| x rest IH]; cbn [insert_by_index].
  - reflexivity.
  - destruct (fst e <? fst x)%N; [reflexivity |].
    rewrite IH. apply perm_swap.
Qed.

(** [Object.entries] enumerates every own property once. *)
Lemma Object_entries_perm (o : JsObject) : Permutation (Object_entries o) o.
Proof.
  unfold Object_entries. induction o as [| [k v] rest IH].
  - reflexivity.
  - cbn [fold_right filter fst]. destruct (arrayIndex k) as [n |].
    + rewrite insert_by_index_perm. cbn [map snd app]. now constructor.
    + rewrite <- Permutation_middle. now constructor.
Qed.

Lemma forallb_false {A : Type} (f : A -> bool) (l : list A) :
  forallb f l = false -> exists x, In x l /\ f x = false.
Proof.
  induction l as [| x rest IH]; cbn [forallb]; [discriminate |].
  destruct (f x) eqn:Hx; cbn [andb].
  - intros H. destruct (IH H) as (y & Hin & Hy). exists y. split; [now right | exact Hy].
  - intros _. exists x. split; [now left | exact Hx].
Qed.

Lemma Forall2_In_left {A B : Type} (R : A -> B -> Prop) (l : list A) (l' : list B) (x : A) :
  Forall2 R l l' -> In x l -> exists y, In y l' /\ R x y.
Proof.
  induction 1 as [| a b rest rest' Hab _ IH]; cbn [In]; [intros [] |].
  intros [-> | Hin].
  - exists b. split; [now left | exact Hab].
  - destruct (IH Hin) as (y & Hy & Hxy). exists y. split; [now right | exact Hxy].
Qed.

Section FormatterFacts.
Context {host : JsHost}.

(** The encoder returns on a printable value. *)
Lemma convertAttributeValue_printable (v : JsValue) :
  printable v = true -> exists a, convertAttributeValue v = Some a.
Proof.
  induction v as [| | b | x | z | s | items IH | props] using JsValue_array_ind;
    cbn [printable convertAttributeValue String_of option_map]; intros Hp;
    try (eexists; reflexivity).
  - destruct (Number.isInteger x); eexists; reflexivity.
  - destruct (collect_map_all convertAttributeValue items) as [values Hvalues].
    + apply Forall_forall. intros item Hin.
      apply (proj1 (Forall_forall _ _) IH item Hin).
      apply (proj1 (forallb_forall _ _) Hp item Hin).
    + rewrite Hvalues. eexists. reflexivity.
  - destruct (hasOwn props "toString"); [discriminate |]. eexists. reflexivity.
Qed.

(** It throws on every other value. *)
Lemma convertAttributeValue_unprintable (v : JsValue) :
  printable v = false -> convertAttributeValue v = None.
Proof.
  induction v as [| | b | x | z | s | items IH | props] using JsValue_array_ind;
    cbn [printable convertAttributeValue String_of option_map]; intros Hp;
    try discriminate.
  - destruct (forallb_false _ _ Hp) as (item & Hin & Hitem).
    assert (Hnone : collect (map convertAttributeValue items) = None).
    { apply collect_map_None. apply Exists_exists. exists item. split; [exact Hin |].
      now apply (proj1 (Forall_forall _ _) IH item Hin). }
    now rewrite Hnone.
  - destruct (hasOwn props "toString"); [reflexivity | discriminate].
Qed.

Lemma convertEntries_printable (o : JsObject) :
  printableObject o = true -> exists l, convertEntries o = Some l.
Proof.
  intros Hp. unfold convertEntries. apply collect_map_all.
  apply Forall_forall. intros kv Hin.
  assert (Hkv : In kv o) by (eapply Permutation_in; [apply Object_entries_perm | exact Hin]).
  destruct (convertAttributeValue_printable (snd kv)) as [a Ha].
  - exact (proj1 (forallb_forall _ _) Hp kv Hkv).
  - rewrite Ha. eexists. reflexivity.
Qed.

Lemma convertEntries_unprintable (o : JsObject) :
  printableObject o = false -> convertEntries o = None.
Proof.
  intros Hp. unfold convertEntries. apply collect_map_None.
  destruct (forallb_false _ _ Hp) as (kv & Hin & Hkv).
  apply Exists_exists. exists kv. split.
  - eapply Permutation_in; [apply Permutation_sym, Object_entries_perm | exact Hin].
  - now rewrite (convertAttributeValue_unprintable _ Hkv).
Qed.

Lemma convertLog_printable (entry : LogRecord.t) :
  printableObject (LogRecord.fields entry) = true -> exists event, convertLog entry = Some event.
Proof.
  intros Hp. unfold convertLog.
  destruct (convertEntries_printable _ Hp) as [l ->]. eexists. reflexivity.
Qed.

Lemma convertLog_unprintable (entry : LogRecord.t) :
  printableObject (LogRecord.fields entry) = false -> convertLog entry = None.
Proof.
  intros Hp. unfold convertLog. now rewrite (convertEntries_unprintable _ Hp).
Qed.

(** The formatter returns a wire span exactly for an exportable span. *)
Lemma convertSpan_exportable (span : OtelSpan.t) :
  exportable span = true -> exists wire, convertSpan span = Some wire.
Proof.
  unfold exportable. intros Hp. apply andb_prop in Hp. destruct Hp as [Htags Hlogs].
  unfold convertSpan. destruct (convertEntries_printable _ Htags) as [attrs ->].
  destruct (collect_map_all convertLog (OtelSpan.logs span)) as [events ->].
  - apply Forall_forall. intros entry Hin. apply convertLog_printable.
    exact (proj1 (forallb_forall _ _) Hlogs entry Hin).
  - eexists. reflexivity.
Qed.

Lemma convertSpan_unexportable (span : OtelSpan.t) :
  exportable span = false -> convertSpan span = None.
Proof.
  unfold exportable, convertSpan. intros Hp.
  destruct (printableObject (OtelSpan.tags span)) eqn:Htags.
  - cbn [andb] in Hp. destruct (forallb_false _ _ Hp) as (entry & Hin & Hentry).
    assert (Hnone : collect (map convertLog (OtelSpan.logs span)) = None).
    { apply collect_map_None. apply Exists_exists. exists entry.
      split; [exact Hin | now apply convertLog_unprintable]. }
    rewrite Hnone. now destruct (convertEntries (OtelSpan.tags span)).
  - now rewrite (convertEntries_unprintable _ Htags).
Qed.

Lemma convertEntries_length (o : JsObject) (l : list KeyValue.t) :
  convertEntries o = Some l -> List.length l = List.length o.
Proof.
  unfold convertEntries. intros H. apply collect_map_Some in H.
  rewrite <- (Forall2_length H). apply Permutation_length, Object_entries_perm.
Qed.

(** What a wire span says of the span it was made from. *)
Lemma convertSpan_carries (span : OtelSpan.t) (wire : WireSpan.t) :
  convertSpan span = Some wire -> carries span wire.
Proof.
  unfold convertSpan.
  destruct (convertEntries (OtelSpan.tags span)) as [attrs |] eqn:Hattrs; [| discriminate].
  destruct (collect (map convertLog (OtelSpan.logs span))) as [events |] eqn:Hevents;
    [| discriminate].
  intros [= <-]. unfold carries.
  cbn [WireSpan.traceId WireSpan.spanId WireSpan.parentSpanId WireSpan.name WireSpan.kind
       WireSpan.startTimeUnixNano WireSpan.endTimeUnixNano WireSpan.status
       WireSpan.attributes WireSpan.events].
  split; [reflexivity |]. split; [reflexivity |].
  split; [now destruct (OtelSpan.parentSpanId span) as [[| ch r] |] |].
  split; [reflexivity |]. split; [reflexivity |]. split; [reflexivity |].
  split; [reflexivity |].
  split; [now destruct (OtelSpan.status span) as [[code message] |] |].
  split; [now apply convertEntries_length |].
  apply collect_map_Some in Hevents. symmetry. exact (Forall2_length Hevents).
Qed.

(** A tag under a key that spells no array index is exported as an
    attribute with its encoded value. *)
Lemma tag_is_exported (span : OtelSpan.t) (wire : WireSpan.t) (k : string) (v : JsValue) :
  convertSpan span = Some wire ->
  arrayIndex k = None ->
  Object_get (OtelSpan.tags span) k = Some v ->
  exists a, convertAttributeValue v = Some a /\
            In {| KeyValue.key := k; KeyValue.value := a |} (WireSpan.attributes wire).
Proof.
  unfold convertSpan. intros Hwire Hk Hget.
  destruct (convertEntries (OtelSpan.tags span)) as [attrs |] eqn:Hattrs; [| discriminate].
  destruct (collect (map convertLog (OtelSpan.logs span))) as [events |]; [| discriminate].
  injection Hwire as <-. cbn [WireSpan.attributes].
  unfold convertEntries in Hattrs. apply collect_map_Some in Hattrs.
  destruct (Forall2_In_left _ _ _ (k, v) Hattrs (Object_entries_named _ _ _ Hk Hget))
    as (attr & Hin & Hattr).
  cbn [fst snd] in Hattr.
  destruct (convertAttributeValue v) as [a |]; [| discriminate].
  injection Hattr as <-. now exists a.
Qed.

Lemma exportedSpans_convert (batch : list OtelSpan.t) (payload : OtelTrace.t) :
  convertToOtelFormat batch = Some payload ->
  collect (map convertSpan batch) = Some (exportedSpans payload).
Proof.
  unfold convertToOtelFormat.
  destruct (collect (map convertSpan batch)) as [wire |]; [| discriminate].
  intros [= <-]. unfold exportedSpans.
  cbn [OtelTrace.resourceSpans flat_map ResourceSpans.scopeSpans ScopeSpans.spans].
  now rewrite !app_nil_r.
Qed.

(** The payload carries the wire span of every span of the batch, in the
    order of the batch. *)
Lemma convertToOtelFormat_spans (batch : list OtelSpan.t) (payload : OtelTrace.t) :
  convertToOtelFormat batch = Some payload ->
  Forall2 (fun span wire => convertSpan span = Some wire) batch (exportedSpans payload).
Proof.
  intros H. apply collect_map_Some. now apply exportedSpans_convert.
Qed.

Lemma convertToOtelFormat_carries (batch : list OtelSpan.t) (payload : OtelTrace.t) :
  convertToOtelFormat batch = Some payload ->
  Forall2 carries batch (exportedSpans payload).
Proof.
  intros H. apply convertToOtelFormat_spans in H.
  induction H as [| span wire rest wires Hhead _ IH]; constructor.
  - now apply convertSpan_carries.
  - exact IH.
Qed.

Lemma convertToOtelFormat_exportable (batch : list OtelSpan.t) :
  forallb exportable batch = true -> exists payload, convertToOtelFormat batch = Some payload.
Proof.
  intros Hp. unfold convertToOtelFormat.
  destruct (collect_map_all convertSpan batch) as [wire ->].
  - apply Forall_forall. intros span Hin. apply convertSpan_exportable.
    exact (proj1 (forallb_forall _ _) Hp span Hin).
  - eexists. reflexivity.
Qed.

Lemma convertToOtelFormat_unexportable (batch : list OtelSpan.t) :
  forallb exportable batch = false -> convertToOtelFormat batch = None.
Proof.
  intros Hp. unfold convertToOtelFormat.
  destruct (forallb_false _ _ Hp) as (span & Hin & Hspan).
  assert (Hnone : collect (map convertSpan batch) = None).
  { apply collect_map_None. apply Exists_exists. exists span.
    split; [exact Hin | now apply convertSpan_unexportable]. }
  now rewrite Hnone.
Qed.

End FormatterFacts.

(** Writing a printable value keeps an object printable. *)
Lemma printableObject_set (o : JsObject) (k : string) (v : JsValue) :
  printableObject o = true -> printable v = true -> printableObject (Object_set o k v) = true.
Proof.
  intros Ho Hv. unfold Object_set. destruct (String.eqb k "__proto__"); [exact Ho |].
  unfold printableObject in *.
  induction o as [| [k0 v0] rest IH]; cbn [Object_assign forallb snd].
  - now rewrite Hv.
  - cbn [forallb snd] in Ho. apply andb_prop in Ho. destruct Ho as [Hhead Htail].
    destruct (String.eqb k0 k); cbn [forallb snd].
    + now rewrite Hv, Htail.
    + now rewrite Hhead, IH.
Qed.

Lemma printableObject_assignAttributes (attrs : list Attribute.t) (tags : JsObject) :
  printableObject tags = true -> printableAttributes attrs = true ->
  printableObject (assignAttributes attrs tags) = true.
Proof.
  unfold assignAttributes, for_of, printableAttributes. revert tags.
  induction attrs as [| attr rest IH]; intros tags Htags Hattrs; cbn [fold_left].
  - exact Htags.
  - cbn [forallb] in Hattrs. apply andb_prop in Hattrs. destruct Hattrs as [Hhead Htail].
    apply IH; [now apply printableObject_set | exact Htail].
Qed.

(** Replacing a span of the table by an exportable one keeps the table
    exportable. *)
Lemma exportable_set (m : SpanMap.t) (k : string) (v : OtelSpan.t) :
  forallb exportable (SpanMap.values m) = true -> exportable v = true ->
  forallb exportable (SpanMap.values (SpanMap.set m k v)) = true.
Proof.
  unfold SpanMap.values. intros Hm Hv.
  induction m as [| [k0 v0] rest IH]; cbn [SpanMap.set map forallb snd].
  - now rewrite Hv.
  - cbn [map forallb snd] in Hm. apply andb_prop in Hm. destruct Hm as [Hhead Htail].
    destruct (String.eqb k0 k); cbn [map forallb snd].
    + now rewrite Hv, Htail.
    + now rewrite Hhead, IH.
Qed.

Lemma exportable_get (m : SpanMap.t) (k : string) (v : OtelSpan.t) :
  forallb exportable (SpanMap.values m) = true -> SpanMap.get m k = Some v ->
  exportable v = true.
Proof.
  intros Hm Hget. apply (proj1 (forallb_forall _ _) Hm).
  unfold SpanMap.values. apply in_map_iff. exists (k, v). split; [reflexivity |].
  now apply get_In.
Qed.

(** ** The flush *)

Section FlushFacts.
Context {host : JsHost}.

(** What [sendToOtel] does with a batch that the formatter converts, by
    the answer of the network. *)
Lemma sendToOtel_run (batch : list OtelSpan.t) (payload : OtelTrace.t)
  (c : ContextBased.Converter) (w : World.t) :
  convertToOtelFormat batch = Some payload ->
  ContextBased.sendToOtel batch (c, w) =
  (Normal tt,
   (c, {| World.network := World.network w;
          World.requests :=
            World.requests w ++ [exportRequest (ContextBased.otelEndpoint c) payload];
          World.console :=
            match World.network w (List.length (World.requests w)) with
            | None => World.console w
            | Some e =>
                World.console w ++ [("Failed to export traces to OTEL endpoint:", e)]
            end |})).
Proof.
  intros Hpayload. unfold ContextBased.sendToOtel. rewrite Hpayload.
  unfold or_throw, bind, ret, this, try_catch, fetch, console_error. cbn [fst snd].
  destruct (World.network w (List.length (World.requests w))); reflexivity.
Qed.

(** A throw of the formatter leaves [sendToOtel] before the [try]. *)
Lemma sendToOtel_throws (batch : list OtelSpan.t) (c : ContextBased.Converter) (w : World.t) :
  convertToOtelFormat batch = None ->
  ContextBased.sendToOtel batch (c, w) = (Throw cannotConvert, (c, w)).
Proof.
  intros Hnone. unfold ContextBased.sendToOtel. now rewrite Hnone.
Qed.

(** What [exportSpans] does on a table that is not empty and that the
    formatter converts. *)
Lemma exportSpans_run (c : ContextBased.Converter) (w : World.t) (payload : OtelTrace.t) :
  ContextBased.spans c <> [] ->
  convertToOtelFormat (SpanMap.values (ContextBased.spans c)) = Some payload ->
  ContextBased.exportSpans (c, w) =
  (Normal tt,
   ({| ContextBased.spans := []; ContextBased.otelEndpoint := ContextBased.otelEndpoint c |},
    {| World.network := World.network w;
       World.requests :=
         World.requests w ++ [exportRequest (ContextBased.otelEndpoint c) payload];
       World.console :=
         match World.network w (List.length (World.requests w)) with
         | None => World.console w
         | Some e =>
             World.console w ++ [("Failed to export traces to OTEL endpoint:", e)]
         end |})).
Proof.
  intros Hne Hpayload. unfold ContextBased.exportSpans.
  unfold bind at 1. unfold this at 1. cbn [fst snd].
  destruct (ContextBased.spans c) as [| entry rest] eqn:Hspans; [contradiction |].
  cbn [SpanMap.values map List.length Nat.eqb].
  unfold bind. cbn [SpanMap.values map] in Hpayload.
  rewrite (sendToOtel_run _ payload c w Hpayload). reflexivity.
Qed.

(** On a table that the formatter cannot convert [exportSpans] throws, and
    the table stays as it is. *)
Lemma exportSpans_throws (c : ContextBased.Converter) (w : World.t) :
  ContextBased.spans c <> [] ->
  convertToOtelFormat (SpanMap.values (ContextBased.spans c)) = None ->
  ContextBased.exportSpans (c, w) = (Throw cannotConvert, (c, w)).
Proof.
  intros Hne Hnone. unfold ContextBased.exportSpans.
  unfold bind at 1. unfold this at 1. cbn [fst snd].
  destruct (ContextBased.spans c) as [| entry rest] eqn:Hspans; [contradiction |].
  cbn [SpanMap.values map List.length Nat.eqb].
  unfold bind. cbn [SpanMap.values map] in Hnone.
  now rewrite (sendToOtel_throws _ c w Hnone).
Qed.

(** On an empty table [exportSpans] returns at once. *)
Lemma exportSpans_empty (c : ContextBased.Converter) (w : World.t) :
  ContextBased.spans c = [] -> ContextBased.exportSpans (c, w) = (Normal tt, (c, w)).
Proof.
  intros Hempty. unfold ContextBased.exportSpans, bind, this. cbn [fst snd].
  now rewrite Hempty.
Qed.

End FlushFacts.

(** C10, as the code has it: after a flush of a non-empty span table whose
    spans the formatter can convert, the table is empty, whether the
    collector was reached or not.  The flush posts one request with every
    span of the table; when the send fails the error is logged, the spans
    are gone all the same, and a later flush posts nothing: the spans of a
    failed export are lost.  When a tag or a log field holds a value that
    has no textual representation, the formatter throws before any request
    is made: the flush throws, and the table keeps every span. *)
Theorem flush_empties_table :
  forall (host : JsHost) (c : ContextBased.Converter) (w : World.t),
    ContextBased.spans c <> [] ->
    let batch := SpanMap.values (ContextBased.spans c) in
    let after := ContextBased.exportSpans (c, w) in
    (forallb exportable batch = true ->
     exists payload : OtelTrace.t,
       convertToOtelFormat batch = Some payload /\
       Forall2 carries batch (exportedSpans payload) /\
       fst after = Normal tt /\
       ContextBased.spans (fst (snd after)) = [] /\
       World.requests (snd (snd after)) =
         World.requests w ++ [exportRequest (ContextBased.otelEndpoint c) payload] /\
       (forall e : string,
           World.network w (List.length (World.requests w)) = Some e ->
           World.console (snd (snd after)) =
             World.console w ++ [("Failed to export traces to OTEL endpoint:", e)]) /\
       ContextBased.exportSpans (snd after) = (Normal tt, snd after)) /\
    (forallb exportable batch = false ->
     after = (Throw cannotConvert, (c, w))).
Proof.
  intros host c w Hne batch after. split.
  - intros Hbatch. destruct (convertToOtelFormat_exportable batch Hbatch) as [payload Hpayload].
    exists payload. subst after. rewrite (exportSpans_run c w payload Hne Hpayload).
    cbn [fst snd].
    split; [exact Hpayload |]. split; [now apply convertToOtelFormat_carries |].
    split; [reflexivity |]. split; [reflexivity |]. split; [reflexivity |]. split.
    + intros e He. cbn. now rewrite He.
    + now apply exportSpans_empty.
  - intros Hbatch. subst after.
    apply (exportSpans_throws c w Hne). now apply convertToOtelFormat_unexportable.
Qed.

Lemma flush_empties_table_witness :
  let after := ContextBased.exportSpans (host := exampleHost) (withClosedChild, unreachable) in
  exists payload : OtelTrace.t,
    fst after = Normal tt /\
    ContextBased.spans (fst (snd after)) = [] /\
    World.requests (snd (snd after)) =
      [exportRequest "http://localhost:4318/v1/traces" payload] /\
    map WireSpan.spanId (exportedSpans payload) = ["0000000000000002"] /\
    World.console (snd (snd after)) =
      [("Failed to export traces to OTEL endpoint:", "TypeError: fetch failed")] /\
    ContextBased.exportSpans (host := exampleHost) (snd after) = (Normal tt, snd after).
Proof.
  assert (Hne : ContextBased.spans withClosedChild <> []) by discriminate.
  destruct (proj1 (flush_empties_table exampleHost withClosedChild unreachable Hne) eq_refl)
    as (payload & Hpayload & _ & Hnormal & Hempty & Hposted & Hlogged & Hlater).
  exists payload.
  split; [exact Hnormal |]. split; [exact Hempty |]. split; [exact Hposted |].
  split; [now injection Hpayload as <- |].
  split; [| exact Hlater].
  exact (Hlogged "TypeError: fetch failed" eq_refl).
Defined.

(** C10 as stated fails: after an onset, a log event on the root span whose
    message is an object with an own toString property, and the outcome
    event, the root span holds a log field that has no textual
    representation.  The flush that the outcome starts throws, posts
    nothing and leaves the span in the table; so does every later flush. *)
Lemma flush_keeps_unconvertible_spans :
  let after :=
    ContextBased.tailStream (host := exampleHost) (scenarioA_onset 1000 fetchOnset) None
      [event_at 1001 "abc" (Some "1")
         (log {| Log.level := "info";
                 Log.message := VObject [("toString", VString "x")] |});
       event_at 1003 "abc" None (outcome okOutcome)] reachable in
  let again := ContextBased.exportSpans (host := exampleHost) (snd after) in
  fst after = Normal tt /\
  SpanMap.keys (ContextBased.spans (fst (snd after))) = ["1"] /\
  World.requests (snd (snd after)) = [] /\
  fst again = Throw cannotConvert /\
  SpanMap.keys (ContextBased.spans (fst (snd again))) = ["1"] /\
  World.requests (snd (snd again)) = [].
Proof.
  vm_compute. repeat split.
Qed.

(** ** The outcome event *)

Lemma set_not_empty (m : SpanMap.t) (k : string) (v : OtelSpan.t) : SpanMap.set m k v <> [].
Proof.
  destruct m as [| [k' v'] rest]; simpl.
  - discriminate.
  - destruct (String.eqb k' k); discriminate.
Qed.

Lemma truthy_some (k : string) : k <> "" -> truthy (Some k) = true.
Proof.
  destruct k; [contradiction | reflexivity].
Qed.

(** What the outcome handler writes keeps a span exportable. *)
Lemma exportable_closeRoot (timestamp : Date) (o : Outcome.t) (root : OtelSpan.t) :
  exportable root = true -> exportable (ContextBased.closeRoot timestamp o root) = true.
Proof.
  unfold exportable, ContextBased.closeRoot. intros H. apply andb_prop in H.
  destruct H as [Htags Hlogs].
  cbn [OtelSpan.set_tag OtelSpan.set_status OtelSpan.set_endTime OtelSpan.tags OtelSpan.logs].
  rewrite Hlogs, andb_true_r.
  apply printableObject_set; [| reflexivity].
  now apply printableObject_set.
Qed.

Section OutcomeFacts.
Context {host : JsHost}.

(** The table that the outcome handler flushes, once the root is resolved. *)
Lemma handleOutcome_run (event : TailEvent.t Outcome.t) (c : ContextBased.Converter)
  (w : World.t) (k : string) (root : OtelSpan.t) :
  resolvesRoot (ContextBased.spans c) (TailEvent.spanContext event) k root ->
  let table :=
    SpanMap.set (ContextBased.spans c) k
      (ContextBased.closeRoot (TailEvent.timestamp event) (TailEvent.event event) root) in
  ContextBased.handleOutcome event (c, w) =
  unawaited ContextBased.exportSpans
    ({| ContextBased.spans := table;
        ContextBased.otelEndpoint := ContextBased.otelEndpoint c |}, w).
Proof.
  intros [Hget [[Hctx Hne] | [Hctx [Hroot Huniq]]]] table; subst table;
    unfold ContextBased.handleOutcome; unfold bind at 1.
  - rewrite Hctx, (truthy_some k Hne), (if_span_present _ _ _ _ _ Hget). reflexivity.
  - rewrite Hctx. unfold ContextBased.on_spans, update. cbn [fst snd].
    rewrite (mutate_found_unique _ k root).
    + now rewrite (mutate_as_set _ _ _ _ Hget).
    + exact Hget.
    + unfold ContextBased.parentless. now rewrite Hroot.
    + intros k' r' Hin Hp. apply (Huniq k' r' Hin).
      unfold ContextBased.parentless in Hp. now destruct (truthy (OtelSpan.parentSpanId r')).
Qed.

(** The flush that nobody awaits, on a table that is not empty. *)
Lemma unawaited_exportSpans_run (c : ContextBased.Converter) (w : World.t)
  (payload : OtelTrace.t) :
  ContextBased.spans c <> [] ->
  convertToOtelFormat (SpanMap.values (ContextBased.spans c)) = Some payload ->
  unawaited ContextBased.exportSpans (c, w) =
  (Normal tt,
   ({| ContextBased.spans := []; ContextBased.otelEndpoint := ContextBased.otelEndpoint c |},
    {| World.network := World.network w;
       World.requests :=
         World.requests w ++ [exportRequest (ContextBased.otelEndpoint c) payload];
       World.console :=
         match World.network w (List.length (World.requests w)) with
         | None => World.console w
         | Some e =>
             World.console w ++ [("Failed to export traces to OTEL endpoint:", e)]
         end |})).
Proof.
  intros Hne Hpayload. unfold unawaited. now rewrite (exportSpans_run c w payload Hne Hpayload).
Qed.

Lemma unawaited_exportSpans_throws (c : ContextBased.Converter) (w : World.t) :
  ContextBased.spans c <> [] ->
  convertToOtelFormat (SpanMap.values (ContextBased.spans c)) = None ->
  unawaited ContextBased.exportSpans (c, w) = (Normal tt, (c, w)).
Proof.
  intros Hne Hnone. unfold unawaited. now rewrite (exportSpans_throws c w Hne Hnone).
Qed.

Lemma unawaited_exportSpans_empty (c : ContextBased.Converter) (w : World.t) :
  ContextBased.spans c = [] ->
  unawaited ContextBased.exportSpans (c, w) = (Normal tt, (c, w)).
Proof.
  intros Hempty. unfold unawaited. now rewrite (exportSpans_empty c w Hempty).
Qed.

End OutcomeFacts.

(** C2: when an outcome event arrives and the root span is resolved (by the
    context's span id if there is one, otherwise as the one span of the
    table without a parentSpanId), the converter sets that span's endTime
    to the event's time, its status to OK for the outcome "ok" and to ERROR
    otherwise, with the outcome string as message, and its tags cpu.time.ms
    and wall.time.ms from the payload; it then flushes the table.  The
    flush posts one request that carries every span of the table, one wire
    span per span and in the order of the table, the root as just written
    (with its end time, status and the two time attributes) and the others
    as they were, and empties the table.  The handler returns normally in
    every case; when the flush cannot convert a span it posts nothing and
    the table stays as the handler wrote it. *)
Theorem outcome_closes_root_and_flushes :
  forall (host : JsHost) (event : TailEvent.t EventType) (o : Outcome.t)
         (c : ContextBased.Converter) (w : World.t) (k : string) (root : OtelSpan.t),
    TailEvent.event event = outcome o ->
    resolvesRoot (ContextBased.spans c) (TailEvent.spanContext event) k root ->
    exists root' : OtelSpan.t,
      let table := SpanMap.set (ContextBased.spans c) k root' in
      let after := ContextBased.handleEvent event (c, w) in
      let encoded := fun x : spec_float =>
        if Number.isInteger x then intValue (Number_toString x) else doubleValue x in
      OtelSpan.endTime root' = Some (nanoseconds (TailEvent.timestamp event)) /\
      (Outcome.outcome o = "ok" ->
       OtelSpan.status root' =
         Some {| Status.code := OK; Status.message := Some (Outcome.outcome o) |}) /\
      (Outcome.outcome o <> "ok" ->
       OtelSpan.status root' =
         Some {| Status.code := ERROR; Status.message := Some (Outcome.outcome o) |}) /\
      Object_get (OtelSpan.tags root') "cpu.time.ms" = Some (VNumber (Outcome.cpuTime o)) /\
      Object_get (OtelSpan.tags root') "wall.time.ms" = Some (VNumber (Outcome.wallTime o)) /\
      (forall key : string,
          key <> "cpu.time.ms" -> key <> "wall.time.ms" ->
          Object_get (OtelSpan.tags root') key = Object_get (OtelSpan.tags root) key) /\
      (OtelSpan.traceId root', OtelSpan.spanId root', OtelSpan.parentSpanId root',
       OtelSpan.operationName root', OtelSpan.startTime root', OtelSpan.logs root') =
      (OtelSpan.traceId root, OtelSpan.spanId root, OtelSpan.parentSpanId root,
       OtelSpan.operationName root, OtelSpan.startTime root, OtelSpan.logs root) /\
      SpanMap.keys table = SpanMap.keys (ContextBased.spans c) /\
      SpanMap.get table k = Some root' /\
      (forall k' : string, k' <> k ->
          SpanMap.get table k' = SpanMap.get (ContextBased.spans c) k') /\
      fst after = Normal tt /\
      (forallb exportable (SpanMap.values (ContextBased.spans c)) = true ->
       exists (payload : OtelTrace.t) (rootWire : WireSpan.t),
         World.requests (snd (snd after)) =
           World.requests w ++ [exportRequest (ContextBased.otelEndpoint c) payload] /\
         Forall2 carries (SpanMap.values table) (exportedSpans payload) /\
         List.length (exportedSpans payload) = List.length (ContextBased.spans c) /\
         In rootWire (exportedSpans payload) /\
         carries root' rootWire /\
         WireSpan.endTimeUnixNano rootWire =
           Some (Number_toString (nanoseconds (TailEvent.timestamp event))) /\
         WireSpan.status rootWire = OtelSpan.status root' /\
         In {| KeyValue.key := "cpu.time.ms"; KeyValue.value := encoded (Outcome.cpuTime o) |}
            (WireSpan.attributes rootWire) /\
         In {| KeyValue.key := "wall.time.ms"; KeyValue.value := encoded (Outcome.wallTime o) |}
            (WireSpan.attributes rootWire) /\
         ContextBased.spans (fst (snd after)) = []) /\
      (forallb exportable (SpanMap.values table) = false ->
       snd after =
         ({| ContextBased.spans := table;
             ContextBased.otelEndpoint := ContextBased.otelEndpoint c |}, w)).
Proof.
  intros host [payload ctx ts] o c w k root Hev Hres. simpl in Hev, Hres. subst payload.
  exists (ContextBased.closeRoot ts o root). intros table after encoded.
  assert (Hrun : after =
            unawaited ContextBased.exportSpans
              ({| ContextBased.spans := table;
                  ContextBased.otelEndpoint := ContextBased.otelEndpoint c |}, w)).
  { subst after table. unfold ContextBased.handleEvent, TailEvent.cast.
    cbn [TailEvent.event TailEvent.spanContext TailEvent.timestamp].
    exact (handleOutcome_run
             {| TailEvent.event := o; TailEvent.spanContext := ctx;
                TailEvent.timestamp := ts |} c w k root Hres). }
  destruct Hres as [Hget _].
  assert (Hcpu : Object_get (OtelSpan.tags (ContextBased.closeRoot ts o root)) "cpu.time.ms"
                 = Some (VNumber (Outcome.cpuTime o))).
  { unfold ContextBased.closeRoot, OtelSpan.set_tag. cbn [OtelSpan.tags].
    rewrite Object_get_set_other by discriminate.
    apply Object_get_set_same. discriminate. }
  assert (Hwall : Object_get (OtelSpan.tags (ContextBased.closeRoot ts o root)) "wall.time.ms"
                  = Some (VNumber (Outcome.wallTime o))).
  { unfold ContextBased.closeRoot, OtelSpan.set_tag. cbn [OtelSpan.tags].
    apply Object_get_set_same. discriminate. }
  cbn [TailEvent.timestamp].
  split; [reflexivity |].
  split; [intros Hok; unfold ContextBased.closeRoot, outcomeStatus; cbn [OtelSpan.status
            OtelSpan.set_tag OtelSpan.set_status]; now rewrite Hok |].
  split; [intros Hno; unfold ContextBased.closeRoot, outcomeStatus; cbn [OtelSpan.status
            OtelSpan.set_tag OtelSpan.set_status];
          apply String.eqb_neq in Hno; now rewrite Hno |].
  split; [exact Hcpu |]. split; [exact Hwall |].
  split; [intros key Hkey1 Hkey2; unfold ContextBased.closeRoot, OtelSpan.set_tag;
          cbn [OtelSpan.tags]; rewrite !Object_get_set_other by congruence; reflexivity |].
  split; [reflexivity |].
  split; [apply (keys_set_present _ _ _ _ Hget) |].
  split; [apply get_set_same |].
  split; [intros k' Hk'; apply get_set_other; congruence |].
  split; [now rewrite Hrun |].
  split.
  - intros Hall.
    assert (Htable : forallb exportable (SpanMap.values table) = true).
    { apply exportable_set; [exact Hall |].
      apply exportable_closeRoot. exact (exportable_get _ _ _ Hall Hget). }
    destruct (convertToOtelFormat_exportable _ Htable) as [payload Hpayload].
    rewrite (unawaited_exportSpans_run _ w payload) in Hrun;
      [| apply set_not_empty | exact Hpayload].
    pose proof (convertToOtelFormat_spans _ _ Hpayload) as Hwires.
    assert (Hin : In (ContextBased.closeRoot ts o root) (SpanMap.values table)).
    { unfold SpanMap.values. apply in_map_iff. exists (k, ContextBased.closeRoot ts o root).
      split; [reflexivity |]. apply get_In. apply get_set_same. }
    destruct (Forall2_In_left _ _ _ _ Hwires Hin) as (rootWire & HinWire & Hwire).
    pose proof (convertSpan_carries _ _ Hwire) as Hcarries.
    exists payload, rootWire.
    split; [now rewrite Hrun |].
    split; [now apply convertToOtelFormat_carries |].
    split.
    { rewrite <- (Forall2_length Hwires). unfold SpanMap.values. rewrite length_map.
      pose proof (f_equal (@List.length string)
                    (keys_set_present _ _ _ (ContextBased.closeRoot ts o root) Hget)) as Hlen.
      unfold SpanMap.keys in Hlen. rewrite !length_map in Hlen. exact Hlen. }
    split; [exact HinWire |]. split; [exact Hcarries |].
    destruct Hcarries as (_ & _ & _ & _ & _ & _ & Hend & Hstatus & _).
    split; [exact Hend |]. split; [exact Hstatus |].
    destruct (tag_is_exported _ _ "cpu.time.ms" _ Hwire eq_refl Hcpu) as (a1 & Ha1 & Hin1).
    destruct (tag_is_exported _ _ "wall.time.ms" _ Hwire eq_refl Hwall) as (a2 & Ha2 & Hin2).
    subst encoded. cbn [convertAttributeValue] in Ha1, Ha2.
    split; [destruct (Number.isInteger (Outcome.cpuTime o)); injection Ha1 as <-; exact Hin1 |].
    split; [destruct (Number.isInteger (Outcome.wallTime o)); injection Ha2 as <-; exact Hin2 |].
    now rewrite Hrun.
  - intros Htable.
    rewrite (unawaited_exportSpans_throws _ w) in Hrun;
      [| apply set_not_empty | now apply convertToOtelFormat_unexportable].
    now rewrite Hrun.
Qed.

Lemma outcome_closes_root_and_flushes_witness :
  exists (root' : OtelSpan.t) (payload : OtelTrace.t),
    OtelSpan.endTime root' = Some (nanoseconds 1003) /\
    OtelSpan.status root' = Some {| Status.code := OK; Status.message := Some "ok" |} /\
    Object_get (OtelSpan.tags root') "cpu.time.ms" = Some (VNumber (Number.ofZ 5)) /\
    Object_get (OtelSpan.tags root') "wall.time.ms" = Some (VNumber (Number.ofZ 10)) /\
    World.requests
      (snd (snd (ContextBased.handleEvent (host := exampleHost)
                   (event_at 1003 "abc" None (outcome okOutcome))
                   (beforeOutcome, reachable)))) =
    [exportRequest "http://localhost:4318/v1/traces" payload] /\
    List.length (exportedSpans payload) = 2%nat /\
    Forall2 (carries (host := exampleHost)) [root'; closedChild] (exportedSpans payload).
Proof.
  assert (Hres : resolvesRoot (ContextBased.spans beforeOutcome)
                   (TailEvent.spanContext (event_at 1003 "abc" None (outcome okOutcome)))
                   "1" openRoot).
  { split; [reflexivity |]. right. split; [reflexivity |]. split; [reflexivity |].
    intros k' r' [Heq | [Heq | []]] Hp; inversion Heq; subst; [reflexivity |].
    discriminate Hp. }
  destruct (outcome_closes_root_and_flushes exampleHost
              (event_at 1003 "abc" None (outcome okOutcome)) okOutcome
              beforeOutcome reachable "1" openRoot eq_refl Hres)
    as (root' & Hend & Hok & _ & Hcpu & Hwall & _ & _ & _ & _ & _ & _ & Hflush & _).
  destruct (Hflush eq_refl) as (payload & rootWire & Hposted & Hall & Hlen & _).
  exists root', payload.
  split; [exact Hend |]. split; [exact (Hok eq_refl) |].
  split; [exact Hcpu |]. split; [exact Hwall |]. split; [exact Hposted |].
  split; [exact Hlen | exact Hall].
Defined.

(** ** Scenario A *)

Section ScenarioFacts.
Context {host : JsHost}.

(** The tags of an onset that the converter can export are printable. *)
Lemma baseTags_printable (o : Onset.t) (tags : JsObject) :
  baseTags o = Some tags -> printableObject tags = true.
Proof.
  unfold baseTags.
  set (t0 := [("service.name", VString (or_default (Onset.scriptName o) "cloudflare-worker"));
              ("service.version", VString (or_default (Onset.scriptVersion_id o) "unknown"));
              ("execution.model", VString (Onset.executionModel o))]).
  assert (H0 : printableObject t0 = true) by reflexivity.
  set (t1 := if truthy (Onset.dispatchNamespace o)
             then Object_set t0 "dispatch.namespace" (optString (Onset.dispatchNamespace o))
             else t0).
  assert (H1 : printableObject t1 = true).
  { subst t1. destruct (truthy (Onset.dispatchNamespace o)); [| exact H0].
    apply printableObject_set; [exact H0 |]. now destruct (Onset.dispatchNamespace o). }
  set (t2 := if truthy (Onset.entrypoint o)
             then Object_set t1 "entrypoint" (optString (Onset.entrypoint o))
             else t1).
  assert (H2 : printableObject t2 = true).
  { subst t2. destruct (truthy (Onset.entrypoint o)); [| exact H1].
    apply printableObject_set; [exact H1 |]. now destruct (Onset.entrypoint o). }
  set (t3 := match Onset.scriptTags o with
             | Some scriptTags => Object_set t2 "script.tags" (VString (join "," scriptTags))
             | None => t2
             end).
  assert (H3 : printableObject t3 = true).
  { subst t3. destruct (Onset.scriptTags o); [| exact H2].
    now apply printableObject_set. }
  clearbody t3. clear t0 H0 t1 H1 t2 H2.
  destruct (Onset.info o) as [method url cf | t cron | q b | m | m | | | | ty | ty];
    try (intros [= <-]; exact H3);
    try (intros [= <-]; repeat apply printableObject_set; auto).
  destruct (ToBoolean cf); [| intros [= <-]; repeat apply printableObject_set; auto].
  unfold JSON_stringify. destruct (hasBigInt cf); [discriminate |].
  cbn [option_map]. intros [= <-].
  repeat apply printableObject_set; auto. now destruct cf.
Qed.

Lemma extractTags_printable (o : Onset.t) :
  exportableOnset o = true ->
  exists tags, ContextBased.extractTags o = Some tags /\ printableObject tags = true.
Proof.
  unfold exportableOnset. intros H. apply andb_prop in H. destruct H as [Hinfo Hattrs].
  destruct (baseTags_serialisable o Hinfo) as [tags Htags].
  pose proof (baseTags_printable o tags Htags) as Hp.
  unfold ContextBased.extractTags. rewrite Htags.
  destruct (Onset.attributes o) as [attrs |]; eexists; (split; [reflexivity |]).
  - now apply printableObject_assignAttributes.
  - exact Hp.
Qed.

Lemma extractSpanInfo_printable (info : option SpanOpenInfo) :
  exportableInfo info = true ->
  printableObject (match info with
                   | Some info => ContextBased.extractSpanInfo (Some info)
                   | None => []
                   end) = true.
Proof.
  destruct info as [[method url | [attrs |] |] |]; cbn [exportableInfo ContextBased.extractSpanInfo];
    try reflexivity.
  intros H. now apply printableObject_assignAttributes.
Qed.

End ScenarioFacts.

(** C1: for the event sequence onset(trace "abc", span "1"), spanOpen(span
    "2", name "child"), spanClose(span "2", outcome "ok"), outcome("ok",
    cpuTime 5, wallTime 10) the converter posts one request that carries
    exactly two spans, the root and the child.  The child's parentSpanId is
    "1" (on the wire, padded to sixteen digits); the root's status code is
    OK and its tags hold cpu.time.ms = 5 and wall.time.ms = 10 (on the
    wire, the integer values "5" and "10").  This holds for every time,
    endpoint and answer of the network, and for all onset metadata and
    child info that the converter can take in and export.  For an onset
    whose info cannot be serialised the handler of the initial onset
    throws, and the stream ends there with nothing stored or posted. *)
Theorem scenario_A_exports_two_spans :
  forall (host : JsHost) (o : Onset.t) (info : option SpanOpenInfo)
         (t0 t1 t2 t3 : Date) (endpoint : option string) (w : World.t),
    let after :=
      ContextBased.tailStream (scenarioA_onset t0 o) endpoint
        (scenarioA_events t1 t2 t3 info) w in
    (exportableOnset o = true ->
     exportableInfo info = true ->
     exists (root child : OtelSpan.t) (request : Request.t) (rootWire childWire : WireSpan.t),
      fst after = Normal tt /\
      World.requests (snd (snd after)) = World.requests w ++ [request] /\
      convertToOtelFormat [root; child] = Some (Request.body request) /\
      exportedSpans (Request.body request) = [rootWire; childWire] /\
      List.length (exportedSpans (Request.body request)) = 2%nat /\
      carries root rootWire /\
      carries child childWire /\
      OtelSpan.spanId root = "1" /\
      OtelSpan.parentSpanId root = None /\
      OtelSpan.spanId child = "2" /\
      OtelSpan.operationName child = "child" /\
      OtelSpan.parentSpanId child = Some "1" /\
      WireSpan.spanId rootWire = "0000000000000001" /\
      WireSpan.parentSpanId rootWire = None /\
      WireSpan.spanId childWire = "0000000000000002" /\
      WireSpan.name childWire = "child" /\
      WireSpan.parentSpanId childWire = Some "0000000000000001" /\
      OtelSpan.status root = Some {| Status.code := OK; Status.message := Some "ok" |} /\
      WireSpan.status rootWire = Some {| Status.code := OK; Status.message := Some "ok" |} /\
      Object_get (OtelSpan.tags root) "cpu.time.ms" = Some (VNumber (Number.ofZ 5)) /\
      Object_get (OtelSpan.tags root) "wall.time.ms" = Some (VNumber (Number.ofZ 10)) /\
      In {| KeyValue.key := "cpu.time.ms"; KeyValue.value := intValue "5" |}
         (WireSpan.attributes rootWire) /\
      In {| KeyValue.key := "wall.time.ms"; KeyValue.value := intValue "10" |}
         (WireSpan.attributes rootWire)) /\
    (serialisable (Onset.info o) = false ->
     after = (Throw cannotSerialize, (ContextBased.new endpoint, w))).
Proof.
  intros host o info t0 t1 t2 t3 endpoint w after. split; [intros Ho Hinfo | intros Hinfo].
  2:{ subst after. unfold ContextBased.tailStream, bind.
      unfold ContextBased.handleEvent at 1. cbn [TailEvent.event TailEvent.cast].
      rewrite handleOnset_throws; [reflexivity |].
      apply extractTags_unserialisable. exact Hinfo. }
  destruct (extractTags_printable (onset_with_spanId "1" o)) as (tags0 & Htags0 & Hp0).
  { exact Ho. }
  set (root0 := {| OtelSpan.traceId := "abc"; OtelSpan.spanId := "1";
                   OtelSpan.parentSpanId := None;
                   OtelSpan.operationName := getOperationName (Onset.info o);
                   OtelSpan.startTime := nanoseconds t0;
                   OtelSpan.endTime := None;
                   OtelSpan.tags := tags0;
                   OtelSpan.logs := [];
                   OtelSpan.status := None |}).
  set (child := OtelSpan.set_status (outcomeStatus "ok")
                  (OtelSpan.set_endTime (nanoseconds t2)
                     {| OtelSpan.traceId := "abc"; OtelSpan.spanId := "2";
                        OtelSpan.parentSpanId := Some "1";
                        OtelSpan.operationName := "child";
                        OtelSpan.startTime := nanoseconds t1;
                        OtelSpan.endTime := None;
                        OtelSpan.tags := match info with
                                         | Some info => ContextBased.extractSpanInfo (Some info)
                                         | None => []
                                         end;
                        OtelSpan.logs := [];
                        OtelSpan.status := None |})).
  set (last := {| Outcome.outcome := "ok"; Outcome.cpuTime := Number.ofZ 5;
                  Outcome.wallTime := Number.ofZ 10 |}).
  set (root := ContextBased.closeRoot t3 last root0).
  set (c := ContextBased.new endpoint).
  assert (Hroot : exportable root = true).
  { apply exportable_closeRoot. unfold exportable, root0. cbn [OtelSpan.tags OtelSpan.logs forallb].
    now rewrite Hp0. }
  assert (Hchild : exportable child = true).
  { unfold exportable, child.
    cbn [OtelSpan.set_status OtelSpan.set_endTime OtelSpan.tags OtelSpan.logs forallb].
    now rewrite (extractSpanInfo_printable info Hinfo). }
  destruct (convertToOtelFormat_exportable [root; child]) as [payload Hpayload].
  { cbn [forallb]. now rewrite Hroot, Hchild. }
  assert (Hrun : after =
            (Normal tt,
             ({| ContextBased.spans := [];
                 ContextBased.otelEndpoint := ContextBased.otelEndpoint c |},
              {| World.network := World.network w;
                 World.requests :=
                   World.requests w ++ [exportRequest (ContextBased.otelEndpoint c) payload];
                 World.console :=
                   match World.network w (List.length (World.requests w)) with
                   | None => World.console w
                   | Some e =>
                       World.console w ++ [("Failed to export traces to OTEL endpoint:", e)]
                   end |}))).
  { subst after. unfold ContextBased.tailStream, bind.
    unfold ContextBased.handleEvent at 1. cbn [TailEvent.event TailEvent.cast].
    rewrite (handleOnset_run _ _ _ tags0) by exact Htags0.
    unfold scenarioA_onset, scenarioA_events, event_at.
    cbn -[nanoseconds ContextBased.extractSpanInfo ContextBased.handleOutcome
          Object_set Number.ofZ].
    fold root0 child last. unfold bind.
    rewrite (handleOutcome_run _ _ w "1" root0).
    2:{ split; [reflexivity |]. right. split; [reflexivity |]. split; [reflexivity |].
        intros k' r' [Heq | [Heq | []]] Hp; inversion Heq; subst; [reflexivity |].
        discriminate Hp. }
    cbn [TailEvent.timestamp TailEvent.event TailEvent.cast SpanMap.set String.eqb Ascii.eqb
         Bool.eqb ContextBased.spans ContextBased.otelEndpoint].
    fold root.
    rewrite (unawaited_exportSpans_run _ w payload); [reflexivity | discriminate |].
    exact Hpayload. }
  pose proof (convertToOtelFormat_spans _ _ Hpayload) as Hwires.
  inversion Hwires as [| ? rootWire ? wires1 HrootWire Hrest1 Heq1 Heq2]; subst.
  inversion Hrest1 as [| ? childWire ? wires2 HchildWire Hrest2 Heq3 Heq4]; subst.
  inversion Hrest2; subst.
  match goal with H : _ = exportedSpans payload |- _ => rename H into Hexported end.
  pose proof (convertSpan_carries _ _ HrootWire) as Hcr.
  pose proof (convertSpan_carries _ _ HchildWire) as Hcc.
  exists root, child, (exportRequest (ContextBased.otelEndpoint c) payload), rootWire, childWire.
  rewrite Hrun. cbn [fst snd World.requests exportRequest Request.body].
  rewrite <- Hexported.
  assert (Hcpu : Object_get (OtelSpan.tags root) "cpu.time.ms"
                 = Some (VNumber (Number.ofZ 5))).
  { subst root. unfold ContextBased.closeRoot, OtelSpan.set_tag.
    cbn [OtelSpan.tags Outcome.cpuTime last].
    rewrite Object_get_set_other by discriminate.
    apply Object_get_set_same. discriminate. }
  assert (Hwall : Object_get (OtelSpan.tags root) "wall.time.ms"
                  = Some (VNumber (Number.ofZ 10))).
  { subst root. unfold ContextBased.closeRoot, OtelSpan.set_tag.
    cbn [OtelSpan.tags Outcome.wallTime last].
    apply Object_get_set_same. discriminate. }
  destruct (tag_is_exported _ _ "cpu.time.ms" _ HrootWire eq_refl Hcpu) as (a1 & Ha1 & Hin1).
  destruct (tag_is_exported _ _ "wall.time.ms" _ HrootWire eq_refl Hwall) as (a2 & Ha2 & Hin2).
  injection Ha1 as <-. injection Ha2 as <-.
  destruct Hcr as (_ & HrootId & HrootParent & _ & _ & _ & _ & HrootStatus & _).
  destruct Hcc as (_ & HchildId & HchildParent & HchildName & _).
  split; [reflexivity |]. split; [reflexivity |]. split; [exact Hpayload |].
  split; [reflexivity |]. split; [reflexivity |].
  split; [now apply convertSpan_carries |]. split; [now apply convertSpan_carries |].
  split; [reflexivity |]. split; [reflexivity |]. split; [reflexivity |].
  split; [reflexivity |]. split; [reflexivity |].
  split; [exact HrootId |]. split; [exact HrootParent |].
  split; [exact HchildId |]. split; [exact HchildName |]. split; [exact HchildParent |].
  split; [reflexivity |]. split; [exact HrootStatus |].
  split; [exact Hcpu |]. split; [exact Hwall |].
  split; [exact Hin1 | exact Hin2].
Qed.

Lemma scenario_A_exports_two_spans_witness :
  let after :=
    ContextBased.tailStream (host := exampleHost) (scenarioA_onset 1000 fetchOnset) None
      (scenarioA_events 1001 1002 1003 None) reachable in
  exists (request : Request.t) (rootWire childWire : WireSpan.t),
    fst after = Normal tt /\
    World.requests (snd (snd after)) = [request] /\
    exportedSpans (Request.body request) = [rootWire; childWire] /\
    WireSpan.parentSpanId childWire = Some "0000000000000001" /\
    WireSpan.status rootWire = Some {| Status.code := OK; Status.message := Some "ok" |} /\
    In {| KeyValue.key := "cpu.time.ms"; KeyValue.value := intValue "5" |}
       (WireSpan.attributes rootWire) /\
    In {| KeyValue.key := "wall.time.ms"; KeyValue.value := intValue "10" |}
       (WireSpan.attributes rootWire).
Proof.
  destruct (proj1 (scenario_A_exports_two_spans exampleHost fetchOnset None 1000 1001 1002
                     1003 None reachable) eq_refl eq_refl)
    as (root & child & request & rootWire & childWire & Hnormal & Hposted & _ & Hspans & _ & _
        & _ & _ & _ & _ & _ & _ & _ & _ & _ & _ & Hparent & _ & Hstatus & _ & _ & Hcpu & Hwall).
  exists request, rootWire, childWire.
  split; [exact Hnormal |]. split; [exact Hposted |]. split; [exact Hspans |].
  split; [exact Hparent |]. split; [exact Hstatus |]. split; [exact Hcpu | exact Hwall].
Defined.

(** The stack-based revision on the same events, with the onset handed to
    the converter like the rest: its outcome handler leaves the root's
    endTime unset, its flush takes the spans with an endTime only, and so it
    posts the child alone and keeps the root in the table.  Through its own
    [tailStream], which drops the initial onset, it posts the child alone
    as well. *)
Lemma stack_scenario_A_exports_child_only :
  let after :=
    StackBased.handleEvents (host := exampleHost)
      (event_at 1000 "abc" None (onset fetchOnset) :: scenarioA_events 1001 1002 1003 None)
      (StackBased.new None, reachable) in
  let streamed :=
    StackBased.tailStream (host := exampleHost) (scenarioA_onset 1000 fetchOnset) None
      (scenarioA_events 1001 1002 1003 None) reachable in
  fst after = Normal tt /\
  map (fun request => map WireSpan.spanId (exportedSpans (Request.body request)))
      (World.requests (snd (snd after))) = [["0000000000000002"]] /\
  SpanMap.keys (StackBased.spans (fst (snd after))) = ["1"] /\
  option_map OtelSpan.endTime (SpanMap.get (StackBased.spans (fst (snd after))) "1")
  = Some None /\
  map (fun request => map WireSpan.spanId (exportedSpans (Request.body request)))
      (World.requests (snd (snd streamed))) = [["0000000000000002"]].
Proof.
  vm_compute. repeat split.
Qed.

(** ** A failed send *)

Section ContainmentFacts.
Context {host : JsHost}.
Import ContextBased.

Lemma world_eta (w : World.t) :
  {| World.network := World.network w;
     World.requests := World.requests w ++ [];
     World.console := World.console w ++ [] |} = w.
Proof.
  destruct w. cbn. now rewrite !app_nil_r.
Qed.

(** [if_span] is a write through the key, which changes nothing when the
    key is not in the table. *)
Lemma if_span_as_mutate (key : option string) (f : OtelSpan.t -> OtelSpan.t)
  (c : Converter) (w : World.t) :
  if_span key f (c, w) =
  (Normal tt,
   ({| spans := match key with
                | Some k => SpanMap.mutate (spans c) k f
                | None => spans c
                end;
       otelEndpoint := otelEndpoint c |}, w)).
Proof.
  cbv beta iota delta [if_span bind this fst snd].
  destruct key as [k |]; [| now destruct c].
  cbn [lookup]. destruct (SpanMap.get (spans c) k) eqn:Hget; [reflexivity |].
  rewrite (mutate_missing _ _ _ Hget). now destruct c.
Qed.

(** The write of the outcome handler, before its flush. *)
Lemma outcome_write (ctx : SpanContext.t) (f : OtelSpan.t -> OtelSpan.t)
  (m : SpanMap.t) (endpoint : string) :
  exists m1 : SpanMap.t,
    SpanMap.keys m1 = SpanMap.keys m /\
    forall w : World.t,
      (if truthy (SpanContext.spanId ctx)
       then if_span (SpanContext.spanId ctx) f
       else on_spans (fun m0 => mutate_found m0 parentless f))
        ({| spans := m; otelEndpoint := endpoint |}, w) =
      (Normal tt, ({| spans := m1; otelEndpoint := endpoint |}, w)).
Proof.
  destruct (truthy (SpanContext.spanId ctx)).
  - exists (match SpanContext.spanId ctx with
            | Some k => SpanMap.mutate m k f
            | None => m
            end).
    split; [| intros w; apply if_span_as_mutate].
    destruct (SpanContext.spanId ctx) as [k |]; [| reflexivity].
    unfold SpanMap.keys. induction m as [| [k0 v0] rest IH]; cbn [SpanMap.mutate map].
    + reflexivity.
    + destruct (String.eqb k0 k); cbn [map fst]; [reflexivity | now rewrite IH].
  - exists (mutate_found m parentless f). split; [| intros w; reflexivity].
    unfold SpanMap.keys.
    induction m as [| [k0 v0] rest IH]; cbn [mutate_found map].
    + reflexivity.
    + destruct (parentless v0); cbn [map fst]; [reflexivity | now rewrite IH].
Qed.

Lemma quiet_returns (event : TailEvent.t EventType) (c : Converter) (m' : SpanMap.t) :
  (forall w : World.t,
      handleEvent event (c, w) =
      (Normal tt, ({| spans := m'; otelEndpoint := otelEndpoint c |}, w))) ->
  effects event c.
Proof.
  intros Hrun. exists (Normal tt), m', []. split; [now left |]. split; [now left |].
  intros w. exists []. split; [reflexivity |]. rewrite world_eta. apply Hrun.
Qed.

Lemma quiet_throws (event : TailEvent.t EventType) (c : Converter) (error : string) :
  mayThrow (TailEvent.event event) = true ->
  (forall w : World.t, handleEvent event (c, w) = (Throw error, (c, w))) ->
  effects event c.
Proof.
  intros Hkind Hrun. exists (Throw error), (spans c), [].
  split; [right; split; [now exists error | now split] |]. split; [now left |].
  intros w. exists []. split; [reflexivity |]. rewrite world_eta, Hrun. now destruct c.
Qed.

(** The effects of one event.  Its handler returns or, for an onset, a log
    or a diagnosticChannel event, throws before it has written anything.
    It keeps the endpoint and posts nothing unless it is an outcome, which
    posts at most one request, to the endpoint.  The completion, the table
    and the request do not depend on what the network answers; only the
    console does. *)
Lemma handleEvent_effects (event : TailEvent.t EventType) (c : Converter) :
  effects event c.
Proof.
  destruct event as [payload ctx ts]. destruct c as [m endpoint].
  destruct payload as [e | e | e | e | e | e | e | e | e | ty].
  - destruct (extractTags e) as [tags |] eqn:Htags.
    + eapply quiet_returns. intros w. unfold handleEvent. cbn [TailEvent.event TailEvent.cast].
      rewrite (handleOnset_run _ _ w tags) by exact Htags.
      cbn [spans otelEndpoint TailEvent.event TailEvent.spanContext TailEvent.timestamp].
      reflexivity.
    + apply (quiet_throws _ _ cannotSerialize); [reflexivity |]. intros w.
      unfold handleEvent. cbn [TailEvent.event TailEvent.cast].
      now rewrite handleOnset_throws by exact Htags.
  - eapply quiet_returns. intros w. unfold handleEvent, handleSpanOpen, on_spans, update.
    cbn [TailEvent.event TailEvent.cast TailEvent.spanContext TailEvent.timestamp
         fst snd spans otelEndpoint OtelSpan.spanId].
    reflexivity.
  - eapply quiet_returns. intros w. unfold handleEvent, handleAttributes.
    cbn [TailEvent.event TailEvent.cast TailEvent.spanContext].
    instantiate (1 := match Attributes.info e with
                      | Some info =>
                          match SpanContext.spanId ctx with
                          | Some k =>
                              SpanMap.mutate m k
                                (fun span => for_of info
                                   (fun attr => OtelSpan.set_tag (Attribute.name attr)
                                                  (Attribute.value attr)) span)
                          | None => m
                          end
                      | None => m
                      end).
    destruct (Attributes.info e) as [info |]; [| reflexivity].
    now rewrite if_span_as_mutate.
  - destruct (SpanContext.spanId ctx) as [k |] eqn:Hk;
      [destruct (SpanMap.get m k) as [span |] eqn:Hget;
       [destruct (logMessage (Log.message e)) as [message |] eqn:Hmessage |] |].
    + eapply (quiet_returns {| TailEvent.event := log e; TailEvent.spanContext := ctx;
                               TailEvent.timestamp := ts |}).
      intros w. unfold handleEvent, handleLog.
      cbn [TailEvent.event TailEvent.cast TailEvent.spanContext TailEvent.timestamp].
      rewrite Hk, Hmessage, if_span_with_run. cbn [spans otelEndpoint]. rewrite Hget.
      reflexivity.
    + apply (quiet_throws {| TailEvent.event := log e; TailEvent.spanContext := ctx;
                             TailEvent.timestamp := ts |} _ cannotConvert); [reflexivity |].
      intros w. unfold handleEvent, handleLog.
      cbn [TailEvent.event TailEvent.cast TailEvent.spanContext TailEvent.timestamp].
      rewrite Hk, Hmessage, if_span_with_run. cbn [spans otelEndpoint]. now rewrite Hget.
    + apply (quiet_returns {| TailEvent.event := log e; TailEvent.spanContext := ctx;
                              TailEvent.timestamp := ts |} _ m).
      intros w. unfold handleEvent, handleLog.
      cbn [TailEvent.event TailEvent.cast TailEvent.spanContext TailEvent.timestamp].
      rewrite Hk, if_span_with_run. cbn [spans otelEndpoint]. now rewrite Hget.
    + apply (quiet_returns {| TailEvent.event := log e; TailEvent.spanContext := ctx;
                              TailEvent.timestamp := ts |} _ m).
      intros w. unfold handleEvent, handleLog.
      cbn [TailEvent.event TailEvent.cast TailEvent.spanContext TailEvent.timestamp].
      now rewrite Hk, if_span_with_run.
  - eapply quiet_returns. intros w. unfold handleEvent, handleSpanClose.
    cbn [TailEvent.event TailEvent.cast TailEvent.spanContext TailEvent.timestamp].
    rewrite if_span_as_mutate. cbn [spans otelEndpoint]. reflexivity.
  - unfold effects, handleEvent, handleOutcome.
    cbn [TailEvent.event TailEvent.cast TailEvent.spanContext TailEvent.timestamp
         spans otelEndpoint].
    destruct (outcome_write ctx (closeRoot ts e) m endpoint) as (m1 & _ & Hfirst).
    destruct m1 as [| entry rest].
    + exists (Normal tt), [], []. split; [now left |]. split; [now left |].
      intros w. exists []. split; [reflexivity |]. rewrite world_eta.
      unfold bind. rewrite Hfirst. now rewrite unawaited_exportSpans_empty.
    + destruct (convertToOtelFormat (SpanMap.values (entry :: rest))) as [payload |] eqn:Hpayload.
      * exists (Normal tt), [], [exportRequest endpoint payload].
        split; [now left |].
        split; [right; exists e, (SpanMap.values (entry :: rest)), payload;
                split; [reflexivity |]; split; [discriminate |]; now split |].
        intros w. unfold bind. rewrite Hfirst.
        rewrite (unawaited_exportSpans_run _ w payload) by (discriminate || exact Hpayload).
        cbn [spans otelEndpoint].
        destruct (World.network w (List.length (World.requests w))) as [err |].
        -- eexists. split; [discriminate | reflexivity].
        -- exists []. split; [reflexivity | now rewrite app_nil_r].
      * exists (Normal tt), (entry :: rest), []. split; [now left |]. split; [now left |].
        intros w. exists []. split; [reflexivity |]. rewrite world_eta.
        unfold bind. rewrite Hfirst.
        now rewrite unawaited_exportSpans_throws by (discriminate || exact Hpayload).
  - eapply quiet_returns. intros w. unfold handleEvent, handleException.
    cbn [TailEvent.event TailEvent.cast TailEvent.spanContext TailEvent.timestamp].
    rewrite if_span_as_mutate. cbn [spans otelEndpoint]. reflexivity.
  - eapply quiet_returns. intros w. unfold handleEvent, handleReturn.
    cbn [TailEvent.event TailEvent.cast TailEvent.spanContext].
    instantiate (1 := match Return.info e with
                      | Some info =>
                          if String.eqb (FetchResponseInfo.type info) "fetch"
                          then match SpanContext.spanId ctx with
                               | Some k =>
                                   SpanMap.mutate m k
                                     (OtelSpan.set_tag "http.response.status_code"
                                        (VNumber (FetchResponseInfo.statusCode info)))
                               | None => m
                               end
                          else m
                      | None => m
                      end).
    destruct (Return.info e) as [info |]; [| reflexivity].
    destruct (String.eqb (FetchResponseInfo.type info) "fetch"); [| reflexivity].
    now rewrite if_span_as_mutate.
  - destruct (SpanContext.spanId ctx) as [k |] eqn:Hk;
      [destruct (SpanMap.get m k) as [span |] eqn:Hget;
       [destruct (diagnosticMessage (DiagnosticChannelEvent.message e))
          as [message |] eqn:Hmessage |] |].
    + eapply (quiet_returns {| TailEvent.event := diagnosticChannel e;
                               TailEvent.spanContext := ctx; TailEvent.timestamp := ts |}).
      intros w. unfold handleEvent, handleDiagnosticChannel.
      cbn [TailEvent.event TailEvent.cast TailEvent.spanContext TailEvent.timestamp].
      rewrite Hk, Hmessage, if_span_with_run. cbn [spans otelEndpoint]. rewrite Hget.
      reflexivity.
    + apply (quiet_throws {| TailEvent.event := diagnosticChannel e;
                             TailEvent.spanContext := ctx; TailEvent.timestamp := ts |}
               _ cannotSerialize); [reflexivity |].
      intros w. unfold handleEvent, handleDiagnosticChannel.
      cbn [TailEvent.event TailEvent.cast TailEvent.spanContext TailEvent.timestamp].
      rewrite Hk, Hmessage, if_span_with_run. cbn [spans otelEndpoint]. now rewrite Hget.
    + apply (quiet_returns {| TailEvent.event := diagnosticChannel e;
                              TailEvent.spanContext := ctx; TailEvent.timestamp := ts |} _ m).
      intros w. unfold handleEvent, handleDiagnosticChannel.
      cbn [TailEvent.event TailEvent.cast TailEvent.spanContext TailEvent.timestamp].
      rewrite Hk, if_span_with_run. cbn [spans otelEndpoint]. now rewrite Hget.
    + apply (quiet_returns {| TailEvent.event := diagnosticChannel e;
                              TailEvent.spanContext := ctx; TailEvent.timestamp := ts |} _ m).
      intros w. unfold handleEvent, handleDiagnosticChannel.
      cbn [TailEvent.event TailEvent.cast TailEvent.spanContext TailEvent.timestamp].
      now rewrite Hk, if_span_with_run.
  - apply (quiet_returns _ _ m). intros w. reflexivity.
Qed.

Lemma handleEvent_step (event : TailEvent.t EventType) (c : Converter) :
  exists (completion : Completion unit) (c' : Converter) (posted : list Request.t),
    forall w : World.t, exists lines : list (string * string),
      handleEvent event (c, w) =
      (completion,
       (c', {| World.network := World.network w;
               World.requests := World.requests w ++ posted;
               World.console := World.console w ++ lines |})).
Proof.
  destruct (handleEvent_effects event c) as (completion & m' & posted & _ & _ & Hrun).
  exists completion, {| spans := m'; otelEndpoint := otelEndpoint c |}, posted.
  intros w. destruct (Hrun w) as (lines & _ & Hw). now exists lines.
Qed.

(** A stream of events runs to a completion, a converter and requests that
    do not depend on what the network answers. *)
Lemma handleEvents_step (events : list (TailEvent.t EventType)) :
  forall c : Converter,
  exists (completion : Completion unit) (c' : Converter) (posted : list Request.t),
    forall w : World.t, exists lines : list (string * string),
      handleEvents events (c, w) =
      (completion,
       (c', {| World.network := World.network w;
               World.requests := World.requests w ++ posted;
               World.console := World.console w ++ lines |})).
Proof.
  induction events as [| event rest IH]; intros c.
  - exists (Normal tt), c, []. intros w. exists []. cbn [handleEvents]. unfold ret.
    now rewrite world_eta.
  - destruct (handleEvent_step event c) as (completion1 & c1 & posted1 & H1).
    destruct completion1 as [[] | error].
    + destruct (IH c1) as (completion2 & c2 & posted2 & H2).
      exists completion2, c2, (posted1 ++ posted2). intros w.
      destruct (H1 w) as [lines1 Hrun1].
      destruct (H2 {| World.network := World.network w;
                      World.requests := World.requests w ++ posted1;
                      World.console := World.console w ++ lines1 |}) as [lines2 Hrun2].
      exists (lines1 ++ lines2). cbn [handleEvents]. unfold bind.
      rewrite Hrun1, Hrun2. cbn [World.network World.requests World.console].
      now rewrite !app_assoc.
    + exists (Throw error), c1, posted1. intros w.
      destruct (H1 w) as [lines1 Hrun1]. exists lines1.
      cbn [handleEvents]. unfold bind. now rewrite Hrun1.
Qed.

End ContainmentFacts.

(** The stack-based flush catches a failed send in the same way, and then
    keeps the spans it tried to export. *)
Lemma stack_export_failure_is_caught :
  forall (host : JsHost) (c : StackBased.Converter) (w : World.t) (e : string)
         (payload : OtelTrace.t),
    filter StackBased.completed (SpanMap.values (StackBased.spans c)) <> [] ->
    convertToOtelFormat (filter StackBased.completed (SpanMap.values (StackBased.spans c)))
      = Some payload ->
    World.network w (List.length (World.requests w)) = Some e ->
    StackBased.exportSpans (c, w) =
    (Normal tt,
     (c, {| World.network := World.network w;
            World.requests :=
              World.requests w ++ [exportRequest (StackBased.otelEndpoint c) payload];
            World.console :=
              World.console w ++ [("Failed to export traces to OTEL endpoint:", e)] |})).
Proof.
  intros host c w e payload Hne Hpayload Hnet.
  unfold StackBased.exportSpans. unfold bind at 1. unfold this at 1. cbn [fst snd].
  destruct (filter StackBased.completed (SpanMap.values (StackBased.spans c)))
    as [| span rest] eqn:Hbatch; [contradiction |].
  cbn [List.length Nat.eqb]. rewrite Hpayload.
  unfold or_throw, try_catch, bind, ret, fetch, console_error. cbn [fst snd].
  rewrite Hnet. reflexivity.
Qed.

(** C8: when the send to the collector fails, [sendToOtel] catches the
    error and logs it; neither it nor the flush throws, and the outcome
    handler that starts the flush returns normally.  What comes after is
    unaffected: the converter is in the state a successful send would have
    left, and any later events run to the same completion, the same
    converter and the same requests as after a successful send.  There is a
    send when the table is not empty and the formatter can convert its
    spans. *)
Theorem export_failure_is_contained :
  forall (host : JsHost) (c : ContextBased.Converter) (w : World.t) (e : string)
         (events : list (TailEvent.t EventType)),
    ContextBased.spans c <> [] ->
    forallb exportable (SpanMap.values (ContextBased.spans c)) = true ->
    World.network w (List.length (World.requests w)) = Some e ->
    let sent := ContextBased.sendToOtel (SpanMap.values (ContextBased.spans c)) (c, w) in
    let failed := ContextBased.exportSpans (c, w) in
    let succeeded := ContextBased.exportSpans (c, resolving w) in
    let later_failed := ContextBased.handleEvents events (snd failed) in
    let later_succeeded := ContextBased.handleEvents events (snd succeeded) in
    fst sent = Normal tt /\
    fst (snd sent) = c /\
    World.console (snd (snd sent)) =
      World.console w ++ [("Failed to export traces to OTEL endpoint:", e)] /\
    List.length (World.requests (snd (snd sent))) = S (List.length (World.requests w)) /\
    fst failed = Normal tt /\
    World.console (snd (snd failed)) =
      World.console w ++ [("Failed to export traces to OTEL endpoint:", e)] /\
    World.console (snd (snd succeeded)) = World.console w /\
    fst (snd failed) = fst (snd succeeded) /\
    World.requests (snd (snd failed)) = World.requests (snd (snd succeeded)) /\
    (forall (event : TailEvent.t EventType) (o : Outcome.t),
        TailEvent.event event = outcome o ->
        fst (ContextBased.handleEvent event (c, w)) = Normal tt) /\
    fst later_failed = fst later_succeeded /\
    fst (snd later_failed) = fst (snd later_succeeded) /\
    World.requests (snd (snd later_failed)) = World.requests (snd (snd later_succeeded)).
Proof.
  intros host c w e events Hne Hall Hnet sent failed succeeded later_failed later_succeeded.
  destruct (convertToOtelFormat_exportable _ Hall) as [payload Hpayload].
  subst sent. rewrite (sendToOtel_run _ payload c w Hpayload).
  cbn [fst snd World.console World.requests]. rewrite Hnet.
  split; [reflexivity |]. split; [reflexivity |]. split; [reflexivity |].
  split; [rewrite length_app; cbn [List.length]; lia |].
  subst later_failed later_succeeded.
  assert (Hf : failed = ContextBased.exportSpans (c, w)) by reflexivity.
  assert (Hs : succeeded = ContextBased.exportSpans (c, resolving w)) by reflexivity.
  rewrite (exportSpans_run c w payload Hne Hpayload) in Hf.
  rewrite (exportSpans_run c (resolving w) payload Hne Hpayload) in Hs.
  cbn [resolving World.network World.requests World.console] in Hs.
  rewrite Nat.eqb_refl in Hs. rewrite Hnet in Hf.
  clearbody failed succeeded. subst failed succeeded. cbn [fst snd World.console World.requests].
  split; [reflexivity |]. split; [reflexivity |]. split; [reflexivity |].
  split; [reflexivity |]. split; [reflexivity |].
  split.
  { intros event o Hev.
    destruct (handleEvent_effects event c)
      as (completion & m' & posted & [-> | (_ & Hthrows & _)] & _ & Hrun).
    - destruct (Hrun w) as (lines & _ & Hw). now rewrite Hw.
    - rewrite Hev in Hthrows. discriminate Hthrows. }
  destruct (handleEvents_step events
              {| ContextBased.spans := [];
                 ContextBased.otelEndpoint := ContextBased.otelEndpoint c |})
    as (completion & c' & posted & Hlater).
  match goal with
  | |- context [ContextBased.handleEvents events (_, ?w1)] =>
      destruct (Hlater w1) as [lines1 Hrun1]; rewrite Hrun1
  end.
  match goal with
  | |- context [ContextBased.handleEvents events (_, ?w2)] =>
      destruct (Hlater w2) as [lines2 Hrun2]; rewrite Hrun2
  end.
  cbn [fst snd World.requests]. repeat split; reflexivity.
Qed.

Lemma export_failure_is_contained_witness :
  let failed := ContextBased.exportSpans (host := exampleHost) (withClosedChild, unreachable) in
  let succeeded :=
    ContextBased.exportSpans (host := exampleHost) (withClosedChild, resolving unreachable) in
  let next := [event_at 2000 "def" None (onset fetchOnset)] in
  fst failed = Normal tt /\
  World.console (snd (snd failed)) =
    [("Failed to export traces to OTEL endpoint:", "TypeError: fetch failed")] /\
  fst (snd failed) = fst (snd succeeded) /\
  fst (ContextBased.handleEvents (host := exampleHost) next (snd failed)) =
  fst (ContextBased.handleEvents (host := exampleHost) next (snd succeeded)) /\
  fst (snd (ContextBased.handleEvents (host := exampleHost) next (snd failed))) =
  fst (snd (ContextBased.handleEvents (host := exampleHost) next (snd succeeded))).
Proof.
  assert (Hne : ContextBased.spans withClosedChild <> []) by discriminate.
  destruct (export_failure_is_contained exampleHost withClosedChild unreachable
              "TypeError: fetch failed"
              [event_at 2000 "def" None (onset fetchOnset)] Hne eq_refl eq_refl)
    as (_ & _ & _ & _ & Hnormal & Hlogged & _ & Hstate & _ & _ & Hlater & Hsame & _).
  split; [exact Hnormal |]. split; [exact Hlogged |]. split; [exact Hstate |].
  split; [exact Hlater | exact Hsame].
Defined.

(** ** Who writes endTime *)

Section EndTimeFacts.
Context {host : JsHost}.
Import ContextBased.

Lemma for_of_set_tag_endTime (info : list Attribute.t) (span : OtelSpan.t) :
  OtelSpan.endTime
    (for_of info (fun attr => OtelSpan.set_tag (Attribute.name attr) (Attribute.value attr))
       span) = OtelSpan.endTime span.
Proof.
  unfold for_of. revert span.
  induction info as [| attr rest IH]; intros span; cbn [fold_left].
  - reflexivity.
  - now rewrite IH.
Qed.

(** A write through [if_span] that keeps endTime keeps it for every span. *)
Lemma if_span_keeps_endTime (key : option string) (f : OtelSpan.t -> OtelSpan.t)
  (c : Converter) (w : World.t) (k : string) :
  (forall x, OtelSpan.endTime (f x) = OtelSpan.endTime x) ->
  exists c' : Converter,
    if_span key f (c, w) = (Normal tt, (c', w)) /\ endTimeOf c' k = endTimeOf c k.
Proof.
  intros Hf. cbv beta iota delta [if_span bind this fst snd].
  destruct key as [k0 |]; [| now exists c].
  destruct (lookup c (Some k0)) eqn:Hk0; [| now exists c].
  eexists. split; [reflexivity |].
  unfold endTimeOf. cbn [spans fst].
  destruct (String.eqb k0 k) eqn:E.
  - apply String.eqb_eq in E. subst k0. rewrite get_mutate_same.
    destruct (SpanMap.get (spans c) k); cbn [option_map]; [now rewrite Hf | reflexivity].
  - apply String.eqb_neq in E. now rewrite get_mutate_other.
Qed.

(** The same for a write whose argument may throw: the write keeps every
    endTime, and a throw writes nothing. *)
Lemma if_span_with_keeps_endTime {A : Type} (key : option string) (arg : option A)
  (error : string) (f : A -> OtelSpan.t -> OtelSpan.t)
  (c : Converter) (w : World.t) (k : string) :
  (forall a x, OtelSpan.endTime (f a x) = OtelSpan.endTime x) ->
  exists (completion : Completion unit) (c' : Converter),
    if_span_with key arg error f (c, w) = (completion, (c', w)) /\
    endTimeOf c' k = endTimeOf c k.
Proof.
  intros Hf. rewrite if_span_with_run.
  destruct key as [k0 |]; [| now exists (Normal tt), c].
  destruct (SpanMap.get (spans c) k0) eqn:Hk0; [| now exists (Normal tt), c].
  destruct arg as [a |]; [| now exists (Throw error), c].
  eexists. eexists. split; [reflexivity |].
  unfold endTimeOf. cbn [spans].
  destruct (String.eqb k0 k) eqn:E.
  - apply String.eqb_eq in E. subst k0. rewrite get_mutate_same.
    destruct (SpanMap.get (spans c) k); cbn [option_map]; [now rewrite Hf | reflexivity].
  - apply String.eqb_neq in E. now rewrite get_mutate_other.
Qed.

(** A write through [if_span] under another key leaves the span alone. *)
Lemma if_span_other_key (key : option string) (f : OtelSpan.t -> OtelSpan.t)
  (c : Converter) (w : World.t) (k : string) :
  key <> Some k ->
  exists c' : Converter,
    if_span key f (c, w) = (Normal tt, (c', w)) /\
    SpanMap.get (spans c') k = SpanMap.get (spans c) k.
Proof.
  intros Hkey. cbv beta iota delta [if_span bind this fst snd].
  destruct key as [k0 |]; [| now exists c].
  destruct (lookup c (Some k0)) eqn:Hk0; [| now exists c].
  eexists. split; [reflexivity |]. cbn [spans].
  apply get_mutate_other. congruence.
Qed.

End EndTimeFacts.

(** C3, as the code has it: a span's endTime is written by every
    close-equivalent event that applies to the span, not only by the first.
    A spanClose whose context names a span of the table sets that span's
    endTime to the event's time whatever it was before, and the outcome
    event does the same to the root it resolves: it writes the endTime into
    the table before it starts the flush, and the flush exports the root
    with that end time.  No other event changes the endTime of a span in
    the table: after every event that is not close-equivalent for the span,
    whether its handler returns or throws, the span is in the table with
    the endTime it had. *)
Theorem endTime_written_by_every_close :
  forall (host : JsHost) (event : TailEvent.t EventType)
         (c : ContextBased.Converter) (w : World.t) (k : string) (span : OtelSpan.t),
    SpanMap.get (ContextBased.spans c) k = Some span ->
    (leavesEndTime event k ->
     exists (completion : Completion unit) (c' : ContextBased.Converter),
       ContextBased.handleEvent event (c, w) = (completion, (c', w)) /\
       endTimeOf c' k = Some (OtelSpan.endTime span)) /\
    (forall e : SpanClose.t,
        TailEvent.event event = spanClose e ->
        SpanContext.spanId (TailEvent.spanContext event) = Some k ->
        exists c' : ContextBased.Converter,
          ContextBased.handleEvent event (c, w) = (Normal tt, (c', w)) /\
          endTimeOf c' k = Some (Some (nanoseconds (TailEvent.timestamp event)))) /\
    (forall o : Outcome.t,
        TailEvent.event event = outcome o ->
        resolvesRoot (ContextBased.spans c) (TailEvent.spanContext event) k span ->
        exists written : ContextBased.Converter,
          ContextBased.handleEvent event (c, w) =
            unawaited ContextBased.exportSpans (written, w) /\
          SpanMap.keys (ContextBased.spans written) = SpanMap.keys (ContextBased.spans c) /\
          endTimeOf written k = Some (Some (nanoseconds (TailEvent.timestamp event))) /\
          (forallb exportable (SpanMap.values (ContextBased.spans c)) = true ->
           exists (request : Request.t) (wire : WireSpan.t),
             World.requests (snd (snd (ContextBased.handleEvent event (c, w)))) =
               World.requests w ++ [request] /\
             In wire (exportedSpans (Request.body request)) /\
             WireSpan.spanId wire = padHex (OtelSpan.spanId span) 16 /\
             WireSpan.endTimeUnixNano wire =
               Some (Number_toString (nanoseconds (TailEvent.timestamp event))))).
Proof.
  intros host [payload ctx ts] c w k span Hget.
  assert (Hold : endTimeOf c k = Some (OtelSpan.endTime span))
    by (unfold endTimeOf; now rewrite Hget).
  split; [| split].
  - unfold leavesEndTime, ContextBased.handleEvent.
    cbn [TailEvent.event TailEvent.spanContext]. intros Hleave.
    destruct payload as [e | e | e | e | e | e | e | e | e | ty].
    + cbn [TailEvent.cast].
      destruct (ContextBased.extractTags e) as [tags |] eqn:Htags.
      * rewrite (handleOnset_run _ _ w tags) by exact Htags.
        eexists. eexists. split; [reflexivity |]. unfold endTimeOf.
        cbn [ContextBased.spans TailEvent.event].
        rewrite get_set_other by exact Hleave. exact Hold.
      * rewrite handleOnset_throws by exact Htags. now exists (Throw cannotSerialize), c.
    + exists (Normal tt). eexists. split; [reflexivity |].
      unfold endTimeOf. cbn [ContextBased.spans fst].
      rewrite get_set_other by exact Hleave. exact Hold.
    + unfold ContextBased.handleAttributes. cbn [TailEvent.cast TailEvent.event TailEvent.spanContext].
      destruct (Attributes.info e) as [info |]; [| now exists (Normal tt), c].
      destruct (if_span_keeps_endTime (SpanContext.spanId ctx)
                  (fun span => for_of info
                     (fun attr => OtelSpan.set_tag (Attribute.name attr) (Attribute.value attr))
                     span) c w k (for_of_set_tag_endTime info)) as (c' & Hrun & Hend).
      exists (Normal tt), c'. split; [exact Hrun | congruence].
    + unfold ContextBased.handleLog. cbn [TailEvent.cast TailEvent.event TailEvent.spanContext].
      match goal with
      | |- context [ContextBased.if_span_with ?key ?arg ?error ?f] =>
          destruct (if_span_with_keeps_endTime key arg error f c w k (fun a x => eq_refl))
            as (completion & c' & Hrun & Hend)
      end.
      exists completion, c'. split; [exact Hrun | congruence].
    + unfold ContextBased.handleSpanClose. cbn [TailEvent.cast TailEvent.event TailEvent.spanContext].
      match goal with
      | |- context [ContextBased.if_span ?key ?f] =>
          destruct (if_span_other_key key f c w k Hleave) as (c' & Hrun & Hsame)
      end.
      exists (Normal tt), c'. split; [exact Hrun |]. unfold endTimeOf. now rewrite Hsame, Hget.
    + contradiction.
    + unfold ContextBased.handleException. cbn [TailEvent.cast TailEvent.event TailEvent.spanContext].
      match goal with
      | |- context [ContextBased.if_span ?key ?f] =>
          destruct (if_span_keeps_endTime key f c w k (fun x => eq_refl))
            as (c' & Hrun & Hend)
      end.
      exists (Normal tt), c'. split; [exact Hrun | congruence].
    + unfold ContextBased.handleReturn. cbn [TailEvent.cast TailEvent.event TailEvent.spanContext].
      destruct (Return.info e) as [info |]; [| now exists (Normal tt), c].
      destruct (String.eqb (FetchResponseInfo.type info) "fetch");
        [| now exists (Normal tt), c].
      match goal with
      | |- context [ContextBased.if_span ?key ?f] =>
          destruct (if_span_keeps_endTime key f c w k (fun x => eq_refl))
            as (c' & Hrun & Hend)
      end.
      exists (Normal tt), c'. split; [exact Hrun | congruence].
    + unfold ContextBased.handleDiagnosticChannel.
      cbn [TailEvent.cast TailEvent.event TailEvent.spanContext].
      match goal with
      | |- context [ContextBased.if_span_with ?key ?arg ?error ?f] =>
          destruct (if_span_with_keeps_endTime key arg error f c w k (fun a x => eq_refl))
            as (completion & c' & Hrun & Hend)
      end.
      exists completion, c'. split; [exact Hrun | congruence].
    + now exists (Normal tt), c.
  - cbn [TailEvent.event TailEvent.spanContext TailEvent.timestamp].
    intros e Hev Hctx. subst payload.
    unfold ContextBased.handleEvent, ContextBased.handleSpanClose.
    cbn [TailEvent.cast TailEvent.event TailEvent.spanContext TailEvent.timestamp].
    rewrite Hctx, (if_span_present _ _ _ _ _ Hget).
    eexists. split; [reflexivity |].
    unfold endTimeOf. cbn [ContextBased.spans]. now rewrite get_set_same.
  - cbn [TailEvent.event TailEvent.spanContext TailEvent.timestamp].
    intros o Hev Hres. subst payload.
    set (root' := ContextBased.closeRoot ts o span).
    set (written := {| ContextBased.spans := SpanMap.set (ContextBased.spans c) k root';
                       ContextBased.otelEndpoint := ContextBased.otelEndpoint c |}).
    assert (Hrun : ContextBased.handleEvent
                     {| TailEvent.event := outcome o; TailEvent.spanContext := ctx;
                        TailEvent.timestamp := ts |} (c, w) =
                   unawaited ContextBased.exportSpans (written, w)).
    { unfold ContextBased.handleEvent, TailEvent.cast.
      cbn [TailEvent.event TailEvent.spanContext TailEvent.timestamp].
      exact (handleOutcome_run
               {| TailEvent.event := o; TailEvent.spanContext := ctx;
                  TailEvent.timestamp := ts |} c w k span Hres). }
    exists written. split; [exact Hrun |].
    split; [apply (keys_set_present _ _ _ root' Hget) |].
    split; [unfold endTimeOf, written; cbn [ContextBased.spans];
            now rewrite get_set_same |].
    intros Hall.
    assert (Htable : forallb exportable (SpanMap.values (ContextBased.spans written)) = true).
    { apply exportable_set; [exact Hall |].
      apply exportable_closeRoot. exact (exportable_get _ _ _ Hall Hget). }
    destruct (convertToOtelFormat_exportable _ Htable) as [payload Hpayload].
    rewrite Hrun, (unawaited_exportSpans_run written w payload);
      [| apply set_not_empty | exact Hpayload].
    pose proof (convertToOtelFormat_spans _ _ Hpayload) as Hwires.
    assert (Hin : In root' (SpanMap.values (ContextBased.spans written))).
    { unfold SpanMap.values. apply in_map_iff. exists (k, root').
      split; [reflexivity |]. apply get_In. apply get_set_same. }
    destruct (Forall2_In_left _ _ _ _ Hwires Hin) as (wire & HinWire & Hwire).
    destruct (convertSpan_carries _ _ Hwire) as (_ & Hid & _ & _ & _ & _ & Hend & _).
    exists (exportRequest (ContextBased.otelEndpoint written) payload), wire.
    cbn [fst snd World.requests exportRequest Request.body].
    split; [reflexivity |]. split; [exact HinWire |]. split; [exact Hid | exact Hend].
Qed.

Lemma endTime_written_by_every_close_witness :
  (exists c' : ContextBased.Converter,
      ContextBased.handleEvent (host := exampleHost)
        (event_at 1005 "abc" (Some "2") (spanClose {| SpanClose.outcome := "ok" |}))
        (withClosedChild, reachable) = (Normal tt, (c', reachable)) /\
      endTimeOf withClosedChild "2" = Some (Some (nanoseconds 1002)) /\
      endTimeOf c' "2" = Some (Some (nanoseconds 1005))) /\
  (exists written : ContextBased.Converter,
      ContextBased.handleEvent (host := exampleHost)
        (event_at 1005 "abc" (Some "2") (outcome okOutcome)) (withClosedChild, reachable) =
        unawaited (ContextBased.exportSpans (host := exampleHost)) (written, reachable) /\
      endTimeOf written "2" = Some (Some (nanoseconds 1005))).
Proof.
  split.
  - destruct (proj1 (proj2 (endTime_written_by_every_close exampleHost
                       (event_at 1005 "abc" (Some "2") (spanClose {| SpanClose.outcome := "ok" |}))
                       withClosedChild reachable "2" closedChild eq_refl))
                _ eq_refl eq_refl) as (c' & Hrun & Hend).
    exists c'. split; [exact Hrun |]. split; [reflexivity | exact Hend].
  - assert (Hres : resolvesRoot (ContextBased.spans withClosedChild)
                     (TailEvent.spanContext (event_at 1005 "abc" (Some "2") (outcome okOutcome)))
                     "2" closedChild).
    { split; [reflexivity |]. left. split; [reflexivity | discriminate]. }
    destruct (proj2 (proj2 (endTime_written_by_every_close exampleHost
                       (event_at 1005 "abc" (Some "2") (outcome okOutcome))
                       withClosedChild reachable "2" closedChild eq_refl))
                okOutcome eq_refl Hres) as (written & Hrun & _ & Hend & _).
    exists written. split; [exact Hrun | exact Hend].
Defined.

(** C3 as stated fails: after onset(span "1"), spanOpen(span "2") and a
    spanClose in the context of span "2" at time 1002, a second spanClose in
    the same context at time 1005 overwrites the endTime of span "2", which
    is still in the table. *)
Lemma endTime_overwritten_by_second_close :
  let run := fun events =>
    fst (snd (ContextBased.tailStream (host := exampleHost)
                (scenarioA_onset 1000 fetchOnset) None events reachable)) in
  endTimeOf (run (firstn 2 (closedTwice 1005))) "2" = Some (Some (nanoseconds 1002)) /\
  endTimeOf (run (closedTwice 1005)) "2" = Some (Some (nanoseconds 1005)) /\
  nanoseconds 1002 <> nanoseconds 1005.
Proof.
  vm_compute. repeat split. discriminate.
Qed.

(** ** The attribute encoder *)



Section EncoderFacts.
Context {host : JsHost}.






End EncoderFacts.




(** * Further properties of the converter *)

(** ** The padding never truncates *)

Lemma fill_prefix_zeros (k : nat) (cur : string) :
  (cur = "" \/ cur = "0") -> fill_prefix k cur "0" = zeros k.
Proof.
  revert cur. induction k as [| k IH]; intros cur Hcur; cbn [fill_prefix zeros].
  - reflexivity.
  - destruct Hcur as [-> | ->]; rewrite IH; auto.
Qed.

Lemma toLowerCase_append (s1 s2 : string) :
  toLowerCase (s1 ++ s2) = (toLowerCase s1 ++ toLowerCase s2)%string.
Proof.
  induction s1 as [| c r IH]; cbn [append toLowerCase]; congruence.
Qed.

Lemma toLowerCase_zeros (k : nat) : toLowerCase (zeros k) = zeros k.
Proof.
  induction k as [| k IH]; cbn [zeros toLowerCase]; [reflexivity | now rewrite IH].
Qed.

Lemma padHex_length_max (hex : string) (targetLength : nat) :
  String.length (padHex hex targetLength) = Nat.max (String.length hex) targetLength.
Proof.
  unfold padHex. now rewrite toLowerCase_length, padStart_length.
Qed.

(** [padHex] only adds leading zeros and lower-cases: the result is the
    lower-cased input behind as many zeros as the input falls short of the
    width, so it has the width exactly for an input that is not longer and
    keeps every code unit of an input that is. *)
Theorem padHex_adds_leading_zeros :
  forall (hex : string) (targetLength : nat),
    padHex hex targetLength =
      (zeros (targetLength - String.length hex) ++ toLowerCase hex)%string /\
    String.length (padHex hex targetLength) = Nat.max (String.length hex) targetLength.
Proof.
  intros hex n. unfold padHex. split.
  - unfold padStart. rewrite toLowerCase_append, fill_prefix_zeros by auto.
    now rewrite toLowerCase_zeros.
  - now rewrite toLowerCase_length, padStart_length.
Qed.

(** ** Attribute lists: the last write wins *)

Lemma assignAttributes_snoc (attrs : list Attribute.t) (a : Attribute.t) (tags : JsObject) :
  assignAttributes (attrs ++ [a]) tags =
  Object_set (assignAttributes attrs tags) (Attribute.name a) (Attribute.value a).
Proof.
  unfold assignAttributes, for_of. now rewrite fold_left_app.
Qed.

Lemma lastNamed_snoc (attrs : list Attribute.t) (a : Attribute.t) (key : string) :
  lastNamed (attrs ++ [a]) key =
  if String.eqb (Attribute.name a) key then Some (Attribute.value a)
  else lastNamed attrs key.
Proof.
  unfold lastNamed. rewrite rev_app_distr. cbn [rev app find].
  now destruct (String.eqb (Attribute.name a) key).
Qed.

(** Reading a key after a run of attribute assignments. *)
Lemma assignAttributes_lookup (attrs : list Attribute.t) (tags : JsObject) (key : string) :
  key <> "__proto__" ->
  Object_get (assignAttributes attrs tags) key =
  match lastNamed attrs key with
  | Some value => Some value
  | None => Object_get tags key
  end.
Proof.
  intros Hkey. induction attrs as [| a attrs IH] using rev_ind.
  - reflexivity.
  - rewrite assignAttributes_snoc, lastNamed_snoc.
    destruct (String.eqb (Attribute.name a) key) eqn:E.
    + apply String.eqb_eq in E. rewrite E. now apply Object_get_set_same.
    + apply String.eqb_neq in E. now rewrite Object_get_set_other.
Qed.

Lemma assignAttributes_proto (attrs : list Attribute.t) (tags : JsObject) :
  Object_get (assignAttributes attrs tags) "__proto__" = Object_get tags "__proto__".
Proof.
  induction attrs as [| a attrs IH] using rev_ind.
  - reflexivity.
  - rewrite assignAttributes_snoc. unfold Object_set.
    destruct (String.eqb (Attribute.name a) "__proto__") eqn:E; [exact IH |].
    apply String.eqb_neq in E. now rewrite Object_get_assign_other.
Qed.

(** The loop of the attributes handler, seen on the span's fields. *)
Lemma for_of_set_tag_fields (info : list Attribute.t) (span : OtelSpan.t) :
  for_of info (fun attr => OtelSpan.set_tag (Attribute.name attr) (Attribute.value attr)) span =
  {| OtelSpan.traceId := OtelSpan.traceId span;
     OtelSpan.spanId := OtelSpan.spanId span;
     OtelSpan.parentSpanId := OtelSpan.parentSpanId span;
     OtelSpan.operationName := OtelSpan.operationName span;
     OtelSpan.startTime := OtelSpan.startTime span;
     OtelSpan.endTime := OtelSpan.endTime span;
     OtelSpan.tags := assignAttributes info (OtelSpan.tags span);
     OtelSpan.logs := OtelSpan.logs span;
     OtelSpan.status := OtelSpan.status span |}.
Proof.
  unfold assignAttributes, for_of. revert span.
  induction info as [| attr rest IH]; intros span; cbn [fold_left].
  - now destruct span.
  - rewrite IH. reflexivity.
Qed.

(** An attributes event on a span of the table overwrites and adds tags and
    touches nothing else: afterwards a tag reads as the value of the last
    attribute of the event with that name, and as before the event when the
    event has no attribute of that name.  An attribute named [__proto__]
    creates no tag. *)
Theorem attributes_last_write_wins :
  forall (host : JsHost) (event : TailEvent.t EventType) (info : list Attribute.t)
         (c : ContextBased.Converter) (w : World.t) (k : string) (span : OtelSpan.t),
    TailEvent.event event = attributes {| Attributes.info := Some info |} ->
    SpanContext.spanId (TailEvent.spanContext event) = Some k ->
    SpanMap.get (ContextBased.spans c) k = Some span ->
    exists span' : OtelSpan.t,
      ContextBased.handleEvent event (c, w) =
        (Normal tt,
         ({| ContextBased.spans := SpanMap.set (ContextBased.spans c) k span';
             ContextBased.otelEndpoint := ContextBased.otelEndpoint c |}, w)) /\
      (forall key : string,
          key <> "__proto__" ->
          Object_get (OtelSpan.tags span') key =
          match lastNamed info key with
          | Some value => Some value
          | None => Object_get (OtelSpan.tags span) key
          end) /\
      Object_get (OtelSpan.tags span') "__proto__" = Object_get (OtelSpan.tags span) "__proto__" /\
      (OtelSpan.traceId span', OtelSpan.spanId span', OtelSpan.parentSpanId span',
       OtelSpan.operationName span', OtelSpan.startTime span', OtelSpan.endTime span',
       OtelSpan.logs span', OtelSpan.status span') =
      (OtelSpan.traceId span, OtelSpan.spanId span, OtelSpan.parentSpanId span,
       OtelSpan.operationName span, OtelSpan.startTime span, OtelSpan.endTime span,
       OtelSpan.logs span, OtelSpan.status span).
Proof.
  intros host [payload ctx ts] info c w k span Hev Hctx Hget.
  cbn [TailEvent.event TailEvent.spanContext] in Hev, Hctx. subst payload.
  unfold ContextBased.handleEvent, ContextBased.handleAttributes.
  cbn [TailEvent.event TailEvent.cast TailEvent.spanContext Attributes.info].
  rewrite Hctx, (if_span_present _ _ _ _ _ Hget), for_of_set_tag_fields.
  eexists. split; [reflexivity |]. cbn [OtelSpan.tags].
  split; [intros key Hkey; now apply assignAttributes_lookup |].
  split; [apply assignAttributes_proto | reflexivity].
Qed.

Lemma attributes_last_write_wins_witness :
  exists span' : OtelSpan.t,
    ContextBased.handleEvent (host := exampleHost)
      (event_at 1003 "abc" (Some "2")
         (attributes {| Attributes.info :=
                          Some [{| Attribute.name := "retries";
                                   Attribute.value := VNumber (Number.ofZ 3) |};
                                {| Attribute.name := "retries";
                                   Attribute.value := VNumber (Number.ofZ 4) |}] |}))
      (withClosedChild, reachable) =
      (Normal tt,
       ({| ContextBased.spans := SpanMap.set (ContextBased.spans withClosedChild) "2" span';
           ContextBased.otelEndpoint := ContextBased.otelEndpoint withClosedChild |},
        reachable)) /\
    Object_get (OtelSpan.tags span') "retries" = Some (VNumber (Number.ofZ 4)).
Proof.
  destruct (attributes_last_write_wins exampleHost
              (event_at 1003 "abc" (Some "2")
                 (attributes {| Attributes.info :=
                                  Some [{| Attribute.name := "retries";
                                           Attribute.value := VNumber (Number.ofZ 3) |};
                                        {| Attribute.name := "retries";
                                           Attribute.value := VNumber (Number.ofZ 4) |}] |}))
              _ withClosedChild reachable "2" closedChild eq_refl eq_refl eq_refl)
    as (span' & Hrun & Htags & _).
  exists span'. split; [exact Hrun |].
  rewrite Htags by discriminate. reflexivity.
Defined.

(** ** The tags of the root span *)

Lemma Object_set_keeps_key (o : JsObject) (k k' : string) (v' : JsValue) :
  (exists v, Object_get o k = Some v) ->
  exists v, Object_get (Object_set o k' v') k = Some v.
Proof.
  intros [v Hv]. destruct (String.eqb k' k) eqn:E.
  - apply String.eqb_eq in E. subst k'. unfold Object_set.
    destruct (String.eqb k "__proto__"); [now exists v |].
    exists v'. apply Object_get_assign_same.
  - apply String.eqb_neq in E. exists v. now rewrite Object_get_set_other.
Qed.

Lemma assignAttributes_keeps_key (attrs : list Attribute.t) (tags : JsObject) (k : string) :
  (exists v, Object_get tags k = Some v) ->
  exists v, Object_get (assignAttributes attrs tags) k = Some v.
Proof.
  intros Hk. induction attrs as [| a attrs IH] using rev_ind.
  - exact Hk.
  - rewrite assignAttributes_snoc. now apply Object_set_keeps_key.
Qed.

Ltac baseTags_lookup :=
  unfold baseTags, option_map;
  repeat match goal with
         | |- context [if ?b then _ else _] => destruct b
         | |- context [match ?x with _ => _ end] => destruct x
         end;
  intros Hsome; try discriminate Hsome; injection Hsome as <-;
  rewrite ?Object_get_set_other by discriminate; reflexivity.

Section OnsetTagFacts.
Context {host : JsHost}.

Lemma baseTags_service_name (onset : Onset.t) (tags : JsObject) :
  baseTags onset = Some tags ->
  Object_get tags "service.name" =
  Some (VString (or_default (Onset.scriptName onset) "cloudflare-worker")).
Proof. baseTags_lookup. Qed.

Lemma baseTags_service_version (onset : Onset.t) (tags : JsObject) :
  baseTags onset = Some tags ->
  Object_get tags "service.version" =
  Some (VString (or_default (Onset.scriptVersion_id onset) "unknown")).
Proof. baseTags_lookup. Qed.

Lemma baseTags_execution_model (onset : Onset.t) (tags : JsObject) :
  baseTags onset = Some tags ->
  Object_get tags "execution.model" =
  Some (VString (Onset.executionModel onset)).
Proof. baseTags_lookup. Qed.

End OnsetTagFacts.

(** [extractTags] returns the tags of the root span for every onset whose
    info can be serialised, and throws for the others.  The tags always
    hold service.name, service.version and execution.model.  Each is the
    script's name (or "cloudflare-worker" when the name is missing or
    empty), the version id (or "unknown") and the execution model, unless
    the onset carries an attribute of that name: an attribute of the onset
    overrides every tag of its name, the last one of the name winning. *)
Theorem onset_tags_identify_service :
  forall (host : JsHost) (onset : Onset.t),
    let overlay := fun key =>
      match Onset.attributes onset with
      | Some attrs => lastNamed attrs key
      | None => None
      end in
    (serialisable (Onset.info onset) = true ->
     exists tags, ContextBased.extractTags onset = Some tags) /\
    (serialisable (Onset.info onset) = false -> ContextBased.extractTags onset = None) /\
    (forall tags : JsObject,
        ContextBased.extractTags onset = Some tags ->
        (exists v, Object_get tags "service.name" = Some v) /\
        (exists v, Object_get tags "service.version" = Some v) /\
        (exists v, Object_get tags "execution.model" = Some v) /\
        (overlay "service.name" = None ->
         Object_get tags "service.name" =
           Some (VString (match Onset.scriptName onset with
                          | Some (String c r) => String c r
                          | _ => "cloudflare-worker"
                          end))) /\
        (overlay "service.version" = None ->
         Object_get tags "service.version" =
           Some (VString (match Onset.scriptVersion_id onset with
                          | Some (String c r) => String c r
                          | _ => "unknown"
                          end))) /\
        (overlay "execution.model" = None ->
         Object_get tags "execution.model" = Some (VString (Onset.executionModel onset))) /\
        (forall (key : string) (value : JsValue),
            key <> "__proto__" -> overlay key = Some value ->
            Object_get tags key = Some value)).
Proof.
  intros host onset overlay. subst overlay.
  split; [apply extractTags_serialisable |].
  split; [apply extractTags_unserialisable |].
  intros tags. unfold ContextBased.extractTags.
  destruct (baseTags onset) as [base |] eqn:Hbase; [| discriminate].
  pose proof (baseTags_service_name onset base Hbase) as Hname.
  pose proof (baseTags_service_version onset base Hbase) as Hversion.
  pose proof (baseTags_execution_model onset base Hbase) as Hmodel.
  destruct (Onset.attributes onset) as [attrs |]; intros [= <-].
  - split; [apply assignAttributes_keeps_key; eexists; exact Hname |].
    split; [apply assignAttributes_keeps_key; eexists; exact Hversion |].
    split; [apply assignAttributes_keeps_key; eexists; exact Hmodel |].
    split; [intros Hno; rewrite assignAttributes_lookup, Hno by discriminate;
            exact Hname |].
    split; [intros Hno; rewrite assignAttributes_lookup, Hno by discriminate;
            exact Hversion |].
    split; [intros Hno; rewrite assignAttributes_lookup, Hno by discriminate;
            exact Hmodel |].
    intros key value Hkey Hlast. now rewrite assignAttributes_lookup, Hlast.
  - split; [eexists; exact Hname |].
    split; [eexists; exact Hversion |].
    split; [eexists; exact Hmodel |].
    split; [intros _; exact Hname |].
    split; [intros _; exact Hversion |].
    split; [intros _; exact Hmodel |].
    intros key value _ Hlast. discriminate Hlast.
Qed.

Lemma onset_tags_identify_service_witness :
  exists tags : JsObject,
    ContextBased.extractTags (host := exampleHost) fetchOnset = Some tags /\
    Object_get tags "service.name" = Some (VString "stw-local-dev") /\
    Object_get tags "service.version" = Some (VString "unknown").
Proof.
  destruct (proj1 (onset_tags_identify_service exampleHost fetchOnset) eq_refl)
    as [tags Htags].
  destruct (proj2 (proj2 (onset_tags_identify_service exampleHost fetchOnset)) tags Htags)
    as (_ & _ & _ & Hname & Hversion & _).
  exists tags. split; [exact Htags |].
  split; [exact (Hname eq_refl) | exact (Hversion eq_refl)].
Defined.

(** ** The name of the root span *)


(** ** The span table stays well formed *)

Lemma keys_mutate (m : SpanMap.t) (k : string) (f : OtelSpan.t -> OtelSpan.t) :
  SpanMap.keys (SpanMap.mutate m k f) = SpanMap.keys m.
Proof.
  unfold SpanMap.keys. induction m as [| [k0 v0] rest IH]; cbn [SpanMap.mutate map].
  - reflexivity.
  - destruct (String.eqb k0 k); cbn [map fst]; [reflexivity | now rewrite IH].
Qed.

Lemma keys_mutate_found (m : SpanMap.t) (p : OtelSpan.t -> bool)
  (f : OtelSpan.t -> OtelSpan.t) :
  SpanMap.keys (ContextBased.mutate_found m p f) = SpanMap.keys m.
Proof.
  unfold SpanMap.keys. induction m as [| [k0 v0] rest IH]; cbn [ContextBased.mutate_found map].
  - reflexivity.
  - destruct (p v0); cbn [map fst]; [reflexivity | now rewrite IH].
Qed.

Lemma get_None_not_key (m : SpanMap.t) (k : string) :
  SpanMap.get m k = None <-> ~ In k (SpanMap.keys m).
Proof.
  unfold SpanMap.keys. induction m as [| [k0 v0] rest IH]; cbn [SpanMap.get map fst In].
  - tauto.
  - destruct (String.eqb k0 k) eqn:E.
    + apply String.eqb_eq in E. split; [discriminate | tauto].
    + apply String.eqb_neq in E. rewrite IH. tauto.
Qed.

Lemma keys_set_absent (m : SpanMap.t) (k : string) (v : OtelSpan.t) :
  SpanMap.get m k = None -> SpanMap.keys (SpanMap.set m k v) = SpanMap.keys m ++ [k].
Proof.
  unfold SpanMap.keys. induction m as [| [k0 v0] rest IH]; cbn [SpanMap.get SpanMap.set map app fst].
  - reflexivity.
  - destruct (String.eqb k0 k); [discriminate |]. intros H. cbn [map fst]. now rewrite IH.
Qed.

Lemma wellFormed_set (m : SpanMap.t) (k : string) (v : OtelSpan.t) :
  wellFormed m -> OtelSpan.spanId v = k -> wellFormed (SpanMap.set m k v).
Proof.
  intros [Hnodup Hkeys] Hv. split.
  - destruct (SpanMap.get m k) as [old |] eqn:Hget.
    + now rewrite (keys_set_present _ _ _ _ Hget).
    + rewrite (keys_set_absent _ _ _ Hget).
      apply NoDup_app; [exact Hnodup | repeat constructor; intros [] |].
      intros x Hx [-> | []]. now apply get_None_not_key in Hget.
  - clear Hnodup. induction Hkeys as [| [k0 v0] rest Hhead Htail IH]; cbn [SpanMap.set].
    + repeat constructor. exact Hv.
    + destruct (String.eqb k0 k) eqn:E.
      * apply String.eqb_eq in E. subst k0. constructor; [exact Hv | exact Htail].
      * constructor; [exact Hhead | exact IH].
Qed.

Lemma wellFormed_mutate (m : SpanMap.t) (k : string) (f : OtelSpan.t -> OtelSpan.t) :
  (forall x, OtelSpan.spanId (f x) = OtelSpan.spanId x) ->
  wellFormed m -> wellFormed (SpanMap.mutate m k f).
Proof.
  intros Hf [Hnodup Hkeys]. split.
  - now rewrite keys_mutate.
  - clear Hnodup. induction Hkeys as [| [k0 v0] rest Hhead Htail IH]; cbn [SpanMap.mutate].
    + constructor.
    + destruct (String.eqb k0 k).
      * constructor; [cbn [fst snd] in *; now rewrite Hf | exact Htail].
      * constructor; [exact Hhead | exact IH].
Qed.

Lemma wellFormed_mutate_found (m : SpanMap.t) (p : OtelSpan.t -> bool)
  (f : OtelSpan.t -> OtelSpan.t) :
  (forall x, OtelSpan.spanId (f x) = OtelSpan.spanId x) ->
  wellFormed m -> wellFormed (ContextBased.mutate_found m p f).
Proof.
  intros Hf [Hnodup Hkeys]. split.
  - now rewrite keys_mutate_found.
  - clear Hnodup.
    induction Hkeys as [| [k0 v0] rest Hhead Htail IH]; cbn [ContextBased.mutate_found].
    + constructor.
    + destruct (p v0).
      * constructor; [cbn [fst snd] in *; now rewrite Hf | exact Htail].
      * constructor; [exact Hhead | exact IH].
Qed.

Lemma wellFormed_empty : wellFormed [].
Proof.
  split; constructor.
Qed.

Lemma for_of_set_tag_spanId (info : list Attribute.t) (span : OtelSpan.t) :
  OtelSpan.spanId
    (for_of info (fun attr => OtelSpan.set_tag (Attribute.name attr) (Attribute.value attr))
       span) = OtelSpan.spanId span.
Proof.
  now rewrite for_of_set_tag_fields.
Qed.

Section TableFacts.
Context {host : JsHost}.
Import ContextBased.

(** The flush that nobody awaits leaves a table that is empty or the one
    it found. *)
Lemma unawaited_exportSpans_wellFormed (c : Converter) (w : World.t) :
  wellFormed (spans c) ->
  wellFormed (spans (fst (snd (unawaited exportSpans (c, w))))).
Proof.
  intros Hwf. destruct (spans c) as [| entry rest] eqn:Htable.
  - rewrite unawaited_exportSpans_empty by exact Htable. cbn [fst snd]. now rewrite Htable.
  - destruct (convertToOtelFormat (SpanMap.values (spans c))) as [payload |] eqn:Hpayload.
    + rewrite (unawaited_exportSpans_run c w payload);
        [apply wellFormed_empty | rewrite Htable; discriminate | exact Hpayload].
    + rewrite (unawaited_exportSpans_throws c w);
        [cbn [fst snd]; now rewrite Htable | rewrite Htable; discriminate | exact Hpayload].
Qed.

Lemma if_span_with_wellFormed {A : Type} (key : option string) (arg : option A)
  (error : string) (f : A -> OtelSpan.t -> OtelSpan.t) (c : Converter) (w : World.t) :
  (forall a x, OtelSpan.spanId (f a x) = OtelSpan.spanId x) ->
  wellFormed (spans c) ->
  wellFormed (spans (fst (snd (if_span_with key arg error f (c, w))))).
Proof.
  intros Hf Hwf. rewrite if_span_with_run.
  destruct key as [k |]; [| exact Hwf].
  destruct (SpanMap.get (spans c) k); [| exact Hwf].
  destruct arg as [a |]; [| exact Hwf].
  cbn [fst snd spans]. apply wellFormed_mutate; [apply Hf | exact Hwf].
Qed.

(** One event keeps the table well formed, whether its handler returns or
    throws. *)
Lemma handleEvent_wellFormed (event : TailEvent.t EventType) (c : Converter) (w : World.t) :
  wellFormed (spans c) -> wellFormed (spans (fst (snd (handleEvent event (c, w))))).
Proof.
  intros Hwf. destruct event as [payload ctx ts]. unfold handleEvent.
  destruct payload as [e | e | e | e | e | e | e | e | e | ty];
    cbn [TailEvent.event TailEvent.cast];
    unfold handleSpanOpen, handleAttributes, handleLog, handleSpanClose,
      handleOutcome, handleException, handleReturn, handleDiagnosticChannel;
    cbn [TailEvent.event TailEvent.cast TailEvent.spanContext TailEvent.timestamp].
  - destruct (extractTags e) as [tags |] eqn:Htags.
    + rewrite (handleOnset_run _ _ w tags) by exact Htags. cbn [fst snd spans].
      now apply wellFormed_set.
    + now rewrite handleOnset_throws by exact Htags.
  - cbn. now apply wellFormed_set.
  - destruct (Attributes.info e) as [info |]; [| exact Hwf].
    rewrite if_span_as_mutate. cbn [fst snd spans].
    destruct (SpanContext.spanId ctx); [| exact Hwf].
    apply wellFormed_mutate; [apply for_of_set_tag_spanId | exact Hwf].
  - now apply if_span_with_wellFormed.
  - rewrite if_span_as_mutate. cbn [fst snd spans].
    destruct (SpanContext.spanId ctx); [| exact Hwf].
    now apply wellFormed_mutate.
  - unfold bind.
    destruct (truthy (SpanContext.spanId ctx));
      [rewrite if_span_as_mutate | unfold on_spans, update]; cbv beta iota;
      apply unawaited_exportSpans_wellFormed; cbn [fst snd spans].
    + destruct (SpanContext.spanId ctx); [now apply wellFormed_mutate | exact Hwf].
    + now apply wellFormed_mutate_found.
  - rewrite if_span_as_mutate. cbn [fst snd spans].
    destruct (SpanContext.spanId ctx); [| exact Hwf].
    now apply wellFormed_mutate.
  - destruct (Return.info e) as [info |]; [| exact Hwf].
    destruct (String.eqb (FetchResponseInfo.type info) "fetch"); [| exact Hwf].
    rewrite if_span_as_mutate. cbn [fst snd spans].
    destruct (SpanContext.spanId ctx); [| exact Hwf].
    now apply wellFormed_mutate.
  - now apply if_span_with_wellFormed.
  - exact Hwf.
Qed.

End TableFacts.

(** Every stream of events keeps the span table well formed: no span id
    occurs twice as a key and every span is stored under its own span id,
    whether the stream runs to its end or a handler throws on the way.
    The table of a fresh converter is well formed, so the table that
    [tailStream] has built after any events is. *)
Theorem table_stays_well_formed :
  forall (host : JsHost) (events : list (TailEvent.t EventType)),
    (forall (c : ContextBased.Converter) (w : World.t),
        wellFormed (ContextBased.spans c) ->
        wellFormed (ContextBased.spans (fst (snd (ContextBased.handleEvents events (c, w)))))) /\
    (forall (initialOnset : TailEvent.t Onset.t) (endpoint : option string) (w : World.t),
        wellFormed
          (ContextBased.spans
             (fst (snd (ContextBased.tailStream initialOnset endpoint events w))))).
Proof.
  intros host events.
  assert (Hstream : forall (c : ContextBased.Converter) (w : World.t),
             wellFormed (ContextBased.spans c) ->
             wellFormed
               (ContextBased.spans (fst (snd (ContextBased.handleEvents events (c, w)))))).
  { induction events as [| event rest IH]; intros c w Hwf.
    - exact Hwf.
    - cbn [ContextBased.handleEvents]. unfold bind.
      pose proof (handleEvent_wellFormed event c w Hwf) as Hstep.
      destruct (ContextBased.handleEvent event (c, w)) as [[[] | error] [c1 w1]];
        cbn [fst snd] in Hstep |- *.
      + now apply IH.
      + exact Hstep. }
  split; [exact Hstream |].
  intros initialOnset endpoint w. unfold ContextBased.tailStream, bind.
  pose proof (handleEvent_wellFormed
                (TailEvent.cast initialOnset (onset (TailEvent.event initialOnset)))
                (ContextBased.new endpoint) w wellFormed_empty) as Hstep.
  destruct (ContextBased.handleEvent
              (TailEvent.cast initialOnset (onset (TailEvent.event initialOnset)))
              (ContextBased.new endpoint, w)) as [[[] | error] [c1 w1]];
    cbn [fst snd] in Hstep |- *.
  - now apply Hstream.
  - exact Hstep.
Qed.

Lemma table_stays_well_formed_witness :
  wellFormed
    (ContextBased.spans
       (fst (snd (ContextBased.handleEvents (host := exampleHost) (closedTwice 1005)
                    (beforeOutcome, reachable))))).
Proof.
  apply (proj1 (table_stays_well_formed exampleHost (closedTwice 1005))).
  split.
  - repeat constructor; cbn; intuition discriminate.
  - repeat constructor.
Defined.

(** ** What reaches the network *)

Lemma exported_not_empty {host : JsHost} (batch : list OtelSpan.t) (payload : OtelTrace.t) :
  batch <> [] -> convertToOtelFormat batch = Some payload -> exportedSpans payload <> [].
Proof.
  intros Hne Hpayload Hempty. apply convertToOtelFormat_spans in Hpayload.
  rewrite Hempty in Hpayload. inversion Hpayload; subst. contradiction.
Qed.

(** Only outcome events reach the network: a stream of events posts at most
    one request per outcome event, each a POST of JSON to the converter's
    endpoint that carries at least one span, and the endpoint never
    changes; this holds whether the stream runs to its end or a handler
    throws on the way.  Only the handlers of onset, log and
    diagnosticChannel events can throw: a stream without such events runs
    to its end. *)
Theorem requests_only_from_outcomes :
  forall (host : JsHost) (events : list (TailEvent.t EventType))
         (c : ContextBased.Converter) (w : World.t),
    exists posted : list Request.t,
      let after := ContextBased.handleEvents events (c, w) in
      ContextBased.otelEndpoint (fst (snd after)) = ContextBased.otelEndpoint c /\
      World.requests (snd (snd after)) = World.requests w ++ posted /\
      World.network (snd (snd after)) = World.network w /\
      (List.length posted <= outcomes events)%nat /\
      Forall (fun request =>
                Request.url request = ContextBased.otelEndpoint c /\
                Request.method request = "POST" /\
                Request.headers request = [("Content-Type", "application/json")] /\
                exportedSpans (Request.body request) <> [])
             posted /\
      (forallb (fun event => negb (mayThrow (TailEvent.event event))) events = true ->
       fst after = Normal tt).
Proof.
  intros host events. induction events as [| event rest IH]; intros c w.
  - exists []. cbn. rewrite app_nil_r. repeat split; auto.
  - destruct (handleEvent_effects event c) as (completion & m1 & posted1 & Hcomp & Hkind & Hrun).
    destruct (Hrun w) as (lines1 & _ & Hw).
    assert (Hposted1 :
              (List.length posted1 <=
               List.length (filter (fun event => match TailEvent.event event with
                                                 | outcome _ => true
                                                 | _ => false
                                                 end) [event]))%nat /\
              Forall (fun request =>
                        Request.url request = ContextBased.otelEndpoint c /\
                        Request.method request = "POST" /\
                        Request.headers request = [("Content-Type", "application/json")] /\
                        exportedSpans (Request.body request) <> []) posted1).
    { destruct Hkind as [-> | (o & batch & payload & Hev & Hbatch & Hpayload & ->)].
      - split; [cbn [List.length]; lia | constructor].
      - cbn [filter]. rewrite Hev. split; [cbn [List.length]; lia |].
        constructor; [| constructor].
        cbn [exportRequest Request.url Request.method Request.headers Request.body].
        repeat split. now apply (exported_not_empty batch). }
    destruct Hposted1 as [Hcount1 Hall1].
    unfold outcomes in *. cbn [filter] in Hcount1 |- *.
    destruct completion as [[] | error].
    + destruct (IH {| ContextBased.spans := m1;
                      ContextBased.otelEndpoint := ContextBased.otelEndpoint c |}
                   {| World.network := World.network w;
                      World.requests := World.requests w ++ posted1;
                      World.console := World.console w ++ lines1 |})
        as (posted2 & Hendpoint & Hposted & Hnetwork & Hcount & Hall & Hnormal).
      exists (posted1 ++ posted2). cbn zeta in *.
      cbn [ContextBased.handleEvents]. unfold bind. rewrite Hw.
      split; [exact Hendpoint |].
      split; [rewrite Hposted; cbn [World.requests]; now rewrite app_assoc |].
      split; [exact Hnetwork |].
      cbn [ContextBased.otelEndpoint] in Hall.
      split; [rewrite length_app;
              destruct (TailEvent.event event); cbn [List.length] in *; lia |].
      split; [apply Forall_app; now split |].
      cbn [forallb]. intros Hquiet. apply andb_prop in Hquiet. now apply Hnormal.
    + exists posted1. cbn zeta.
      cbn [ContextBased.handleEvents]. unfold bind. rewrite Hw.
      cbn [fst snd ContextBased.otelEndpoint World.requests World.network].
      split; [reflexivity |]. split; [reflexivity |]. split; [reflexivity |].
      split; [destruct (TailEvent.event event); cbn [List.length] in *; lia |].
      split; [exact Hall1 |].
      cbn [forallb]. intros Hquiet. apply andb_prop in Hquiet. destruct Hquiet as [Hhead _].
      destruct Hcomp as [Hc | (_ & Hthrows & _)]; [discriminate Hc |].
      rewrite Hthrows in Hhead. discriminate Hhead.
Qed.

Lemma requests_only_from_outcomes_witness :
  fst (ContextBased.handleEvents (host := exampleHost) (closedTwice 1005)
         (beforeOutcome, reachable)) = Normal tt.
Proof.
  destruct (requests_only_from_outcomes exampleHost (closedTwice 1005) beforeOutcome reachable)
    as (posted & _ & _ & _ & _ & _ & Hnormal).
  apply Hnormal. reflexivity.
Defined.

(** ** Logs *)

Section JoinFacts.
Context {host : JsHost}.








End JoinFacts.



(** ** Return events *)

(** A return event writes a tag only when it carries fetch-type info and
    its target span is in the table: it then sets http.response.status_code
    to the status code and changes nothing else of the span, no other tag
    and no other field.  A return event with no info, or with info of
    another type, changes nothing at all, whatever the table holds. *)
Theorem return_records_fetch_status :
  forall (host : JsHost) (event : TailEvent.t EventType) (e : Return.t)
         (c : ContextBased.Converter) (w : World.t),
    TailEvent.event event = return_ e ->
    (forall (info : FetchResponseInfo.t) (k : string) (span : OtelSpan.t),
        Return.info e = Some info ->
        FetchResponseInfo.type info = "fetch" ->
        SpanContext.spanId (TailEvent.spanContext event) = Some k ->
        SpanMap.get (ContextBased.spans c) k = Some span ->
        exists span' : OtelSpan.t,
          ContextBased.handleEvent event (c, w) =
            (Normal tt,
             ({| ContextBased.spans := SpanMap.set (ContextBased.spans c) k span';
                 ContextBased.otelEndpoint := ContextBased.otelEndpoint c |}, w)) /\
          Object_get (OtelSpan.tags span') "http.response.status_code" =
            Some (VNumber (FetchResponseInfo.statusCode info)) /\
          (forall key : string,
              key <> "http.response.status_code" ->
              Object_get (OtelSpan.tags span') key = Object_get (OtelSpan.tags span) key) /\
          (Object_get (OtelSpan.tags span) "http.response.status_code" = None ->
           OtelSpan.tags span' =
             OtelSpan.tags span ++
             [("http.response.status_code", VNumber (FetchResponseInfo.statusCode info))]) /\
          (OtelSpan.traceId span', OtelSpan.spanId span', OtelSpan.parentSpanId span',
           OtelSpan.operationName span', OtelSpan.startTime span', OtelSpan.endTime span',
           OtelSpan.logs span', OtelSpan.status span') =
          (OtelSpan.traceId span, OtelSpan.spanId span, OtelSpan.parentSpanId span,
           OtelSpan.operationName span, OtelSpan.startTime span, OtelSpan.endTime span,
           OtelSpan.logs span, OtelSpan.status span)) /\
    ((Return.info e = None \/
      exists info, Return.info e = Some info /\ FetchResponseInfo.type info <> "fetch") ->
     ContextBased.handleEvent event (c, w) = (Normal tt, (c, w))).
Proof.
  intros host [payload ctx ts] e c w Hev.
  cbn [TailEvent.event TailEvent.spanContext] in Hev |- *. subst payload.
  unfold ContextBased.handleEvent, ContextBased.handleReturn.
  cbn [TailEvent.event TailEvent.cast TailEvent.spanContext]. split.
  - intros info k span Hinfo Htype Hctx Hget.
    rewrite Hinfo, Htype, Hctx. cbn [String.eqb Ascii.eqb Bool.eqb].
    rewrite (if_span_present _ _ _ _ _ Hget).
    eexists. split; [reflexivity |]. cbn [OtelSpan.set_tag OtelSpan.tags].
    split; [apply Object_get_set_same; discriminate |].
    split; [intros key Hkey; apply Object_get_set_other; congruence |].
    split; [| reflexivity].
    intros Hnew. unfold Object_set. cbn [String.eqb Ascii.eqb Bool.eqb].
    induction (OtelSpan.tags span) as [| [k0 v0] rest IH]; cbn [Object_assign app].
    + reflexivity.
    + cbn [Object_get] in Hnew.
      destruct (String.eqb k0 "http.response.status_code"); [discriminate |].
      now rewrite IH.
  - intros [-> | (info & -> & Htype)]; [reflexivity |].
    apply String.eqb_neq in Htype. now rewrite Htype.
Qed.

Lemma return_records_fetch_status_witness :
  exists span' : OtelSpan.t,
    ContextBased.handleEvent (host := exampleHost)
      (event_at 1003 "abc" (Some "2")
         (return_ {| Return.info :=
                       Some {| FetchResponseInfo.type := "fetch";
                               FetchResponseInfo.statusCode := Number.ofZ 404 |} |}))
      (withClosedChild, reachable) =
      (Normal tt,
       ({| ContextBased.spans := SpanMap.set (ContextBased.spans withClosedChild) "2" span';
           ContextBased.otelEndpoint := ContextBased.otelEndpoint withClosedChild |},
        reachable)) /\
    Object_get (OtelSpan.tags span') "http.response.status_code" =
      Some (VNumber (Number.ofZ 404)) /\
    (OtelSpan.traceId span', OtelSpan.operationName span', OtelSpan.startTime span') =
    (OtelSpan.traceId closedChild, OtelSpan.operationName closedChild,
     OtelSpan.startTime closedChild).
Proof.
  destruct (proj1 (return_records_fetch_status exampleHost
                     (event_at 1003 "abc" (Some "2")
                        (return_ {| Return.info :=
                                      Some {| FetchResponseInfo.type := "fetch";
                                              FetchResponseInfo.statusCode :=
                                                Number.ofZ 404 |} |}))
                     _ withClosedChild reachable eq_refl)
              _ "2" closedChild eq_refl eq_refl eq_refl eq_refl)
    as (span' & Hrun & Htag & _ & _ & Hfields).
  exists span'. split; [exact Hrun |]. split; [exact Htag |].
  now injection Hfields as -> _ _ -> -> _ _ _.
Defined.

(** ** Closing and opening spans *)

(** A spanClose event in the context of a span of the table sets that
    span's status from the close outcome: the code is OK exactly when the
    outcome is "ok" and ERROR otherwise, and the message is the outcome in
    both cases.  Tags, logs, ids, name and start time stay as they are. *)
Theorem spanClose_sets_status :
  forall (host : JsHost) (event : TailEvent.t EventType) (e : SpanClose.t)
         (c : ContextBased.Converter) (w : World.t) (k : string) (span : OtelSpan.t),
    TailEvent.event event = spanClose e ->
    SpanContext.spanId (TailEvent.spanContext event) = Some k ->
    SpanMap.get (ContextBased.spans c) k = Some span ->
    exists span' : OtelSpan.t,
      ContextBased.handleEvent event (c, w) =
        (Normal tt,
         ({| ContextBased.spans := SpanMap.set (ContextBased.spans c) k span';
             ContextBased.otelEndpoint := ContextBased.otelEndpoint c |}, w)) /\
      (exists code, OtelSpan.status span' =
                      Some {| Status.code := code;
                              Status.message := Some (SpanClose.outcome e) |} /\
                    (code = OK <-> SpanClose.outcome e = "ok") /\
                    (code = ERROR <-> SpanClose.outcome e <> "ok")) /\
      (OtelSpan.traceId span', OtelSpan.spanId span', OtelSpan.parentSpanId span',
       OtelSpan.operationName span', OtelSpan.startTime span',
       OtelSpan.tags span', OtelSpan.logs span') =
      (OtelSpan.traceId span, OtelSpan.spanId span, OtelSpan.parentSpanId span,
       OtelSpan.operationName span, OtelSpan.startTime span,
       OtelSpan.tags span, OtelSpan.logs span).
Proof.
  intros host [payload ctx ts] e c w k span Hev Hctx Hget.
  cbn [TailEvent.event TailEvent.spanContext] in Hev, Hctx. subst payload.
  unfold ContextBased.handleEvent, ContextBased.handleSpanClose.
  cbn [TailEvent.event TailEvent.cast TailEvent.spanContext TailEvent.timestamp].
  rewrite Hctx, (if_span_present _ _ _ _ _ Hget).
  eexists. split; [reflexivity |]. split; [| reflexivity].
  cbn [OtelSpan.set_status OtelSpan.status]. unfold outcomeStatus.
  eexists. split; [reflexivity |].
  destruct (String.eqb (SpanClose.outcome e) "ok") eqn:E.
  - apply String.eqb_eq in E.
    split; split; intros H; try congruence; try reflexivity; try discriminate.
  - apply String.eqb_neq in E.
    split; split; intros H; try congruence; try reflexivity; try discriminate.
Qed.

Lemma spanClose_sets_status_witness :
  exists span' : OtelSpan.t,
    ContextBased.handleEvent (host := exampleHost)
      (event_at 1003 "abc" (Some "1") (spanClose {| SpanClose.outcome := "exceededCpu" |}))
      (beforeOutcome, reachable) =
      (Normal tt,
       ({| ContextBased.spans := SpanMap.set (ContextBased.spans beforeOutcome) "1" span';
           ContextBased.otelEndpoint := ContextBased.otelEndpoint beforeOutcome |},
        reachable)) /\
    OtelSpan.status span' =
      Some {| Status.code := ERROR; Status.message := Some "exceededCpu" |}.
Proof.
  destruct (spanClose_sets_status exampleHost
              (event_at 1003 "abc" (Some "1") (spanClose {| SpanClose.outcome := "exceededCpu" |}))
              _ beforeOutcome reachable "1" openRoot eq_refl eq_refl eq_refl)
    as (span' & Hrun & (code & Hstatus & _ & Herror) & _).
  exists span'. split; [exact Hrun |].
  rewrite Hstatus. cbn [SpanClose.outcome] in Herror |- *.
  now rewrite (proj2 Herror) by discriminate.
Defined.

(** A spanOpen event stores a fresh span under the event's span id: its
    parent is the context's span id as the host sent it, its name the
    event's name, and it has no endTime, no logs and no status.  A span
    that the table held under that id is replaced where it stood, with all
    it had recorded; otherwise the new span goes behind the others.  No
    span under another id changes. *)
Theorem spanOpen_stores_fresh_span :
  forall (host : JsHost) (event : TailEvent.t EventType) (e : SpanOpen.t)
         (c : ContextBased.Converter) (w : World.t),
    TailEvent.event event = spanOpen e ->
    exists (c' : ContextBased.Converter) (span : OtelSpan.t),
      ContextBased.handleEvent event (c, w) = (Normal tt, (c', w)) /\
      SpanMap.get (ContextBased.spans c') (SpanOpen.spanId e) = Some span /\
      (OtelSpan.traceId span, OtelSpan.spanId span, OtelSpan.parentSpanId span,
       OtelSpan.operationName span, OtelSpan.startTime span) =
      (SpanContext.traceId (TailEvent.spanContext event), SpanOpen.spanId e,
       SpanContext.spanId (TailEvent.spanContext event), SpanOpen.name e,
       nanoseconds (TailEvent.timestamp event)) /\
      (OtelSpan.endTime span, OtelSpan.logs span, OtelSpan.status span) = (None, [], None) /\
      (SpanOpen.info e = None -> OtelSpan.tags span = []) /\
      (forall method url,
          SpanOpen.info e = Some (SpanFetchInfo method url) ->
          OtelSpan.tags span = [("http.method", VString method); ("http.url", VString url)]) /\
      (forall k : string, k <> SpanOpen.spanId e ->
          SpanMap.get (ContextBased.spans c') k = SpanMap.get (ContextBased.spans c) k) /\
      (SpanMap.get (ContextBased.spans c) (SpanOpen.spanId e) = None ->
       SpanMap.keys (ContextBased.spans c') =
         SpanMap.keys (ContextBased.spans c) ++ [SpanOpen.spanId e]) /\
      (SpanMap.get (ContextBased.spans c) (SpanOpen.spanId e) <> None ->
       SpanMap.keys (ContextBased.spans c') = SpanMap.keys (ContextBased.spans c)).
Proof.
  intros host [payload ctx ts] e c w Hev.
  cbn [TailEvent.event TailEvent.spanContext TailEvent.timestamp] in Hev |- *. subst payload.
  unfold ContextBased.handleEvent, ContextBased.handleSpanOpen.
  cbn [TailEvent.event TailEvent.cast TailEvent.spanContext TailEvent.timestamp
       OtelSpan.spanId].
  eexists. eexists. split; [reflexivity |]. cbn [ContextBased.spans fst].
  split; [apply get_set_same |].
  split; [reflexivity |]. split; [reflexivity |].
  split; [intros Hinfo; cbn [OtelSpan.tags]; now rewrite Hinfo |].
  split; [intros method url Hinfo; cbn [OtelSpan.tags]; now rewrite Hinfo |].
  split; [intros k Hk; apply get_set_other; congruence |].
  split; [intros Hnew; now apply keys_set_absent |].
  intros Hold. destruct (SpanMap.get (ContextBased.spans c) (SpanOpen.spanId e)) as [old |] eqn:Hget;
    [| contradiction].
  apply (keys_set_present _ _ _ _ Hget).
Qed.

Lemma spanOpen_stores_fresh_span_witness :
  exists (c' : ContextBased.Converter) (span : OtelSpan.t),
    ContextBased.handleEvent (host := exampleHost)
      (event_at 1004 "abc" (Some "1")
         (spanOpen {| SpanOpen.spanId := "2"; SpanOpen.name := "again";
                      SpanOpen.info := None |}))
      (beforeOutcome, reachable) = (Normal tt, (c', reachable)) /\
    SpanMap.get (ContextBased.spans c') "2" = Some span /\
    (OtelSpan.endTime closedChild <> None /\ OtelSpan.endTime span = None) /\
    SpanMap.keys (ContextBased.spans c') = ["1"; "2"].
Proof.
  destruct (spanOpen_stores_fresh_span exampleHost
              (event_at 1004 "abc" (Some "1")
                 (spanOpen {| SpanOpen.spanId := "2"; SpanOpen.name := "again";
                              SpanOpen.info := None |}))
              _ beforeOutcome reachable eq_refl)
    as (c' & span & Hrun & Hget & _ & Hfresh & _ & _ & _ & _ & Hkeys).
  exists c', span. split; [exact Hrun |]. split; [exact Hget |].
  split; [split; [discriminate | congruence] |].
  apply Hkeys. discriminate.
Defined.

(** ** Attribute lists that are missing or not arrays *)

(** The context-based revision skips an attribute list that is missing or
    is not an array instead of iterating it: an attributes event without a
    list changes nothing, even for a span of the table; an onset without a
    list (and with info that can be serialised) still creates the root
    span, with the tags of the onset's metadata; a spanOpen whose attribute
    info has no list still creates the span, with no tags. *)
Theorem missing_attribute_lists_are_skipped :
  forall (host : JsHost) (timestamp : Date) (traceId : string) (spanId : option string)
         (c : ContextBased.Converter) (w : World.t),
    ContextBased.handleEvent
      (event_at timestamp traceId spanId (attributes {| Attributes.info := None |})) (c, w)
    = (Normal tt, (c, w)) /\
    (forall o : Onset.t,
        Onset.attributes o = None ->
        serialisable (Onset.info o) = true ->
        exists (c' : ContextBased.Converter) (root : OtelSpan.t),
          ContextBased.handleEvent (event_at timestamp traceId spanId (onset o)) (c, w)
          = (Normal tt, (c', w)) /\
          SpanMap.get (ContextBased.spans c') (Onset.spanId o) = Some root /\
          baseTags o = Some (OtelSpan.tags root)) /\
    (forall e : SpanOpen.t,
        SpanOpen.info e = Some (SpanAttributesInfo None) ->
        exists (c' : ContextBased.Converter) (span : OtelSpan.t),
          ContextBased.handleEvent (event_at timestamp traceId spanId (spanOpen e)) (c, w)
          = (Normal tt, (c', w)) /\
          SpanMap.get (ContextBased.spans c') (SpanOpen.spanId e) = Some span /\
          OtelSpan.tags span = []).
Proof.
  intros host ts trace ctx c w. split; [reflexivity |]. split.
  - intros o Hattrs Hinfo. destruct (baseTags_serialisable o Hinfo) as [tags Htags].
    assert (Hextract : ContextBased.extractTags o = Some tags)
      by (unfold ContextBased.extractTags; now rewrite Htags, Hattrs).
    unfold ContextBased.handleEvent, event_at. cbn [TailEvent.event TailEvent.cast].
    rewrite (handleOnset_run _ _ w tags) by exact Hextract.
    eexists. eexists. split; [reflexivity |].
    cbn [ContextBased.spans TailEvent.event].
    split; [apply get_set_same |].
    cbn [OtelSpan.tags]. exact Htags.
  - intros e Hinfo. unfold ContextBased.handleEvent, ContextBased.handleSpanOpen, event_at.
    cbn [TailEvent.event TailEvent.cast TailEvent.spanContext TailEvent.timestamp
         OtelSpan.spanId].
    eexists. eexists. split; [reflexivity |]. cbn [ContextBased.spans fst].
    split; [apply get_set_same |].
    cbn [OtelSpan.tags]. now rewrite Hinfo.
Qed.

Lemma missing_attribute_lists_are_skipped_witness :
  exists (c' : ContextBased.Converter) (span : OtelSpan.t),
    ContextBased.handleEvent (host := exampleHost)
      (event_at 1004 "abc" (Some "1")
         (spanOpen {| SpanOpen.spanId := "3"; SpanOpen.name := "kv_get";
                      SpanOpen.info := Some (SpanAttributesInfo None) |}))
      (beforeOutcome, reachable) = (Normal tt, (c', reachable)) /\
    SpanMap.get (ContextBased.spans c') "3" = Some span /\
    OtelSpan.tags span = [].
Proof.
  exact (proj2 (proj2 (missing_attribute_lists_are_skipped exampleHost 1004 "abc" (Some "1")
                         beforeOutcome reachable))
           {| SpanOpen.spanId := "3"; SpanOpen.name := "kv_get";
              SpanOpen.info := Some (SpanAttributesInfo None) |} eq_refl).
Defined.

(** The stack-based revision iterates the same lists unguarded: an onset
    without an attribute list, a spanOpen whose attribute info has no list,
    and an attributes event without a list whose target span is in the
    table each throw, and leave the converter as it was: no span is
    created, the stack is not pushed and no tag is written. *)
Theorem stack_throws_on_missing_attribute_lists :
  forall (host : JsHost) (timestamp : Date) (traceId : string) (spanId : option string)
         (c : StackBased.Converter) (w : World.t),
    (forall o : Onset.t,
        Onset.attributes o = None ->
        exists error : string,
          StackBased.handleEvent (event_at timestamp traceId spanId (onset o)) (c, w)
          = (Throw error, (c, w))) /\
    (forall e : SpanOpen.t,
        SpanOpen.info e = Some (SpanAttributesInfo None) ->
        exists error : string,
          StackBased.handleEvent (event_at timestamp traceId spanId (spanOpen e)) (c, w)
          = (Throw error, (c, w))) /\
    (forall span : OtelSpan.t,
        StackBased.lookup c (or_else spanId (StackBased.top c)) = Some span ->
        exists error : string,
          StackBased.handleEvent
            (event_at timestamp traceId spanId (attributes {| Attributes.info := None |}))
            (c, w)
          = (Throw error, (c, w))).
Proof.
  intros host ts trace ctx c w. split; [| split].
  - intros o Hattrs. unfold StackBased.handleEvent, StackBased.handleOnset, event_at.
    cbn [TailEvent.event TailEvent.cast]. unfold StackBased.extractTags, bind, throw, or_throw.
    rewrite Hattrs. destruct (baseTags o); eexists; reflexivity.
  - intros e Hinfo. unfold StackBased.handleEvent, StackBased.handleSpanOpen, event_at.
    cbn [TailEvent.event TailEvent.cast]. unfold bind, this. cbn [fst snd].
    rewrite Hinfo. eexists. reflexivity.
  - intros span Hspan. unfold StackBased.handleEvent, StackBased.handleAttributes, event_at.
    cbn [TailEvent.event TailEvent.cast TailEvent.spanContext SpanContext.spanId
         Attributes.info].
    cbv beta iota delta [StackBased.targetSpanId bind this ret throw fst snd].
    cbn [SpanContext.spanId]. rewrite Hspan. eexists. reflexivity.
Qed.

Lemma stack_throws_on_missing_attribute_lists_witness :
  exists error : string,
    StackBased.handleEvent (host := exampleHost)
      (event_at 1000 "abc" None
         (onset {| Onset.spanId := "1";
                   Onset.info := CustomEventInfo;
                   Onset.scriptName := None;
                   Onset.scriptVersion_id := None;
                   Onset.executionModel := "stateless";
                   Onset.dispatchNamespace := None;
                   Onset.entrypoint := None;
                   Onset.scriptTags := None;
                   Onset.attributes := None |}))
      (StackBased.new None, reachable)
    = (Throw error, (StackBased.new None, reachable)).
Proof.
  exact (proj1 (stack_throws_on_missing_attribute_lists exampleHost 1000 "abc" None
                  (StackBased.new None) reachable)
           {| Onset.spanId := "1";
              Onset.info := CustomEventInfo;
              Onset.scriptName := None;
              Onset.scriptVersion_id := None;
              Onset.executionModel := "stateless";
              Onset.dispatchNamespace := None;
              Onset.entrypoint := None;
              Onset.scriptTags := None;
              Onset.attributes := None |} eq_refl).
Defined.

(** ** The stack of open spans (stack-based revision) *)

Section StackFacts.
Context {host : JsHost}.
Import StackBased.

Lemma stack_if_span_as_mutate (key : option string) (f : OtelSpan.t -> OtelSpan.t)
  (c : Converter) (w : World.t) :
  if_span key f (c, w) =
  (Normal tt,
   ({| spans := match key with
                | Some k => SpanMap.mutate (spans c) k f
                | None => spans c
                end;
       otelEndpoint := otelEndpoint c;
       rootSpanId := rootSpanId c;
       activeSpanStack := activeSpanStack c |}, w)).
Proof.
  cbv beta iota delta [if_span bind this fst snd].
  destruct key as [k |]; [| now destruct c].
  cbn [lookup]. destruct (SpanMap.get (spans c) k) eqn:Hget; [reflexivity |].
  rewrite (mutate_missing _ _ _ Hget). now destruct c.
Qed.

(** What a spanOpen does when its info can be read. *)
Lemma stack_handleSpanOpen_run (event : TailEvent.t SpanOpen.t) (c : Converter) (w : World.t) :
  SpanOpen.info (TailEvent.event event) <> Some (SpanAttributesInfo None) ->
  exists tags : JsObject,
    handleSpanOpen event (c, w) =
    (Normal tt,
     ({| spans :=
           SpanMap.set (spans c) (SpanOpen.spanId (TailEvent.event event))
             {| OtelSpan.traceId := SpanContext.traceId (TailEvent.spanContext event);
                OtelSpan.spanId := SpanOpen.spanId (TailEvent.event event);
                OtelSpan.parentSpanId :=
                  or_else (top c) (SpanContext.spanId (TailEvent.spanContext event));
                OtelSpan.operationName := SpanOpen.name (TailEvent.event event);
                OtelSpan.startTime := nanoseconds (TailEvent.timestamp event);
                OtelSpan.endTime := None;
                OtelSpan.tags := tags;
                OtelSpan.logs := [];
                OtelSpan.status := None |};
         otelEndpoint := otelEndpoint c;
         rootSpanId := rootSpanId c;
         activeSpanStack := activeSpanStack c ++ [SpanOpen.spanId (TailEvent.event event)] |},
      w)).
Proof.
  intros Hinfo. unfold handleSpanOpen. cbv beta iota delta [bind this fst snd].
  destruct (SpanOpen.info (TailEvent.event event)) as [[method url | [attrs |] |] |];
    try (eexists; reflexivity).
  now destruct Hinfo.
Qed.

(** What a spanClose does when the top of the stack is a span id that is
    not empty. *)
Lemma stack_handleSpanClose_run (event : TailEvent.t SpanClose.t) (c : Converter)
  (w : World.t) (id : string) :
  top c = Some id -> id <> "" ->
  handleSpanClose event (c, w) =
  (Normal tt,
   ({| spans :=
         SpanMap.mutate (spans c) id
           (fun span =>
              OtelSpan.set_status (outcomeStatus (SpanClose.outcome (TailEvent.event event)))
                (OtelSpan.set_endTime (nanoseconds (TailEvent.timestamp event)) span));
       otelEndpoint := otelEndpoint c;
       rootSpanId := rootSpanId c;
       activeSpanStack := removelast (activeSpanStack c) |}, w)).
Proof.
  intros Htop Hid. unfold handleSpanClose, pop.
  cbv beta iota delta [bind this update ret fst snd].
  rewrite Htop, (truthy_some id Hid). cbn [negb].
  now rewrite stack_if_span_as_mutate.
Qed.

End StackFacts.

(** In the stack-based revision a spanOpen followed by a spanClose is a
    push and a pop: the stack of open spans is afterwards what it was
    before, and the span that was opened is the one that is closed, with
    the close event's time as endTime and its outcome as status, whatever
    span the close event's context names.  The opened span's parent is the
    innermost span that was open, and the context's span id only when none
    was.  This needs a span id that is not empty (the handler returns early
    on an empty popped id) and span info that can be iterated. *)
Theorem stack_open_then_close :
  forall (host : JsHost) (opened : TailEvent.t SpanOpen.t) (closed : TailEvent.t SpanClose.t)
         (c : StackBased.Converter) (w : World.t),
    SpanOpen.spanId (TailEvent.event opened) <> "" ->
    SpanOpen.info (TailEvent.event opened) <> Some (SpanAttributesInfo None) ->
    let id := SpanOpen.spanId (TailEvent.event opened) in
    let after_open :=
      StackBased.handleEvent (TailEvent.cast opened (spanOpen (TailEvent.event opened)))
        (c, w) in
    let after_close :=
      StackBased.handleEvent (TailEvent.cast closed (spanClose (TailEvent.event closed)))
        (snd after_open) in
    fst after_open = Normal tt /\
    StackBased.top (fst (snd after_open)) = Some id /\
    fst after_close = Normal tt /\
    snd (snd after_close) = w /\
    StackBased.activeSpanStack (fst (snd after_close)) = StackBased.activeSpanStack c /\
    StackBased.rootSpanId (fst (snd after_close)) = StackBased.rootSpanId c /\
    exists span : OtelSpan.t,
      SpanMap.get (StackBased.spans (fst (snd after_close))) id = Some span /\
      OtelSpan.endTime span = Some (nanoseconds (TailEvent.timestamp closed)) /\
      OtelSpan.status span =
        Some (outcomeStatus (SpanClose.outcome (TailEvent.event closed))) /\
      OtelSpan.parentSpanId span =
        or_else (StackBased.top c) (SpanContext.spanId (TailEvent.spanContext opened)) /\
      (forall innermost : string,
          StackBased.top c = Some innermost -> innermost <> "" ->
          OtelSpan.parentSpanId span = Some innermost).
Proof.
  intros host opened closed c w Hid Hinfo id after_open after_close.
  destruct (stack_handleSpanOpen_run opened c w Hinfo) as [tags Hopen].
  assert (Hafter_open : after_open = StackBased.handleSpanOpen opened (c, w)).
  { subst after_open. unfold StackBased.handleEvent. cbn [TailEvent.event TailEvent.cast].
    now destruct opened. }
  rewrite Hopen in Hafter_open.
  assert (Htop : StackBased.top (fst (snd after_open)) = Some id).
  { rewrite Hafter_open. unfold StackBased.top. cbn [fst snd StackBased.activeSpanStack].
    now rewrite rev_unit. }
  assert (Hafter_close : after_close = StackBased.handleSpanClose closed (snd after_open)).
  { subst after_close. unfold StackBased.handleEvent. cbn [TailEvent.event TailEvent.cast].
    now destruct closed. }
  destruct (snd after_open) as [c1 w1] eqn:Hstate.
  rewrite (stack_handleSpanClose_run closed c1 w1 id Htop Hid) in Hafter_close.
  rewrite Hafter_open in Hstate. cbn [snd] in Hstate. injection Hstate as <- <-.
  cbn [StackBased.spans StackBased.otelEndpoint StackBased.rootSpanId
       StackBased.activeSpanStack] in Hafter_close.
  rewrite removelast_last in Hafter_close.
  rewrite Hafter_close, Hafter_open.
  cbn [fst snd StackBased.spans StackBased.rootSpanId StackBased.activeSpanStack].
  split; [reflexivity |]. split; [exact Htop |].
  split; [reflexivity |]. split; [reflexivity |]. split; [reflexivity |].
  split; [reflexivity |].
  fold id. rewrite get_mutate_same, get_set_same. cbn [option_map].
  eexists. split; [reflexivity |].
  cbn [OtelSpan.set_status OtelSpan.set_endTime OtelSpan.endTime OtelSpan.status
       OtelSpan.parentSpanId].
  split; [reflexivity |]. split; [reflexivity |]. split; [reflexivity |].
  intros innermost Hinner Hne. rewrite Hinner. unfold or_else.
  now rewrite (truthy_some innermost Hne).
Qed.

Lemma stack_open_then_close_witness :
  let after_open :=
    StackBased.handleEvent (host := exampleHost)
      (event_at 1001 "abc" (Some "9")
         (spanOpen {| SpanOpen.spanId := "2"; SpanOpen.name := "child";
                      SpanOpen.info := None |}))
      (stackWithRoot, reachable) in
  let after_close :=
    StackBased.handleEvent (host := exampleHost)
      (event_at 1002 "abc" (Some "7") (spanClose {| SpanClose.outcome := "ok" |}))
      (snd after_open) in
  StackBased.activeSpanStack (fst (snd after_close)) = ["1"] /\
  exists span : OtelSpan.t,
    SpanMap.get (StackBased.spans (fst (snd after_close))) "2" = Some span /\
    OtelSpan.endTime span = Some (nanoseconds 1002) /\
    OtelSpan.parentSpanId span = Some "1".
Proof.
  assert (Hid : SpanOpen.spanId
                  (TailEvent.event
                     (event_at 1001 "abc" (Some "9")
                        {| SpanOpen.spanId := "2"; SpanOpen.name := "child";
                           SpanOpen.info := None |})) <> "") by discriminate.
  assert (Hinfo : SpanOpen.info
                    (TailEvent.event
                       (event_at 1001 "abc" (Some "9")
                          {| SpanOpen.spanId := "2"; SpanOpen.name := "child";
                             SpanOpen.info := None |})) <> Some (SpanAttributesInfo None))
    by discriminate.
  destruct (stack_open_then_close exampleHost
              (event_at 1001 "abc" (Some "9")
                 {| SpanOpen.spanId := "2"; SpanOpen.name := "child";
                    SpanOpen.info := None |})
              (event_at 1002 "abc" (Some "7") {| SpanClose.outcome := "ok" |})
              stackWithRoot reachable Hid Hinfo)
    as (_ & _ & _ & _ & Hstack & _ & span & Hget & Hend & _ & _ & Hparent).
  split; [exact Hstack |].
  exists span. split; [exact Hget |]. split; [exact Hend |].
  apply (Hparent "1"); [reflexivity | discriminate].
Defined.

(** ** The flush of the stack-based revision *)

Lemma get_delete_other (m : SpanMap.t) (k k' : string) :
  k' <> k -> SpanMap.get (SpanMap.delete m k') k = SpanMap.get m k.
Proof.
  intros Hne. induction m as [| [k0 v0] rest IH]; cbn [SpanMap.delete SpanMap.get].
  - reflexivity.
  - destruct (String.eqb k0 k') eqn:E.
    + apply String.eqb_eq in E. subst k0.
      apply String.eqb_neq in Hne. now rewrite Hne.
    + cbn [SpanMap.get]. now rewrite IH.
Qed.

(** Deleting the spans of a batch leaves alone an entry at the head whose
    key is the span id of none of them. *)
Lemma delete_batch_skips_head (batch : list OtelSpan.t) (k : string) (v : OtelSpan.t)
  (rest : SpanMap.t) :
  Forall (fun span => OtelSpan.spanId span <> k) batch ->
  for_of batch (fun span m => SpanMap.delete m (OtelSpan.spanId span)) ((k, v) :: rest) =
  (k, v) :: for_of batch (fun span m => SpanMap.delete m (OtelSpan.spanId span)) rest.
Proof.
  unfold for_of. revert rest.
  induction batch as [| span batch IH]; intros rest Hall; cbn [fold_left].
  - reflexivity.
  - inversion Hall as [| ? ? Hhead Htail]; subst.
    cbn [SpanMap.delete]. apply not_eq_sym in Hhead. apply String.eqb_neq in Hhead.
    rewrite Hhead. now apply IH.
Qed.

(** On a well-formed table, deleting the completed spans by their span ids
    leaves exactly the entries that are not completed. *)
Lemma delete_completed (m : SpanMap.t) :
  wellFormed m ->
  for_of (filter StackBased.completed (SpanMap.values m))
    (fun span m => SpanMap.delete m (OtelSpan.spanId span)) m = openEntries m.
Proof.
  intros [Hnodup Hkeys]. unfold openEntries.
  induction m as [| [k v] rest IH].
  - reflexivity.
  - cbn [SpanMap.keys map fst] in Hnodup. inversion Hnodup as [| ? ? Hfresh Hrest]; subst.
    inversion Hkeys as [| ? ? Hhead Htail]; subst. cbn [fst snd] in Hhead.
    cbn [SpanMap.values map snd filter].
    destruct (StackBased.completed v) eqn:Hv; cbn [negb].
    + unfold for_of. cbn [fold_left SpanMap.delete]. rewrite Hhead, String.eqb_refl.
      now apply IH.
    + rewrite delete_batch_skips_head; [f_equal; now apply IH |].
      apply Forall_forall. intros span Hspan Heq.
      apply filter_In in Hspan. destruct Hspan as [Hin _].
      apply in_map_iff in Hin. destruct Hin as ([k' v'] & Hsnd & Hin).
      cbn [snd] in Hsnd. subst v'.
      pose proof (proj1 (Forall_forall _ _) Htail _ Hin) as Hown. cbn [fst snd] in Hown.
      apply Hfresh. apply in_map_iff. exists (k', span). split; [| exact Hin].
      cbn [fst]. congruence.
Qed.

Lemma get_open_entry (m : SpanMap.t) (k : string) (span : OtelSpan.t) :
  SpanMap.get m k = Some span -> StackBased.completed span = false ->
  SpanMap.get (openEntries m) k = Some span.
Proof.
  unfold openEntries. induction m as [| [k0 v0] rest IH]; cbn [SpanMap.get filter snd].
  - discriminate.
  - destruct (String.eqb k0 k) eqn:E.
    + intros [= ->] Hopen. rewrite Hopen. cbn [negb SpanMap.get]. now rewrite E.
    + intros Hget Hopen. destruct (negb (StackBased.completed v0)); cbn [SpanMap.get];
        [rewrite E |]; now apply IH.
Qed.

Lemma get_completed_entry (m : SpanMap.t) (k : string) (span : OtelSpan.t) :
  NoDup (SpanMap.keys m) ->
  SpanMap.get m k = Some span -> StackBased.completed span = true ->
  SpanMap.get (openEntries m) k = None.
Proof.
  unfold openEntries. intros Hnodup Hget Hdone.
  apply get_None_not_key. intros Hin.
  apply in_map_iff in Hin. destruct Hin as ([k' v'] & Hk' & Hin). cbn [fst] in Hk'. subst k'.
  apply filter_In in Hin. destruct Hin as [Hin Hopen]. cbn [snd] in Hopen.
  revert Hnodup Hget Hin. clear -Hdone Hopen.
  induction m as [| [k0 v0] rest IH]; cbn [SpanMap.get SpanMap.keys map fst In].
  - intros _ _ [].
  - intros Hnodup Hget [Heq | Hin]; inversion Hnodup as [| ? ? Hfresh Hrest]; subst.
    + injection Heq as -> ->. rewrite String.eqb_refl in Hget. injection Hget as ->.
      rewrite Hdone in Hopen. discriminate.
    + destruct (String.eqb k0 k) eqn:E.
      * apply String.eqb_eq in E. subst k0. apply Hfresh.
        apply in_map_iff. now exists (k, v').
      * now apply IH.
Qed.

Section StackFlushFacts.
Context {host : JsHost}.
Import StackBased.

(** The stack-based flush when the send gets through. *)
Lemma stack_exportSpans_sent (c : Converter) (w : World.t) (payload : OtelTrace.t) :
  filter completed (SpanMap.values (spans c)) <> [] ->
  convertToOtelFormat (filter completed (SpanMap.values (spans c))) = Some payload ->
  World.network w (List.length (World.requests w)) = None ->
  exportSpans (c, w) =
  (Normal tt,
   ({| spans := for_of (filter completed (SpanMap.values (spans c)))
                  (fun span m => SpanMap.delete m (OtelSpan.spanId span)) (spans c);
       otelEndpoint := otelEndpoint c;
       rootSpanId := rootSpanId c;
       activeSpanStack := activeSpanStack c |},
    {| World.network := World.network w;
       World.requests := World.requests w ++ [exportRequest (otelEndpoint c) payload];
       World.console := World.console w |})).
Proof.
  intros Hne Hpayload Hnet. unfold exportSpans. unfold bind at 1. unfold this at 1.
  cbn [fst snd].
  destruct (filter completed (SpanMap.values (spans c))) as [| span rest] eqn:Hbatch;
    [contradiction |].
  cbn [List.length Nat.eqb]. rewrite Hpayload.
  unfold or_throw, try_catch, bind, ret, fetch, on_spans, update. cbn [fst snd].
  rewrite Hnet. reflexivity.
Qed.

(** The stack-based flush when no span has an endTime. *)
Lemma stack_exportSpans_nothing (c : Converter) (w : World.t) :
  filter completed (SpanMap.values (spans c)) = [] ->
  exportSpans (c, w) = (Normal tt, (c, w)).
Proof.
  intros Hnone. unfold exportSpans, bind, this. cbn [fst snd]. now rewrite Hnone.
Qed.

(** The stack-based flush when the formatter throws. *)
Lemma stack_exportSpans_throws (c : Converter) (w : World.t) :
  filter completed (SpanMap.values (spans c)) <> [] ->
  convertToOtelFormat (filter completed (SpanMap.values (spans c))) = None ->
  exportSpans (c, w) = (Throw cannotConvert, (c, w)).
Proof.
  intros Hne Hnone. unfold exportSpans. unfold bind at 1. unfold this at 1. cbn [fst snd].
  destruct (filter completed (SpanMap.values (spans c))) as [| span rest] eqn:Hbatch;
    [contradiction |].
  cbn [List.length Nat.eqb]. now rewrite Hnone.
Qed.

End StackFlushFacts.

(** The flush of the stack-based revision sends the spans that have an
    endTime, and only those.  With no such span it posts nothing and
    changes nothing.  Otherwise, when the formatter can convert them, it
    posts them in one request; when the send gets through, exactly those
    spans leave the table and every span without an endTime stays as it is;
    when the send fails, the error is logged and the converter keeps every
    span.  When the formatter cannot convert one of them, the flush throws
    before any request is made and changes nothing. *)
Theorem stack_flush_removes_completed_only :
  forall (host : JsHost) (c : StackBased.Converter) (w : World.t),
    wellFormed (StackBased.spans c) ->
    let batch := filter StackBased.completed (SpanMap.values (StackBased.spans c)) in
    let after := StackBased.exportSpans (c, w) in
    (batch = [] -> after = (Normal tt, (c, w))) /\
    (batch <> [] -> forallb exportable batch = false ->
     after = (Throw cannotConvert, (c, w))) /\
    (batch <> [] -> forallb exportable batch = true ->
     exists payload : OtelTrace.t,
       convertToOtelFormat batch = Some payload /\
       Forall2 carries batch (exportedSpans payload) /\
       fst after = Normal tt /\
       World.requests (snd (snd after)) =
         World.requests w ++ [exportRequest (StackBased.otelEndpoint c) payload] /\
       (World.network w (List.length (World.requests w)) = None ->
        StackBased.spans (fst (snd after)) = openEntries (StackBased.spans c) /\
        World.console (snd (snd after)) = World.console w /\
        forall (k : string) (span : OtelSpan.t),
          SpanMap.get (StackBased.spans c) k = Some span ->
          SpanMap.get (StackBased.spans (fst (snd after))) k =
            if StackBased.completed span then None else Some span) /\
       (forall e : string,
           World.network w (List.length (World.requests w)) = Some e ->
           fst (snd after) = c /\
           World.console (snd (snd after)) =
             World.console w ++ [("Failed to export traces to OTEL endpoint:", e)])).
Proof.
  intros host c w Hwf batch after.
  split; [| split].
  - intros Hbatch. subst after. now apply stack_exportSpans_nothing.
  - intros Hne Hall. subst after. apply stack_exportSpans_throws; [exact Hne |].
    now apply convertToOtelFormat_unexportable.
  - intros Hne Hall. destruct (convertToOtelFormat_exportable batch Hall) as [payload Hpayload].
    exists payload. split; [exact Hpayload |].
    split; [now apply convertToOtelFormat_carries |].
    destruct (World.network w (List.length (World.requests w))) as [err |] eqn:Hnet.
    + subst after. rewrite (stack_export_failure_is_caught host c w err payload Hne Hpayload Hnet).
      cbn [fst snd World.requests World.console].
      split; [reflexivity |]. split; [reflexivity |]. split; [discriminate |].
      intros e [= <-]. split; reflexivity.
    + subst after. rewrite (stack_exportSpans_sent c w payload Hne Hpayload Hnet).
      cbn [fst snd World.requests World.console StackBased.spans].
      rewrite (delete_completed _ Hwf).
      split; [reflexivity |]. split; [reflexivity |]. split; [| discriminate].
      intros _. split; [reflexivity |]. split; [reflexivity |].
      intros k s Hget. destruct (StackBased.completed s) eqn:Hs.
      * apply (get_completed_entry _ _ s (proj1 Hwf) Hget Hs).
      * apply (get_open_entry _ _ s Hget Hs).
Qed.

Lemma stack_flush_removes_completed_only_witness :
  let after := StackBased.exportSpans (host := exampleHost) (stackWithClosedChild, reachable) in
  exists payload : OtelTrace.t,
    fst after = Normal tt /\
    World.requests (snd (snd after)) =
      [exportRequest "http://localhost:4318/v1/traces" payload] /\
    map WireSpan.spanId (exportedSpans payload) = ["0000000000000002"] /\
    SpanMap.get (StackBased.spans (fst (snd after))) "1" = Some openRoot /\
    SpanMap.get (StackBased.spans (fst (snd after))) "2" = None.
Proof.
  assert (Hwf : wellFormed (StackBased.spans stackWithClosedChild)).
  { split.
    - repeat constructor; cbn; intuition discriminate.
    - repeat constructor. }
  assert (Hne : filter StackBased.completed
                  (SpanMap.values (StackBased.spans stackWithClosedChild)) <> [])
    by discriminate.
  destruct (proj2 (proj2 (stack_flush_removes_completed_only exampleHost stackWithClosedChild
                            reachable Hwf)) Hne eq_refl)
    as (payload & Hpayload & _ & Hnormal & Hposted & Hsent & _).
  destruct (Hsent eq_refl) as (_ & _ & Hkept).
  exists payload.
  split; [exact Hnormal |]. split; [exact Hposted |].
  split; [now injection Hpayload as <- |].
  split; [exact (Hkept "1" openRoot eq_refl) | exact (Hkept "2" closedChild eq_refl)].
Defined.

(** ** The outcome event in the stack-based revision *)

Lemma completed_by_endTime (s s' : OtelSpan.t) :
  OtelSpan.endTime s' = OtelSpan.endTime s ->
  StackBased.completed s' = StackBased.completed s.
Proof.
  unfold StackBased.completed. now intros ->.
Qed.

Section StackOutcomeFacts.
Context {host : JsHost}.
Import StackBased.

(** The write of the outcome handler, before its flush: it keeps the table
    well formed and every endTime. *)
Lemma stack_outcome_write (key : option string) (f : OtelSpan.t -> OtelSpan.t)
  (c : Converter) (w : World.t) (k : string) (span : OtelSpan.t) :
  (forall x, OtelSpan.endTime (f x) = OtelSpan.endTime x) ->
  (forall x, OtelSpan.spanId (f x) = OtelSpan.spanId x) ->
  wellFormed (spans c) ->
  SpanMap.get (spans c) k = Some span ->
  exists (m1 : SpanMap.t) (span1 : OtelSpan.t),
    (if truthy key then if_span key f else ret tt) (c, w) =
      (Normal tt,
       ({| spans := m1; otelEndpoint := otelEndpoint c; rootSpanId := rootSpanId c;
           activeSpanStack := activeSpanStack c |}, w)) /\
    wellFormed m1 /\
    SpanMap.get m1 k = Some span1 /\
    OtelSpan.endTime span1 = OtelSpan.endTime span /\
    (key = Some k -> k <> "" -> span1 = f span).
Proof.
  intros Hend Hid Hwf Hget.
  destruct (truthy key) eqn:Hkey.
  - rewrite stack_if_span_as_mutate.
    destruct key as [k0 |]; [| discriminate Hkey].
    destruct (String.eqb k0 k) eqn:E.
    + apply String.eqb_eq in E. subst k0.
      exists (SpanMap.mutate (spans c) k f), (f span).
      split; [reflexivity |]. split; [now apply wellFormed_mutate |].
      split; [now rewrite get_mutate_same, Hget |]. split; [apply Hend | reflexivity].
    + apply String.eqb_neq in E.
      exists (SpanMap.mutate (spans c) k0 f), span.
      split; [reflexivity |]. split; [now apply wellFormed_mutate |].
      split; [now rewrite get_mutate_other |]. split; [reflexivity |].
      intros [= ->]. contradiction.
  - exists (spans c), span. unfold ret.
    split; [now destruct c |]. split; [exact Hwf |]. split; [exact Hget |].
    split; [reflexivity |].
    intros -> Hne. now rewrite (truthy_some k Hne) in Hkey.
Qed.

(** The outcome handler is that write followed by the flush, which it does
    not await. *)
Lemma stack_handleOutcome_run (event : TailEvent.t Outcome.t) (c : Converter) (w : World.t) :
  handleOutcome event (c, w) =
  match (if truthy (rootSpanId c)
         then if_span (rootSpanId c) (stackOutcomeWrite (TailEvent.event event))
         else ret tt) (c, w) with
  | (Normal _, s) => unawaited exportSpans s
  | (Throw e, s) => (Throw e, s)
  end.
Proof.
  reflexivity.
Qed.

End StackOutcomeFacts.

(** In the stack-based revision the outcome event closes no span: it sets
    no endTime, so a span that has none when the outcome arrives (the root,
    unless a spanClose popped it) is not in the request that the outcome
    posts and is still in the table afterwards, with no endTime.  The
    request, if there is one, carries spans that had an endTime only.  The
    status and the two time tags that the handler writes into the root
    therefore stay behind with it.  The handler returns normally whatever
    the flush does. *)
Theorem stack_outcome_closes_no_span :
  forall (host : JsHost) (event : TailEvent.t EventType) (o : Outcome.t)
         (c : StackBased.Converter) (w : World.t) (k : string) (span : OtelSpan.t),
    TailEvent.event event = outcome o ->
    wellFormed (StackBased.spans c) ->
    SpanMap.get (StackBased.spans c) k = Some span ->
    StackBased.completed span = false ->
    let after := StackBased.handleEvent event (c, w) in
    fst after = Normal tt /\
    (exists span' : OtelSpan.t,
        SpanMap.get (StackBased.spans (fst (snd after))) k = Some span' /\
        OtelSpan.endTime span' = OtelSpan.endTime span /\
        (StackBased.rootSpanId c = Some k -> k <> "" ->
         OtelSpan.status span' = Some (outcomeStatus (Outcome.outcome o)) /\
         Object_get (OtelSpan.tags span') "cpu.time.ms" = Some (VNumber (Outcome.cpuTime o)) /\
         Object_get (OtelSpan.tags span') "wall.time.ms" =
           Some (VNumber (Outcome.wallTime o)))) /\
    (World.requests (snd (snd after)) = World.requests w \/
     exists (batch : list OtelSpan.t) (payload : OtelTrace.t),
       Forall (fun exported => StackBased.completed exported = true) batch /\
       convertToOtelFormat batch = Some payload /\
       Forall2 carries batch (exportedSpans payload) /\
       World.requests (snd (snd after)) =
         World.requests w ++ [exportRequest (StackBased.otelEndpoint c) payload]).
Proof.
  intros host [payload ctx ts] o c w k span Hev Hwf Hget Hopen after.
  cbn [TailEvent.event] in Hev. subst payload.
  destruct (stack_outcome_write (StackBased.rootSpanId c) (stackOutcomeWrite o) c w k span
              (fun x => eq_refl) (fun x => eq_refl) Hwf Hget)
    as (m1 & span1 & Hrun & Hwf1 & Hget1 & Hend1 & Hroot).
  set (c1 := {| StackBased.spans := m1;
                StackBased.otelEndpoint := StackBased.otelEndpoint c;
                StackBased.rootSpanId := StackBased.rootSpanId c;
                StackBased.activeSpanStack := StackBased.activeSpanStack c |}) in Hrun.
  assert (Hafter : after = unawaited StackBased.exportSpans (c1, w)).
  { subst after. unfold StackBased.handleEvent. cbn [TailEvent.event TailEvent.cast].
    rewrite stack_handleOutcome_run. cbn [TailEvent.event TailEvent.cast].
    now rewrite Hrun. }
  assert (Hopen1 : StackBased.completed span1 = false)
    by (now rewrite (completed_by_endTime span span1 Hend1)).
  assert (Hwritten :
            StackBased.rootSpanId c = Some k -> k <> "" ->
            OtelSpan.status span1 = Some (outcomeStatus (Outcome.outcome o)) /\
            Object_get (OtelSpan.tags span1) "cpu.time.ms" = Some (VNumber (Outcome.cpuTime o)) /\
            Object_get (OtelSpan.tags span1) "wall.time.ms" =
              Some (VNumber (Outcome.wallTime o))).
  { intros Hk Hne. rewrite (Hroot Hk Hne). unfold stackOutcomeWrite.
    cbn [OtelSpan.set_tag OtelSpan.set_status OtelSpan.status OtelSpan.tags].
    split; [reflexivity |].
    split; [rewrite Object_get_set_other by discriminate |];
      apply Object_get_set_same; discriminate. }
  assert (Hbatch : Forall (fun exported => StackBased.completed exported = true)
                     (filter StackBased.completed (SpanMap.values m1))).
  { apply Forall_forall. intros x Hx. now apply filter_In in Hx. }
  clearbody after. subst after. unfold unawaited.
  destruct (filter StackBased.completed (SpanMap.values (StackBased.spans c1)))
    as [| first rest] eqn:Hfilter.
  - rewrite (stack_exportSpans_nothing c1 w Hfilter). cbn [fst snd StackBased.spans c1].
    split; [reflexivity |].
    split; [exists span1; auto |]. now left.
  - assert (Hne : filter StackBased.completed (SpanMap.values (StackBased.spans c1)) <> [])
      by (rewrite Hfilter; discriminate).
    destruct (convertToOtelFormat
                (filter StackBased.completed (SpanMap.values (StackBased.spans c1))))
      as [payload |] eqn:Hpayload.
    + destruct (World.network w (List.length (World.requests w))) as [err |] eqn:Hnet.
      * rewrite (stack_export_failure_is_caught host c1 w err payload Hne Hpayload Hnet).
        cbn [fst snd StackBased.spans World.requests c1].
        split; [reflexivity |].
        split; [exists span1; auto |].
        right. exists (filter StackBased.completed (SpanMap.values m1)), payload.
        split; [exact Hbatch |]. split; [exact Hpayload |].
        split; [now apply convertToOtelFormat_carries | reflexivity].
      * rewrite (stack_exportSpans_sent c1 w payload Hne Hpayload Hnet).
        cbn [fst snd StackBased.spans World.requests c1].
        rewrite (delete_completed _ Hwf1).
        split; [reflexivity |].
        split; [exists span1; split; [now apply get_open_entry | auto] |].
        right. exists (filter StackBased.completed (SpanMap.values m1)), payload.
        split; [exact Hbatch |]. split; [exact Hpayload |].
        split; [now apply convertToOtelFormat_carries | reflexivity].
    + rewrite (stack_exportSpans_throws c1 w Hne Hpayload).
      cbn [fst snd StackBased.spans c1].
      split; [reflexivity |].
      split; [exists span1; auto |]. now left.
Qed.

Lemma stack_outcome_closes_no_span_witness :
  let after :=
    StackBased.handleEvent (host := exampleHost)
      (event_at 1003 "abc" None (outcome okOutcome)) (stackWithClosedChild, reachable) in
  fst after = Normal tt /\
  (exists span' : OtelSpan.t,
      SpanMap.get (StackBased.spans (fst (snd after))) "1" = Some span' /\
      OtelSpan.endTime span' = None /\
      OtelSpan.status span' = Some {| Status.code := OK; Status.message := Some "ok" |}).
Proof.
  assert (Hwf : wellFormed (StackBased.spans stackWithClosedChild)).
  { split.
    - repeat constructor; cbn; intuition discriminate.
    - repeat constructor. }
  destruct (stack_outcome_closes_no_span exampleHost
              (event_at 1003 "abc" None (outcome okOutcome)) okOutcome
              stackWithClosedChild reachable "1" openRoot eq_refl Hwf eq_refl eq_refl)
    as (Hnormal & (span' & Hget & Hend & Hwritten) & _).
  split; [exact Hnormal |].
  exists span'. split; [exact Hget |]. split; [exact Hend |].
  apply Hwritten; [reflexivity | discriminate].
Defined.

(** ** The table of the stack-based revision stays well formed *)

Lemma wellFormed_openEntries (m : SpanMap.t) : wellFormed m -> wellFormed (openEntries m).
Proof.
  unfold openEntries. intros [Hnodup Hkeys]. split.
  - clear Hkeys. unfold SpanMap.keys in *.
    induction m as [| [k v] rest IH]; cbn [filter map fst snd] in *.
    + constructor.
    + inversion Hnodup as [| ? ? Hfresh Hrest]; subst.
      destruct (negb (StackBased.completed v)); cbn [map fst]; [| now apply IH].
      constructor; [| now apply IH].
      intros Hin. apply Hfresh. apply in_map_iff in Hin.
      destruct Hin as (entry & Hfst & Hin). apply filter_In in Hin.
      apply in_map_iff. exists entry. tauto.
  - apply Forall_forall. intros entry Hin. apply filter_In in Hin.
    exact (proj1 (Forall_forall _ _) Hkeys entry (proj1 Hin)).
Qed.

Section StackTableFacts.
Context {host : JsHost}.
Import StackBased.

Lemma stack_exportSpans_wellFormed (c : Converter) (w : World.t) :
  wellFormed (spans c) -> wellFormed (spans (fst (snd (unawaited exportSpans (c, w))))).
Proof.
  intros Hwf. unfold unawaited. cbn [snd].
  destruct (filter completed (SpanMap.values (spans c))) as [| first rest] eqn:Hbatch.
  - now rewrite (stack_exportSpans_nothing c w Hbatch).
  - assert (Hne : filter completed (SpanMap.values (spans c)) <> [])
      by (rewrite Hbatch; discriminate).
    destruct (convertToOtelFormat (filter completed (SpanMap.values (spans c))))
      as [payload |] eqn:Hpayload.
    + destruct (World.network w (List.length (World.requests w))) as [err |] eqn:Hnet.
      * now rewrite (stack_export_failure_is_caught host c w err payload Hne Hpayload Hnet).
      * rewrite (stack_exportSpans_sent c w payload Hne Hpayload Hnet). cbn [fst snd spans].
        rewrite (delete_completed _ Hwf). now apply wellFormed_openEntries.
    + now rewrite (stack_exportSpans_throws c w Hne Hpayload).
Qed.

Lemma stack_if_span_wellFormed (key : option string) (f : OtelSpan.t -> OtelSpan.t)
  (c : Converter) (w : World.t) :
  (forall x, OtelSpan.spanId (f x) = OtelSpan.spanId x) ->
  wellFormed (spans c) -> wellFormed (spans (fst (snd (if_span key f (c, w))))).
Proof.
  intros Hf Hwf. rewrite stack_if_span_as_mutate. cbn [fst snd spans].
  destruct key; [now apply wellFormed_mutate | exact Hwf].
Qed.

Lemma stack_if_span_with_wellFormed {A : Type} (key : option string) (arg : option A)
  (error : string) (f : A -> OtelSpan.t -> OtelSpan.t) (c : Converter) (w : World.t) :
  (forall a x, OtelSpan.spanId (f a x) = OtelSpan.spanId x) ->
  wellFormed (spans c) ->
  wellFormed (spans (fst (snd (if_span_with key arg error f (c, w))))).
Proof.
  intros Hf Hwf. rewrite stack_if_span_with_run.
  destruct key as [k |]; [| exact Hwf].
  destruct (SpanMap.get (spans c) k); [| exact Hwf].
  destruct arg as [a |]; [| exact Hwf].
  cbn [fst snd spans]. apply wellFormed_mutate; [apply Hf | exact Hwf].
Qed.

End StackTableFacts.

(** The stack-based handlers keep the span table well formed as well: the
    table of a fresh converter has no span id twice and every span under
    its own id, and so has the table after any event, whether its handler
    returns or throws. *)
Theorem stack_table_stays_well_formed :
  forall (host : JsHost),
    (forall endpoint : option string, wellFormed (StackBased.spans (StackBased.new endpoint))) /\
    (forall (event : TailEvent.t EventType) (c : StackBased.Converter) (w : World.t),
        wellFormed (StackBased.spans c) ->
        wellFormed (StackBased.spans (fst (snd (StackBased.handleEvent event (c, w)))))).
Proof.
  intros host. split; [intros endpoint; apply wellFormed_empty |].
  intros [payload ctx ts] c w Hwf. unfold StackBased.handleEvent.
  destruct payload as [e | e | e | e | e | e | e | e | e | ty];
    cbn [TailEvent.event]; unfold TailEvent.cast;
    cbn [TailEvent.event TailEvent.spanContext TailEvent.timestamp].
  - unfold StackBased.handleOnset, StackBased.extractTags, bind, ret, throw, update, or_throw.
    cbn [TailEvent.event]. destruct (baseTags e); [| exact Hwf].
    destruct (Onset.attributes e); [| exact Hwf].
    cbn [fst snd StackBased.spans OtelSpan.spanId]. now apply wellFormed_set.
  - destruct (SpanOpen.info e) as [[method url | [attrs |] |] |] eqn:Hinfo.
    3:{ unfold StackBased.handleSpanOpen. cbv beta iota delta [bind this fst snd].
        cbn [TailEvent.event]. rewrite Hinfo. exact Hwf. }
    all: match goal with
         | |- context [StackBased.handleSpanOpen ?ev] =>
             destruct (stack_handleSpanOpen_run ev c w) as [tags Hrun];
             [cbn [TailEvent.event]; rewrite Hinfo; discriminate |];
             rewrite Hrun; cbn [fst snd StackBased.spans]; now apply wellFormed_set
         end.
  - unfold StackBased.handleAttributes.
    cbv beta iota delta [StackBased.targetSpanId bind this ret throw fst snd].
    match goal with
    | |- context [match StackBased.lookup c ?t with _ => _ end] =>
        destruct (StackBased.lookup c t); [| exact Hwf]
    end.
    cbn [TailEvent.event]. destruct (Attributes.info e) as [info |]; [| exact Hwf].
    apply stack_if_span_wellFormed; [apply for_of_set_tag_spanId | exact Hwf].
  - unfold StackBased.handleLog.
    cbv beta iota delta [StackBased.targetSpanId bind this ret fst snd].
    now apply stack_if_span_with_wellFormed.
  - unfold StackBased.handleSpanClose, StackBased.pop.
    cbv beta iota delta [bind this update ret fst snd].
    destruct (negb (truthy (StackBased.top c))); [exact Hwf |].
    now apply stack_if_span_wellFormed.
  - rewrite stack_handleOutcome_run.
    destruct (truthy (StackBased.rootSpanId c));
      [rewrite stack_if_span_as_mutate | unfold ret];
      apply stack_exportSpans_wellFormed; cbn [StackBased.spans]; [| exact Hwf].
    destruct (StackBased.rootSpanId c); [now apply wellFormed_mutate | exact Hwf].
  - unfold StackBased.handleException.
    cbv beta iota delta [StackBased.targetSpanId bind this ret fst snd].
    now apply stack_if_span_wellFormed.
  - unfold StackBased.handleReturn.
    cbv beta iota delta [StackBased.targetSpanId bind this ret fst snd].
    cbn [TailEvent.event]. destruct (Return.info e) as [info |]; [| exact Hwf].
    destruct (String.eqb (FetchResponseInfo.type info) "fetch"); [| exact Hwf].
    now apply stack_if_span_wellFormed.
  - unfold StackBased.handleDiagnosticChannel.
    cbv beta iota delta [StackBased.targetSpanId bind this ret fst snd].
    now apply stack_if_span_with_wellFormed.
  - exact Hwf.
Qed.

(** ** The wire format *)

Section WireFormatFacts.
Context {host : JsHost}.

(** The attributes that [convertEntries] answers are the properties of the
    object, each with its key and its encoded value, in the order of
    [Object.entries]. *)
Lemma convertEntries_perm (o : JsObject) (l : list KeyValue.t) :
  convertEntries o = Some l ->
  exists attributes : list KeyValue.t,
    Forall2 (fun (kv : string * JsValue) (attribute : KeyValue.t) =>
               KeyValue.key attribute = fst kv /\
               convertAttributeValue (snd kv) = Some (KeyValue.value attribute))
            o attributes /\
    Permutation l attributes.
Proof.
  unfold convertEntries. intros H. apply collect_map_Some in H.
  destruct (Permutation_Forall2 (Object_entries_perm o) H) as (attributes & Hperm & Hall).
  exists attributes. split; [| exact Hperm].
  clear H Hperm. induction Hall as [| kv attribute rest rest' Hhead _ IH]; constructor.
  - destruct (convertAttributeValue (snd kv)) as [a |]; [| discriminate].
    injection Hhead as <-. now split.
  - exact IH.
Qed.

End WireFormatFacts.

(** The formatter converts exactly the exportable spans, and nothing that
    such a span holds is lost or doubled on the wire: its tags become its
    attributes, one attribute per tag with the tag's key and encoded value,
    and its log entries become its events, one event named "log" per entry
    in the order of the entries, with the entry's fields as attributes in
    the same way. *)
Theorem every_tag_is_exported_once :
  forall (host : JsHost) (span : OtelSpan.t),
    let encoded := fun (kv : string * JsValue) (attribute : KeyValue.t) =>
      KeyValue.key attribute = fst kv /\
      convertAttributeValue (snd kv) = Some (KeyValue.value attribute) in
    (exportable span = true -> exists wire, convertSpan span = Some wire) /\
    (exportable span = false -> convertSpan span = None) /\
    (forall wire : WireSpan.t,
        convertSpan span = Some wire ->
        (exists attributes : list KeyValue.t,
            Forall2 encoded (OtelSpan.tags span) attributes /\
            Permutation (WireSpan.attributes wire) attributes) /\
        List.length (WireSpan.attributes wire) = List.length (OtelSpan.tags span) /\
        Forall2 (fun (entry : LogRecord.t) (event : WireEvent.t) =>
                   WireEvent.name event = "log" /\
                   WireEvent.timeUnixNano event = Number_toString (LogRecord.timestamp entry) /\
                   exists attributes : list KeyValue.t,
                     Forall2 encoded (LogRecord.fields entry) attributes /\
                     Permutation (WireEvent.attributes event) attributes)
                (OtelSpan.logs span) (WireSpan.events wire)).
Proof.
  intros host span encoded.
  split; [apply convertSpan_exportable |]. split; [apply convertSpan_unexportable |].
  intros wire. unfold convertSpan.
  destruct (convertEntries (OtelSpan.tags span)) as [attrs |] eqn:Hattrs; [| discriminate].
  destruct (collect (map convertLog (OtelSpan.logs span))) as [events |] eqn:Hevents;
    [| discriminate].
  intros [= <-]. cbn [WireSpan.attributes WireSpan.events].
  split; [now apply convertEntries_perm |].
  split; [now apply convertEntries_length |].
  apply collect_map_Some in Hevents.
  induction Hevents as [| entry event rest rest' Hhead _ IH]; constructor; [| exact IH].
  unfold convertLog in Hhead.
  destruct (convertEntries (LogRecord.fields entry)) as [fields |] eqn:Hfields;
    [| discriminate].
  injection Hhead as <-.
  cbn [WireEvent.name WireEvent.timeUnixNano WireEvent.attributes].
  split; [reflexivity |]. split; [reflexivity | now apply convertEntries_perm].
Qed.

Lemma every_tag_is_exported_once_witness :
  exists wire : WireSpan.t,
    convertSpan (host := exampleHost) openRoot = Some wire /\
    WireSpan.attributes wire =
      [{| KeyValue.key := "service.name"; KeyValue.value := stringValue "stw-local-dev" |}].
Proof.
  destruct (proj1 (every_tag_is_exported_once exampleHost openRoot) eq_refl) as [wire Hwire].
  exists wire. split; [exact Hwire |]. now injection Hwire as <-.
Defined.

(** The formatter converts exactly the batches whose spans are all
    exportable.  The payload carries one resource group with one scope,
    and in it one wire span per span of the batch, in the order of the
    batch.  Every wire span is of kind server and carries the span's name
    and status; its trace id has at least 32 code units and its span id at
    least 16, exactly so when the span's own id is not longer; a parent id,
    an end time and a status are left out exactly when the span has none
    (for the parent id: none or the empty string). *)
Theorem wire_spans_follow_batch :
  forall (host : JsHost) (batch : list OtelSpan.t),
    (forallb exportable batch = true ->
     exists payload, convertToOtelFormat batch = Some payload) /\
    (forallb exportable batch = false -> convertToOtelFormat batch = None) /\
    (forall payload : OtelTrace.t,
        convertToOtelFormat batch = Some payload ->
        List.length (OtelTrace.resourceSpans payload) = 1%nat /\
        Forall (fun group => List.length (ResourceSpans.scopeSpans group) = 1%nat)
               (OtelTrace.resourceSpans payload) /\
        Forall2 carries batch (exportedSpans payload) /\
        Forall2 (fun (span : OtelSpan.t) (wire : WireSpan.t) =>
                   WireSpan.kind wire = SERVER /\
                   WireSpan.name wire = OtelSpan.operationName span /\
                   WireSpan.status wire = OtelSpan.status span /\
                   String.length (WireSpan.traceId wire) =
                     Nat.max (String.length (OtelSpan.traceId span)) 32 /\
                   String.length (WireSpan.spanId wire) =
                     Nat.max (String.length (OtelSpan.spanId span)) 16 /\
                   (WireSpan.parentSpanId wire = None <->
                    truthy (OtelSpan.parentSpanId span) = false) /\
                   (WireSpan.endTimeUnixNano wire = None <-> OtelSpan.endTime span = None))
                batch (exportedSpans payload)).
Proof.
  intros host batch.
  split; [apply convertToOtelFormat_exportable |].
  split; [apply convertToOtelFormat_unexportable |].
  intros payload Hpayload.
  pose proof (convertToOtelFormat_carries _ _ Hpayload) as Hcarries.
  split; [| split; [| split; [exact Hcarries |]]].
  - unfold convertToOtelFormat in Hpayload.
    destruct (collect (map convertSpan batch)); [| discriminate]. now injection Hpayload as <-.
  - unfold convertToOtelFormat in Hpayload.
    destruct (collect (map convertSpan batch)); [| discriminate]. injection Hpayload as <-.
    repeat constructor.
  - clear Hpayload. revert Hcarries. generalize (exportedSpans payload) as exported.
    intros exported Hcarries.
    induction Hcarries as [| span wire rest wires Hhead _ IH]; constructor; [| exact IH].
    destruct Hhead as (Htrace & Hid & Hparent & Hname & Hkind & _ & Hend & Hstatus & _).
    split; [exact Hkind |]. split; [exact Hname |]. split; [exact Hstatus |].
    split; [rewrite Htrace; apply padHex_length_max |].
    split; [rewrite Hid; apply padHex_length_max |].
    split.
    + rewrite Hparent.
      destruct (OtelSpan.parentSpanId span) as [[| ch r] |]; cbn; split; congruence.
    + rewrite Hend. destruct (OtelSpan.endTime span); cbn; split; congruence.
Qed.

Lemma wire_spans_follow_batch_witness :
  exists payload : OtelTrace.t,
    convertToOtelFormat (host := exampleHost) [openRoot; closedChild] = Some payload /\
    map WireSpan.spanId (exportedSpans payload) = ["0000000000000001"; "0000000000000002"] /\
    map WireSpan.parentSpanId (exportedSpans payload) = [None; Some "0000000000000001"].
Proof.
  destruct (proj1 (wire_spans_follow_batch exampleHost [openRoot; closedChild]) eq_refl)
    as [payload Hpayload].
  exists payload. split; [exact Hpayload |]. now injection Hpayload as <-.
Defined.

Lemma stack_unresolved_target_is_dropped_witness :
  StackBased.handleEvent (host := exampleHost)
    (event_at 7 "abc" (Some "9") (log {| Log.level := "info"; Log.message := VString "late" |}))
    (stackWithRoot, reachable)
  = (Normal tt, (stackWithRoot, reachable)).
Proof.
  apply (stack_unresolved_target_is_dropped exampleHost); reflexivity.
Defined.

(** ** An outcome that resolves no root *)

Lemma mutate_found_none (m : SpanMap.t) (p : OtelSpan.t -> bool)
  (f : OtelSpan.t -> OtelSpan.t) :
  Forall (fun entry => p (snd entry) = false) m -> ContextBased.mutate_found m p f = m.
Proof.
  induction 1 as [| [k v] rest Hhead Htail IH]; cbn [ContextBased.mutate_found].
  - reflexivity.
  - cbn [snd] in Hhead. now rewrite Hhead, IH.
Qed.

(** When the outcome event resolves no root span (its context names a span
    that is not in the table, or it names none and every span of the table
    has a parent, as the root of a trace continued from upstream has), the
    handler writes nothing and flushes all the same: when the formatter can
    convert the spans, it posts every span of the table as it is, the root
    without endTime and without the outcome's status and time tags, and
    empties the table; when it cannot, nothing is posted and the table
    stays as it is.  The handler returns normally in both cases. *)
Theorem outcome_without_root_flushes_unchanged :
  forall (host : JsHost) (event : TailEvent.t EventType) (o : Outcome.t)
         (c : ContextBased.Converter) (w : World.t),
    TailEvent.event event = outcome o ->
    ContextBased.spans c <> [] ->
    let id := SpanContext.spanId (TailEvent.spanContext event) in
    (truthy id = true /\ ContextBased.lookup c id = None) \/
    (truthy id = false /\
     Forall (fun entry => truthy (OtelSpan.parentSpanId (snd entry)) = true)
            (ContextBased.spans c)) ->
    let batch := SpanMap.values (ContextBased.spans c) in
    let after := ContextBased.handleEvent event (c, w) in
    fst after = Normal tt /\
    (forallb exportable batch = true ->
     exists payload : OtelTrace.t,
       convertToOtelFormat batch = Some payload /\
       Forall2 carries batch (exportedSpans payload) /\
       World.requests (snd (snd after)) =
         World.requests w ++ [exportRequest (ContextBased.otelEndpoint c) payload] /\
       ContextBased.spans (fst (snd after)) = []) /\
    (forallb exportable batch = false -> snd after = (c, w)).
Proof.
  intros host [payload ctx ts] o c w Hev Hne id Hnone batch after.
  cbn [TailEvent.event TailEvent.spanContext] in Hev, id. subst payload.
  assert (Hafter : after = unawaited ContextBased.exportSpans (c, w)).
  { subst after. unfold ContextBased.handleEvent, ContextBased.handleOutcome.
    cbn [TailEvent.event TailEvent.cast TailEvent.spanContext TailEvent.timestamp].
    fold id. unfold bind.
    destruct Hnone as [[Hid Hmiss] | [Hid Hparents]]; rewrite Hid.
    - now rewrite (if_span_absent _ _ _ _ Hmiss).
    - unfold ContextBased.on_spans, update. cbn [fst snd].
      rewrite mutate_found_none; [now destruct c |].
      apply Forall_forall. intros entry Hin.
      unfold ContextBased.parentless.
      now rewrite (proj1 (Forall_forall _ _) Hparents entry Hin). }
  split; [now rewrite Hafter |]. split.
  - intros Hall. destruct (convertToOtelFormat_exportable batch Hall) as [payload Hpayload].
    exists payload. rewrite Hafter, (unawaited_exportSpans_run c w payload Hne Hpayload).
    split; [exact Hpayload |]. split; [now apply convertToOtelFormat_carries |].
    now split.
  - intros Hall. rewrite Hafter, (unawaited_exportSpans_throws c w Hne); [reflexivity |].
    now apply convertToOtelFormat_unexportable.
Qed.

Lemma outcome_without_root_flushes_unchanged_witness :
  let after :=
    ContextBased.handleEvent (host := exampleHost)
      (event_at 1003 "abc" None (outcome okOutcome)) (withContinuedRoot, reachable) in
  exists payload : OtelTrace.t,
    World.requests (snd (snd after)) =
      [exportRequest "http://localhost:4318/v1/traces" payload] /\
    map WireSpan.endTimeUnixNano (exportedSpans payload) = [None] /\
    OtelSpan.endTime continuedRoot = None /\
    ContextBased.spans (fst (snd after)) = [].
Proof.
  assert (Hne : ContextBased.spans withContinuedRoot <> []) by discriminate.
  assert (Hnone :
            (truthy (SpanContext.spanId
                       (TailEvent.spanContext
                          (event_at 1003 "abc" None (outcome okOutcome)))) = true /\
             ContextBased.lookup withContinuedRoot
               (SpanContext.spanId
                  (TailEvent.spanContext
                     (event_at 1003 "abc" None (outcome okOutcome)))) = None) \/
            (truthy (SpanContext.spanId
                       (TailEvent.spanContext
                          (event_at 1003 "abc" None (outcome okOutcome)))) = false /\
             Forall (fun entry => truthy (OtelSpan.parentSpanId (snd entry)) = true)
                    (ContextBased.spans withContinuedRoot))).
  { right. split; [reflexivity | repeat constructor]. }
  destruct (outcome_without_root_flushes_unchanged exampleHost
              (event_at 1003 "abc" None (outcome okOutcome)) okOutcome
              withContinuedRoot reachable eq_refl Hne Hnone)
    as (_ & Hflush & _).
  destruct (Hflush eq_refl) as (payload & Hpayload & _ & Hposted & Hempty).
  exists payload. split; [exact Hposted |].
  split; [now injection Hpayload as <- |].
  split; [reflexivity | exact Hempty].
Defined.
